(** * libecto: the request, authentication and dispatch layer of the Ghost
      Admin API client, embedded shallowly and checked against its
      specification.

    Layout of the development:
    - [error], [result]: the Go error values the package creates or receives;
    - [strings_Split], [hex_DecodeString], [ParseAPIKey]: the credential;
    - [GenerateTokenWithTime]: the token signer of auth.go over a model of
      golang-jwt's tokens;
    - the records of types.go;
    - [JSON]: the part of encoding/json the package relies on, and the tags
      of [Pagination], [APIError] and [ErrorResponse];
    - the transport and the resource accessors of client.go, in a state
      monad over the outside world (clock, network, file system);
    - the definitions the statements are written with and a small world to
      run the client in;
    - the properties, one block per part of the package. *)

From Stdlib Require Import ZArith Ascii String List Bool Lia.
From Stdlib Require Import DecimalString DecimalZ DecimalPos DecimalFacts.
From stdpp Require Import base option list sorting strings gmap.

Import ListNotations.
Local Open Scope string_scope.
Local Open Scope Z_scope.

(** ** Go values shared by the whole package *)

(** A []byte: each element is a value in [0, 256). *)
Abbreviation bytes := (list Z).

(** Go error values.  [errorString] is what [fmt.Errorf] returns for a format
    without the wrapping verb; [wrapError] is what it returns with it: the
    text is the prefix followed by the text of the wrapped error.  The other
    constructors are the error types of the libraries the package calls; an
    error of a library is never an [errorString] of this package. *)
Inductive error : Type :=
| errorString (text : string)
| wrapError (prefix : string) (err : error)
| hex_InvalidByteError (b : ascii)
| hex_ErrLength
| json_SyntaxError
| json_UnmarshalTypeError
| json_MarshalError (text : string)
| url_Error (text : string)
| fs_PathError (op path : string)
| io_Error (text : string)
| jwt_Error (text : string).

(** A Go result pair (value, err) in which the value is only read when err is
    nil. *)
Inductive result (A : Type) : Type :=
| Ok (a : A)
| Err (e : error).
Arguments Ok {A} a.
Arguments Err {A} e.

Definition is_Ok {A} (r : result A) : bool :=
  match r with Ok _ => true | Err _ => false end.

(** ** strings.Split with a one-byte separator *)

(** [strings.Split(s, sep)]: the substrings between the occurrences of [sep];
    n occurrences give n+1 substrings, and the empty string gives one empty
    substring. *)
Fixpoint strings_Split (s : string) (sep : ascii) : list string :=
  match s with
  | EmptyString => [EmptyString]
  | String c r =>
      if Ascii.eqb c sep then EmptyString :: strings_Split r sep
      else match strings_Split r sep with
           | p :: ps => String c p :: ps
           | [] => [String c EmptyString]
           end
  end.

(** Number of occurrences of a byte, [strings.Count] with a one-byte
    pattern. *)
Fixpoint strings_Count (s : string) (sep : ascii) : nat :=
  match s with
  | EmptyString => O
  | String c r => (if Ascii.eqb c sep then 1 else 0)%nat + strings_Count r sep
  end.

(** ** encoding/hex *)

(** [fromHexChar]: the value of a hexadecimal digit of either case. *)
Definition fromHexChar (c : ascii) : option Z :=
  let n := Z.of_N (N_of_ascii c) in
  if (48 <=? n) && (n <=? 57) then Some (n - 48)
  else if (97 <=? n) && (n <=? 102) then Some (n - 97 + 10)
  else if (65 <=? n) && (n <=? 70) then Some (n - 65 + 10)
  else None.

(** [hex.Decode]: pairs of digits are turned into bytes from the left; the
    first invalid digit stops the decoding, and a trailing single digit is
    reported as a bad length only when it is itself a digit.  The bytes decoded
    before the error are returned with it. *)
Fixpoint hex_Decode (src : string) : bytes * option error :=
  match src with
  | EmptyString => ([], None)
  | String p EmptyString =>
      match fromHexChar p with
      | None => ([], Some (hex_InvalidByteError p))
      | Some _ => ([], Some hex_ErrLength)
      end
  | String p (String q rest) =>
      match fromHexChar p with
      | None => ([], Some (hex_InvalidByteError p))
      | Some a =>
          match fromHexChar q with
          | None => ([], Some (hex_InvalidByteError q))
          | Some b =>
              let '(bs, e) := hex_Decode rest in
              (Z.lor (Z.shiftl a 4) b :: bs, e)
          end
      end
  end.

Definition hex_DecodeString (s : string) : bytes * option error :=
  hex_Decode s.

(** [hex.EncodeToString], lower-case digits. *)
Definition hexDigit (n : Z) : ascii :=
  if n <? 10 then ascii_of_N (Z.to_N (48 + n))
  else ascii_of_N (Z.to_N (97 + n - 10)).

Fixpoint hex_EncodeToString (src : bytes) : string :=
  match src with
  | [] => EmptyString
  | v :: rest =>
      String (hexDigit (Z.shiftr v 4))
        (String (hexDigit (Z.land v 15)) (hex_EncodeToString rest))
  end.

(** ** auth.go: ParseAPIKey *)

Definition ParseAPIKey (apiKey : string) : result (string * bytes) :=
  let parts := strings_Split apiKey ":"%char in
  match parts with
  | [id; sec] =>
      if String.eqb id "" then
        Err (errorString "invalid API key format: id cannot be empty")
      else if String.eqb sec "" then
        Err (errorString "invalid API key format: secret cannot be empty")
      else
        match hex_DecodeString sec with
        | (_, Some err) => Err (wrapError "invalid API key secret: " err)
        | (secret, None) => Ok (id, secret)
        end
  | _ => Err (errorString "invalid API key format: expected 'id:secret'")
  end.

(** ** time: instants and durations *)

(** The value an int64 holds after an operation that may overflow. *)
Definition wrap64 (z : Z) : Z := (z + 2 ^ 63) mod 2 ^ 64 - 2 ^ 63.

(** A [time.Duration] is an int64 count of nanoseconds. *)
Abbreviation Duration := Z.

Definition time_Second : Duration := 1000000000.
Definition time_Minute : Duration := 60 * time_Second.

(** A [time.Time].  The fields of its packed word [wall] are kept apart:
    the flag [hasMonotonic], the 33 bits of seconds since 1885 that are used
    under that flag, and the 30 bits of nanoseconds within the second.  [ext]
    is an int64: the seconds since the year 1 without the flag, the reading
    of the monotonic clock in nanoseconds with it.  The location is left
    out: [Add] and [Unix] do not look at it. *)
Record Time : Type := {
  Time_hasMonotonic : bool;
  Time_wallSeconds : Z;
  Time_nsec : Z;
  Time_ext : Z;
}.

Definition unixToInternal : Z :=
  (1969 * 365 + 1969 / 4 - 1969 / 100 + 1969 / 400) * 86400.
Definition internalToUnix : Z := - unixToInternal.
Definition wallToInternal : Z :=
  (1884 * 365 + 1884 / 4 - 1884 / 100 + 1884 / 400) * 86400.

(** [Time.sec]: the seconds since the year 1. *)
Definition Time_sec (t : Time) : Z :=
  if Time_hasMonotonic t then wrap64 (wallToInternal + Time_wallSeconds t)
  else Time_ext t.

(** [Time.unixSec] and [Time.Unix]. *)
Definition Time_unixSec (t : Time) : Z := wrap64 (Time_sec t + internalToUnix).

Definition Time_Unix (t : Time) : Z := Time_unixSec t.

(** [Time.stripMono]. *)
Definition Time_stripMono (t : Time) : Time :=
  if Time_hasMonotonic t then
    {| Time_hasMonotonic := false; Time_wallSeconds := 0;
       Time_nsec := Time_nsec t; Time_ext := Time_sec t |}
  else t.

(** [Time.addSec]: within the packed seconds when they can hold the sum;
    otherwise in [ext], where a sum that overflows stops at the largest or
    the smallest value. *)
Definition Time_addSec (t : Time) (d : Z) : Time :=
  let packed :=
    if Time_hasMonotonic t then
      let dsec := wrap64 (Time_wallSeconds t + d) in
      if (0 <=? dsec) && (dsec <=? 2 ^ 33 - 1) then
        Some {| Time_hasMonotonic := true; Time_wallSeconds := dsec;
                Time_nsec := Time_nsec t; Time_ext := Time_ext t |}
      else None
    else None in
  match packed with
  | Some t' => t'
  | None =>
      let t := Time_stripMono t in
      let sum := wrap64 (Time_ext t + d) in
      let ext' :=
        if Bool.eqb (Time_ext t <? sum) (0 <? d) then sum
        else if 0 <? d then 2 ^ 63 - 1
        else - (2 ^ 63 - 1) in
      {| Time_hasMonotonic := Time_hasMonotonic t;
         Time_wallSeconds := Time_wallSeconds t;
         Time_nsec := Time_nsec t; Time_ext := ext' |}
  end.

(** [Time.Add]. *)
Definition Time_Add (t : Time) (d : Duration) : Time :=
  let dsec := Z.quot d 1000000000 in
  let nsec := Time_nsec t + Z.rem d 1000000000 in
  let '(dsec, nsec) :=
    if 1000000000 <=? nsec then (dsec + 1, nsec - 1000000000)
    else if nsec <? 0 then (dsec - 1, nsec + 1000000000)
    else (dsec, nsec) in
  let t := {| Time_hasMonotonic := Time_hasMonotonic t;
              Time_wallSeconds := Time_wallSeconds t;
              Time_nsec := nsec; Time_ext := Time_ext t |} in
  let t := Time_addSec t dsec in
  if Time_hasMonotonic t then
    let te := wrap64 (Time_ext t + d) in
    if ((d <? 0) && (Time_ext t <? te)) || ((0 <? d) && (te <? Time_ext t))
    then Time_stripMono t
    else {| Time_hasMonotonic := Time_hasMonotonic t;
            Time_wallSeconds := Time_wallSeconds t;
            Time_nsec := Time_nsec t; Time_ext := te |}
  else t.

(** [time.Unix(sec, nsec)]. *)
Definition time_Unix (sec nsec : Z) : Time :=
  let '(sec, nsec) :=
    if (nsec <? 0) || (1000000000 <=? nsec) then
      let n := Z.quot nsec 1000000000 in
      let sec := wrap64 (sec + n) in
      let nsec := nsec - n * 1000000000 in
      if nsec <? 0 then (wrap64 (sec - 1), nsec + 1000000000) else (sec, nsec)
    else (sec, nsec) in
  {| Time_hasMonotonic := false; Time_wallSeconds := 0; Time_nsec := nsec;
     Time_ext := wrap64 (sec + unixToInternal) |}.

(** The instant of [time.Date(2025, 1, 15, 12, 0, 0, 0, time.UTC)], the date
    of the tests: 1736942400 seconds after the Unix epoch. *)
Definition fixedTime : Time := time_Unix 1736942400 0.

(** ** golang-jwt: tokens *)

(** A value stored behind [interface{}] in a header or claims map. *)
Inductive any : Type :=
| anyInt (n : Z)
| anyString (s : string).

Inductive SigningMethod : Type :=
| SigningMethodHS256.

Definition Alg (m : SigningMethod) : string :=
  match m with SigningMethodHS256 => "HS256" end.

Record Token : Type := mkToken {
  Method : SigningMethod;
  Header : gmap string any;
  Claims : gmap string any;
}.

(** [jwt.NewWithClaims]: the header starts with the type marker and the name
    of the algorithm. *)
Definition jwt_NewWithClaims (method : SigningMethod) (claims : gmap string any)
  : Token :=
  {| Method := method;
     Header := <["alg" := anyString (Alg method)]>
                 (<["typ" := anyString "JWT"]> ∅);
     Claims := claims |}.

(** The pure functions of the libraries, which the package only calls:
    JSON encoding of a string-keyed map, the unpadded URL-safe base64
    alphabet, the keyed hash of the signing method, URL parsing as far as
    [http.NewRequest] reports it, and the multipart framing. *)
Class Lib : Type := {
  json_MarshalMap : gmap string any → result string;
  base64_RawURLEncoding : string → string;
  hmac_SHA256 : bytes → string → string;
  url_Parse : string → option error;
  filepath_Base : string → string;
  multipart_partHeader : string → string → string → string;
  multipart_closing : string → string;
  multipart_FormDataContentType : string → string;
}.

Section Signer.
Context {L : Lib}.

(** [Token.SigningString]: the encoded header and claims joined by a dot. *)
Definition SigningString (t : Token) : result string :=
  match json_MarshalMap (Header t) with
  | Err e => Err e
  | Ok h =>
      match json_MarshalMap (Claims t) with
      | Err e => Err e
      | Ok c => Ok (base64_RawURLEncoding h ++ "." ++ base64_RawURLEncoding c)
      end
  end.

(** [SigningMethodHMAC.Sign] with a []byte key. *)
Definition Sign (m : SigningMethod) (signingString : string) (key : bytes)
  : result string :=
  match m with
  | SigningMethodHS256 => Ok (hmac_SHA256 key signingString)
  end.

(** [Token.SignedString]. *)
Definition SignedString (t : Token) (key : bytes) : result string :=
  match SigningString t with
  | Err e => Err e
  | Ok sstr =>
      match Sign (Method t) sstr key with
      | Err e => Err e
      | Ok sig => Ok (sstr ++ "." ++ base64_RawURLEncoding sig)
      end
  end.

(** auth.go, [GenerateTokenWithTime]. *)
Definition GenerateTokenWithTime (apiKey : string) (now : Time) : result string :=
  match ParseAPIKey apiKey with
  | Err err => Err err
  | Ok (id, secret) =>
      let claims : gmap string any :=
        <["aud" := anyString "/admin/"]>
          (<["exp" := anyInt (Time_Unix (Time_Add now (5 * time_Minute)))]>
             (<["iat" := anyInt (Time_Unix now)]> ∅)) in
      let token := jwt_NewWithClaims SigningMethodHS256 claims in
      let token := {| Method := Method token;
                      Header := <["kid" := anyString id]> (Header token);
                      Claims := Claims token |} in
      let token := {| Method := Method token;
                      Header := <["typ" := anyString "JWT"]> (Header token);
                      Claims := Claims token |} in
      SignedString token secret
  end.

End Signer.

(** ** types.go: the records the core reads *)

Record Tag : Type := {
  Tag_ID : string; Tag_Name : string; Tag_Slug : string;
  Tag_Description : string; Tag_FeatureImage : string;
  Tag_Visibility : string; Tag_PostCount : Z;
}.

Record Author : Type := {
  Author_ID : string; Author_Name : string; Author_Slug : string;
  Author_Email : string; Author_Bio : string; Author_Location : string;
  Author_Website : string; Author_Twitter : string; Author_Facebook : string;
  Author_ProfileImage : string;
}.

Record Post : Type := {
  Post_ID : string; Post_UUID : string; Post_Title : string;
  Post_Slug : string; Post_HTML : string; Post_Mobiledoc : string;
  Post_Status : string; Post_Visibility : string; Post_PublishedAt : string;
  Post_CreatedAt : string; Post_UpdatedAt : string; Post_Excerpt : string;
  Post_CustomExcerpt : string; Post_FeatureImage : string;
  Post_Featured : bool; Post_Tags : list Tag; Post_Authors : list Author;
}.

Record Page : Type := {
  Page_ID : string; Page_UUID : string; Page_Title : string;
  Page_Slug : string; Page_HTML : string; Page_Mobiledoc : string;
  Page_Status : string; Page_Visibility : string; Page_PublishedAt : string;
  Page_CreatedAt : string; Page_UpdatedAt : string; Page_FeatureImage : string;
  Page_Tags : list Tag; Page_Authors : list Author;
}.

Record Newsletter : Type := {
  Newsletter_ID : string; Newsletter_Name : string;
  Newsletter_Description : string; Newsletter_Status : string;
  Newsletter_Slug : string; Newsletter_SenderName : string;
  Newsletter_SenderEmail : string; Newsletter_SenderReplyTo : string;
  Newsletter_SubscribeOnSignup : bool;
}.

Record Webhook : Type := {
  Webhook_ID : string; Webhook_Event : string; Webhook_TargetURL : string;
  Webhook_Name : string; Webhook_Secret : string; Webhook_Status : string;
  Webhook_LastTriggeredAt : string; Webhook_IntegrationID : string;
}.

Record Image : Type := { Image_URL : string; Image_Ref : string }.

(** [Next] and [Prev] are pointers to an int: [None] is the nil pointer. *)
Record Pagination : Type := {
  Pagination_Page : Z; Pagination_Limit : Z; Pagination_Pages : Z;
  Pagination_Total : Z; Pagination_Next : option Z; Pagination_Prev : option Z;
}.

Record Meta : Type := { Meta_Pagination : Pagination }.

Record PostsResponse : Type := { Posts : list Post; Posts_Meta : option Meta }.
Record PagesResponse : Type := { Pages : list Page; Pages_Meta : option Meta }.
Record TagsResponse : Type := { Tags : list Tag; Tags_Meta : option Meta }.
Record UsersResponse : Type := { Users : list Author; Users_Meta : option Meta }.
Record NewslettersResponse : Type := { Newsletters : list Newsletter }.
Record WebhooksResponse : Type := { Webhooks : list Webhook }.
Record ImagesResponse : Type := { Images : list Image }.

Record APIError : Type := {
  APIError_Message : string; APIError_Context : string; APIError_Type : string;
}.

Record ErrorResponse : Type := { Errors : list APIError }.

(** The zero values of the response structures, what [var resp T] declares. *)
Definition zeroPagination : Pagination :=
  {| Pagination_Page := 0; Pagination_Limit := 0; Pagination_Pages := 0;
     Pagination_Total := 0; Pagination_Next := None; Pagination_Prev := None |}.
Definition zeroPostsResponse : PostsResponse := {| Posts := []; Posts_Meta := None |}.
Definition zeroPagesResponse : PagesResponse := {| Pages := []; Pages_Meta := None |}.
Definition zeroTagsResponse : TagsResponse := {| Tags := []; Tags_Meta := None |}.
Definition zeroUsersResponse : UsersResponse := {| Users := []; Users_Meta := None |}.
Definition zeroNewslettersResponse : NewslettersResponse := {| Newsletters := [] |}.
Definition zeroWebhooksResponse : WebhooksResponse := {| Webhooks := [] |}.
Definition zeroImagesResponse : ImagesResponse := {| Images := [] |}.
Definition zeroErrorResponse : ErrorResponse := {| Errors := [] |}.

(** ** encoding/json: the syntax *)

Module JSON.

(** A decoded JSON text.  A number keeps its literal: the decoder converts it
    only when it knows the Go type it is stored into. *)
#[local] Unset Elimination Schemes.
Inductive value : Type :=
| Null
| Bool (b : bool)
| Number (lit : string)
| Str (s : string)
| Array (elems : list value)
| Object (members : list (string * value)).
#[local] Set Elimination Schemes.

Definition code (c : ascii) : Z := Z.of_N (N_of_ascii c).
Definition chr (n : Z) : ascii := ascii_of_N (Z.to_N n).

Definition dquote : ascii := "034"%char.
Definition backslash : ascii := "092"%char.

(** Writes a literal of this file with single quotes where the JSON text has
    double quotes. *)
Fixpoint dq (s : string) : string :=
  match s with
  | EmptyString => EmptyString
  | String c r => String (if Ascii.eqb c "'" then dquote else c) (dq r)
  end.

Definition isSpace (c : ascii) : bool :=
  Ascii.eqb c " " || Ascii.eqb c "009" || Ascii.eqb c "010" || Ascii.eqb c "013".

Fixpoint skip_ws (s : string) : string :=
  match s with
  | String c r => if isSpace c then skip_ws r else s
  | EmptyString => s
  end.

Definition isDigit (c : ascii) : bool := (48 <=? code c) && (code c <=? 57).

Fixpoint take_digits (s : string) : string * string :=
  match s with
  | String c r =>
      if isDigit c then let '(d, r') := take_digits r in (String c d, r')
      else (EmptyString, s)
  | EmptyString => (EmptyString, EmptyString)
  end.

(** The number grammar of the scanner: an optional minus sign, an integer
    part without leading zero, an optional fraction, an optional exponent. *)
Definition scan_int (s : string) : option (string * string) :=
  match s with
  | String c r =>
      if Ascii.eqb c "0" then Some ("0", r)
      else if isDigit c then
        let '(d, r') := take_digits r in Some (String c d, r')
      else None
  | EmptyString => None
  end.

Definition scan_frac (s : string) : option (string * string) :=
  match s with
  | String c r =>
      if Ascii.eqb c "." then
        match take_digits r with
        | (EmptyString, _) => None
        | (d, r') => Some (String c d, r')
        end
      else Some (EmptyString, s)
  | EmptyString => Some (EmptyString, s)
  end.

Definition scan_sign (s : string) : string * string :=
  match s with
  | String c r =>
      if Ascii.eqb c "+" || Ascii.eqb c "-" then (String c EmptyString, r)
      else (EmptyString, s)
  | EmptyString => (EmptyString, s)
  end.

Definition scan_exp (s : string) : option (string * string) :=
  match s with
  | String c r =>
      if Ascii.eqb c "e" || Ascii.eqb c "E" then
        let '(sg, r1) := scan_sign r in
        match take_digits r1 with
        | (EmptyString, _) => None
        | (d, r') => Some (String c (sg ++ d), r')
        end
      else Some (EmptyString, s)
  | EmptyString => Some (EmptyString, s)
  end.

Definition scan_number (s : string) : option (string * string) :=
  let '(sg, s1) :=
    match s with
    | String c r => if Ascii.eqb c "-" then ("-", r) else (EmptyString, s)
    | EmptyString => (EmptyString, s)
    end in
  match scan_int s1 with
  | None => None
  | Some (i, s2) =>
      match scan_frac s2 with
      | None => None
      | Some (f, s3) =>
          match scan_exp s3 with
          | None => None
          | Some (e, s4) => Some (sg ++ i ++ f ++ e, s4)
          end
      end
  end.

(** [utf8.EncodeRune]; a surrogate or a value out of range is encoded as the
    replacement character. *)
Definition replacementChar : Z := 65533.

Definition encodeRune (r : Z) : string :=
  let r := if (r <? 0) || (1114111 <? r) || ((55296 <=? r) && (r <=? 57343))
           then replacementChar else r in
  if r <? 128 then String (chr r) EmptyString
  else if r <? 2048 then
    String (chr (Z.lor 192 (Z.shiftr r 6)))
      (String (chr (Z.lor 128 (Z.land r 63))) EmptyString)
  else if r <? 65536 then
    String (chr (Z.lor 224 (Z.shiftr r 12)))
      (String (chr (Z.lor 128 (Z.land (Z.shiftr r 6) 63)))
         (String (chr (Z.lor 128 (Z.land r 63))) EmptyString))
  else
    String (chr (Z.lor 240 (Z.shiftr r 18)))
      (String (chr (Z.lor 128 (Z.land (Z.shiftr r 12) 63)))
         (String (chr (Z.lor 128 (Z.land (Z.shiftr r 6) 63)))
            (String (chr (Z.lor 128 (Z.land r 63))) EmptyString))).

(** [getu4] on the four digits after the escape. *)
Definition hex4 (h1 h2 h3 h4 : ascii) : option Z :=
  match fromHexChar h1, fromHexChar h2, fromHexChar h3, fromHexChar h4 with
  | Some a, Some b, Some c, Some d => Some (((a * 16 + b) * 16 + c) * 16 + d)
  | _, _, _, _ => None
  end.

Definition simple_escape (e : ascii) : option ascii :=
  if Ascii.eqb e dquote then Some dquote
  else if Ascii.eqb e backslash then Some backslash
  else if Ascii.eqb e "/" then Some "/"%char
  else if Ascii.eqb e "b" then Some "008"%char
  else if Ascii.eqb e "f" then Some "012"%char
  else if Ascii.eqb e "n" then Some "010"%char
  else if Ascii.eqb e "r" then Some "013"%char
  else if Ascii.eqb e "t" then Some "009"%char
  else None.

(** The length of the well-formed UTF-8 sequence that starts with [c0] and
    continues with [r]; 0 when there is none ([utf8.DecodeRune] then yields
    the replacement character and a width of one byte). *)
Definition between (lo hi : Z) (c : ascii) : bool :=
  (lo <=? code c) && (code c <=? hi).

Definition utf8_seq (c0 : ascii) (r : string) : nat :=
  let n := code c0 in
  match r with
  | String c1 r1 =>
      if (194 <=? n) && (n <=? 223) then
        (if between 128 191 c1 then 2 else 0)%nat
      else
        let lo2 := if n =? 224 then 160 else if n =? 240 then 144 else 128 in
        let hi2 := if n =? 237 then 159 else if n =? 244 then 143 else 191 in
        if negb (between lo2 hi2 c1) then 0%nat
        else match r1 with
             | String c2 r2 =>
                 if negb (between 128 191 c2) then 0%nat
                 else if (224 <=? n) && (n <=? 239) then 3%nat
                 else if (240 <=? n) && (n <=? 244) then
                   match r2 with
                   | String c3 _ => if between 128 191 c3 then 4%nat else 0%nat
                   | EmptyString => 0%nat
                   end
                 else 0%nat
             | EmptyString => 0%nat
             end
  | EmptyString => 0%nat
  end.

Definition prepend (p : string) (r : option (string * string))
  : option (string * string) :=
  match r with
  | Some (s, rest) => Some (p ++ s, rest)
  | None => None
  end.

(** A string literal, from the byte after its opening quote: the unquoted
    contents and the text after the closing quote. *)
Fixpoint scan_string (s : string) : option (string * string) :=
  match s with
  | EmptyString => None
  | String c r =>
      if Ascii.eqb c dquote then Some (EmptyString, r)
      else if Ascii.eqb c backslash then
        match r with
        | EmptyString => None
        | String e r1 =>
            if Ascii.eqb e "u" then
              match r1 with
              | String h1 (String h2 (String h3 (String h4 r2))) =>
                  match hex4 h1 h2 h3 h4 with
                  | None => None
                  | Some rr =>
                      if (55296 <=? rr) && (rr <=? 57343) then
                        match r2 with
                        | String b (String u (String l1 (String l2
                            (String l3 (String l4 r3))))) =>
                            match (if Ascii.eqb b backslash && Ascii.eqb u "u"
                                   then hex4 l1 l2 l3 l4 else None) with
                            | Some rr1 =>
                                if (rr <? 56320) && (56320 <=? rr1) && (rr1 <=? 57343)
                                then prepend
                                       (encodeRune
                                          (Z.lor (Z.shiftl (rr - 55296) 10) (rr1 - 56320)
                                           + 65536))
                                       (scan_string r3)
                                else prepend (encodeRune replacementChar) (scan_string r2)
                            | None => prepend (encodeRune replacementChar) (scan_string r2)
                            end
                        | _ => prepend (encodeRune replacementChar) (scan_string r2)
                        end
                      else prepend (encodeRune rr) (scan_string r2)
                  end
              | _ => None
              end
            else
              match simple_escape e with
              | Some ch => prepend (String ch EmptyString) (scan_string r1)
              | None => None
              end
        end
      else if code c <? 32 then None
      else if code c <? 128 then prepend (String c EmptyString) (scan_string r)
      else
        match utf8_seq c r, r with
        | 2%nat, String c1 r1 =>
            prepend (String c (String c1 EmptyString)) (scan_string r1)
        | 3%nat, String c1 (String c2 r2) =>
            prepend (String c (String c1 (String c2 EmptyString))) (scan_string r2)
        | 4%nat, String c1 (String c2 (String c3 r3)) =>
            prepend (String c (String c1 (String c2 (String c3 EmptyString))))
              (scan_string r3)
        | _, _ => prepend (encodeRune replacementChar) (scan_string r)
        end
  end.

(** The scanner refuses more than this many open arrays and objects. *)
Definition maxNestingDepth : Z := 10000.

Fixpoint strip_prefix (p s : string) : option string :=
  match p with
  | EmptyString => Some s
  | String a p' =>
      match s with
      | String b s' => if Ascii.eqb a b then strip_prefix p' s' else None
      | EmptyString => None
      end
  end.

Definition literal (lit : string) (v : value) (s : string)
  : option (value * string) :=
  match strip_prefix lit s with
  | Some rest => Some (v, rest)
  | None => None
  end.

(** One value, after optional white space.  [fuel] bounds the number of
    nested calls, [depth] is the number of arrays and objects that are open. *)
Fixpoint parse_value (fuel : nat) (depth : Z) (s : string)
  : option (value * string) :=
  match fuel with
  | O => None
  | S fuel =>
      match skip_ws s with
      | EmptyString => None
      | String c r =>
          if Ascii.eqb c "{" then
            if maxNestingDepth <? depth + 1 then None
            else match skip_ws r with
                 | String c' r' =>
                     if Ascii.eqb c' "}" then Some (Object [], r')
                     else match parse_members fuel (depth + 1) r with
                          | Some (ms, rest) => Some (Object ms, rest)
                          | None => None
                          end
                 | EmptyString => None
                 end
          else if Ascii.eqb c "[" then
            if maxNestingDepth <? depth + 1 then None
            else match skip_ws r with
                 | String c' r' =>
                     if Ascii.eqb c' "]" then Some (Array [], r')
                     else match parse_elems fuel (depth + 1) r with
                          | Some (vs, rest) => Some (Array vs, rest)
                          | None => None
                          end
                 | EmptyString => None
                 end
          else if Ascii.eqb c dquote then
            match scan_string r with
            | Some (str, rest) => Some (Str str, rest)
            | None => None
            end
          else if Ascii.eqb c "n" then literal "ull" Null r
          else if Ascii.eqb c "t" then literal "rue" (Bool true) r
          else if Ascii.eqb c "f" then literal "alse" (Bool false) r
          else if Ascii.eqb c "-" || isDigit c then
            match scan_number (String c r) with
            | Some (lit, rest) => Some (Number lit, rest)
            | None => None
            end
          else None
      end
  end
with parse_elems (fuel : nat) (depth : Z) (s : string)
  : option (list value * string) :=
  match fuel with
  | O => None
  | S fuel =>
      match parse_value fuel depth s with
      | None => None
      | Some (v, r) =>
          match skip_ws r with
          | String c r' =>
              if Ascii.eqb c "," then
                match parse_elems fuel depth r' with
                | Some (vs, rest) => Some (v :: vs, rest)
                | None => None
                end
              else if Ascii.eqb c "]" then Some ([v], r')
              else None
          | EmptyString => None
          end
      end
  end
with parse_members (fuel : nat) (depth : Z) (s : string)
  : option (list (string * value) * string) :=
  match fuel with
  | O => None
  | S fuel =>
      match skip_ws s with
      | String c r =>
          if Ascii.eqb c dquote then
            match scan_string r with
            | None => None
            | Some (k, r1) =>
                match skip_ws r1 with
                | String c2 r2 =>
                    if Ascii.eqb c2 ":" then
                      match parse_value fuel depth r2 with
                      | None => None
                      | Some (v, r3) =>
                          match skip_ws r3 with
                          | String c3 r4 =>
                              if Ascii.eqb c3 "," then
                                match parse_members fuel depth r4 with
                                | Some (ms, rest) => Some ((k, v) :: ms, rest)
                                | None => None
                                end
                              else if Ascii.eqb c3 "}" then Some ([(k, v)], r4)
                              else None
                          | EmptyString => None
                          end
                      end
                    else None
                | EmptyString => None
                end
            end
          else None
      | EmptyString => None
      end
  end.

(** A whole text: one value and nothing but white space after it.  The fuel
    is twice the length of the text and two: a call of the three functions
    above consumes a byte of its own or is the first call for an element. *)
Definition parse (s : string) : option value :=
  match parse_value (2 * String.length s + 2) 0 s with
  | Some (v, r) =>
      match skip_ws r with
      | EmptyString => Some v
      | String _ _ => None
      end
  | None => None
  end.

(** *** Decoding into Go values *)

Definition firstErr (e1 e2 : option error) : option error :=
  match e1 with Some _ => e1 | None => e2 end.

(** [strconv.ParseInt(lit, 10, 64)] on a number literal, and
    [strconv.FormatInt(z, 10)]. *)
Definition strconv_ParseInt (lit : string) : option Z :=
  match NilZero.int_of_string lit with
  | Some d =>
      let z := Z.of_int d in
      if (- 2 ^ 63 <=? z) && (z <? 2 ^ 63) then Some z else None
  | None => None
  end.

Definition strconv_Itoa (z : Z) : string := NilZero.string_of_int (Z.to_int z).

(** Into an int: null leaves the value alone, a literal that is not a 64-bit
    integer and any other kind of value are type errors that leave it alone. *)
Definition decodeInt (v : value) (old : Z) : Z * option error :=
  match v with
  | Null => (old, None)
  | Number lit =>
      match strconv_ParseInt lit with
      | Some z => (z, None)
      | None => (old, Some json_UnmarshalTypeError)
      end
  | _ => (old, Some json_UnmarshalTypeError)
  end.

(** Into a pointer to an int: null stores the nil pointer; anything else
    first allocates a zero when the pointer is nil. *)
Definition decodeIntPtr (v : value) (old : option Z) : option Z * option error :=
  match v with
  | Null => (None, None)
  | _ => let '(z, e) := decodeInt v (default 0 old) in (Some z, e)
  end.

Definition decodeString (v : value) (old : string) : string * option error :=
  match v with
  | Null => (old, None)
  | Str s => (s, None)
  | _ => (old, Some json_UnmarshalTypeError)
  end.

(** The field a key selects: the field with that name, else the first field
    whose name is the key after both are folded.  [foldName] turns ASCII
    letters into upper case and every other rune into the smallest rune it
    is equal to under Unicode's simple case folding.  Only two runes outside
    ASCII are equal to an ASCII letter that way: U+017F, the long s, to S, and
    U+212A, the Kelvin sign, to K.  The names the package decodes into are
    ASCII, so the other runes, which match none of them, are left as they
    are. *)
Definition foldByte (c : ascii) : ascii :=
  if between 97 122 c then chr (code c - 32) else c.

Fixpoint foldName (s : string) : string :=
  match s with
  | EmptyString => EmptyString
  | String c r =>
      if code c <? 128 then String (foldByte c) (foldName r)
      else
        match r with
        | String c1 r1 =>
            if (code c =? 197) && (code c1 =? 191) then String "S" (foldName r1)
            else
              match r1 with
              | String c2 r2 =>
                  if (code c =? 226) && (code c1 =? 132) && (code c2 =? 170)
                  then String "K" (foldName r2)
                  else String c (foldName r)
              | EmptyString => String c (foldName r)
              end
        | EmptyString => String c EmptyString
        end
  end.

Definition equalFold (a b : string) : bool :=
  String.eqb (foldName a) (foldName b).

Fixpoint index_where (f : string → bool) (l : list string) : option nat :=
  match l with
  | [] => None
  | x :: l' => if f x then Some O else option_map S (index_where f l')
  end.

Definition findField (names : list string) (key : string) : option nat :=
  match index_where (String.eqb key) names with
  | Some i => Some i
  | None => index_where (equalFold key) names
  end.

(** An object into a structure: the members in their order, each into the
    field its key selects; the first error is the one reported, and the
    decoding goes on after it. *)
Fixpoint decodeMembers {T : Type} (set : T → string → value → T * option error)
    (ms : list (string * value)) (t : T) : T * option error :=
  match ms with
  | [] => (t, None)
  | (k, v) :: ms' =>
      let '(t1, e1) := set t k v in
      let '(t2, e2) := decodeMembers set ms' t1 in
      (t2, firstErr e1 e2)
  end.

Definition decodeStruct {T : Type} (set : T → string → value → T * option error)
    (v : value) (t : T) : T * option error :=
  match v with
  | Null => (t, None)
  | Object ms => decodeMembers set ms t
  | _ => (t, Some json_UnmarshalTypeError)
  end.

(** An array into a slice: element i is decoded into the element the slice
    already has at i, or into a zero value. *)
Fixpoint decodeElems {T : Type} (dec : value → T → T * option error) (zero : T)
    (vs : list value) (old : list T) : list T * option error :=
  match vs with
  | [] => ([], None)
  | v :: vs' =>
      let '(x, e1) := dec v (hd zero old) in
      let '(xs, e2) := decodeElems dec zero vs' (tl old) in
      (x :: xs, firstErr e1 e2)
  end.

Definition decodeSlice {T : Type} (dec : value → T → T * option error) (zero : T)
    (v : value) (old : list T) : list T * option error :=
  match v with
  | Null => ([], None)
  | Array vs => decodeElems dec zero vs old
  | _ => (old, Some json_UnmarshalTypeError)
  end.

(** [json.Unmarshal(data, &t)] for a decoder of the type of [t]: a text that
    is not JSON changes nothing. *)
Definition Unmarshal {T : Type} (dec : value → T → T * option error)
    (data : string) (t : T) : T * option error :=
  match parse data with
  | None => (t, Some json_SyntaxError)
  | Some v => dec v t
  end.

(** *** Encoding a structure *)

(** A field as the encoder sees it: the name of its tag, whether the tag says
    omitempty, whether the value is the empty value of its type, and the
    encoded value. *)
Record field : Type := {
  name : string; omitempty : bool; isEmpty : bool; encoded : string;
}.

Definition quote (k : string) : string :=
  String dquote (k ++ String dquote EmptyString).

Fixpoint join (sep : string) (l : list string) : string :=
  match l with
  | [] => EmptyString
  | [x] => x
  | x :: l' => x ++ sep ++ join sep l'
  end.

Definition marshalStruct (fs : list field) : string :=
  "{" ++ join ","
           (map (λ f, quote (name f) ++ ":" ++ encoded f)
              (List.filter (λ f, negb (omitempty f && isEmpty f)) fs))
      ++ "}".

Definition marshalIntPtr (o : option Z) : string :=
  match o with
  | None => "null"
  | Some n => strconv_Itoa n
  end.

End JSON.

(** ** types.go: the JSON tags of Pagination, APIError and ErrorResponse *)

(** [Pagination]: six fields, none with omitempty. *)
Definition Pagination_fields (p : Pagination) : list JSON.field :=
  [ {| JSON.name := "page"; JSON.omitempty := false;
       JSON.isEmpty := Pagination_Page p =? 0;
       JSON.encoded := JSON.strconv_Itoa (Pagination_Page p) |};
    {| JSON.name := "limit"; JSON.omitempty := false;
       JSON.isEmpty := Pagination_Limit p =? 0;
       JSON.encoded := JSON.strconv_Itoa (Pagination_Limit p) |};
    {| JSON.name := "pages"; JSON.omitempty := false;
       JSON.isEmpty := Pagination_Pages p =? 0;
       JSON.encoded := JSON.strconv_Itoa (Pagination_Pages p) |};
    {| JSON.name := "total"; JSON.omitempty := false;
       JSON.isEmpty := Pagination_Total p =? 0;
       JSON.encoded := JSON.strconv_Itoa (Pagination_Total p) |};
    {| JSON.name := "next"; JSON.omitempty := false;
       JSON.isEmpty := bool_decide (Pagination_Next p = None);
       JSON.encoded := JSON.marshalIntPtr (Pagination_Next p) |};
    {| JSON.name := "prev"; JSON.omitempty := false;
       JSON.isEmpty := bool_decide (Pagination_Prev p = None);
       JSON.encoded := JSON.marshalIntPtr (Pagination_Prev p) |} ].

(** [json.Marshal] of a Pagination. *)
Definition Pagination_Marshal (p : Pagination) : string :=
  JSON.marshalStruct (Pagination_fields p).

Definition Pagination_set (p : Pagination) (key : string) (v : JSON.value)
  : Pagination * option error :=
  match JSON.findField ["page"; "limit"; "pages"; "total"; "next"; "prev"] key with
  | Some 0%nat =>
      let '(n, e) := JSON.decodeInt v (Pagination_Page p) in
      ({| Pagination_Page := n; Pagination_Limit := Pagination_Limit p;
          Pagination_Pages := Pagination_Pages p;
          Pagination_Total := Pagination_Total p;
          Pagination_Next := Pagination_Next p;
          Pagination_Prev := Pagination_Prev p |}, e)
  | Some 1%nat =>
      let '(n, e) := JSON.decodeInt v (Pagination_Limit p) in
      ({| Pagination_Page := Pagination_Page p; Pagination_Limit := n;
          Pagination_Pages := Pagination_Pages p;
          Pagination_Total := Pagination_Total p;
          Pagination_Next := Pagination_Next p;
          Pagination_Prev := Pagination_Prev p |}, e)
  | Some 2%nat =>
      let '(n, e) := JSON.decodeInt v (Pagination_Pages p) in
      ({| Pagination_Page := Pagination_Page p;
          Pagination_Limit := Pagination_Limit p; Pagination_Pages := n;
          Pagination_Total := Pagination_Total p;
          Pagination_Next := Pagination_Next p;
          Pagination_Prev := Pagination_Prev p |}, e)
  | Some 3%nat =>
      let '(n, e) := JSON.decodeInt v (Pagination_Total p) in
      ({| Pagination_Page := Pagination_Page p;
          Pagination_Limit := Pagination_Limit p;
          Pagination_Pages := Pagination_Pages p; Pagination_Total := n;
          Pagination_Next := Pagination_Next p;
          Pagination_Prev := Pagination_Prev p |}, e)
  | Some 4%nat =>
      let '(n, e) := JSON.decodeIntPtr v (Pagination_Next p) in
      ({| Pagination_Page := Pagination_Page p;
          Pagination_Limit := Pagination_Limit p;
          Pagination_Pages := Pagination_Pages p;
          Pagination_Total := Pagination_Total p; Pagination_Next := n;
          Pagination_Prev := Pagination_Prev p |}, e)
  | Some 5%nat =>
      let '(n, e) := JSON.decodeIntPtr v (Pagination_Prev p) in
      ({| Pagination_Page := Pagination_Page p;
          Pagination_Limit := Pagination_Limit p;
          Pagination_Pages := Pagination_Pages p;
          Pagination_Total := Pagination_Total p;
          Pagination_Next := Pagination_Next p; Pagination_Prev := n |}, e)
  | _ => (p, None)
  end.

(** [json.Unmarshal(data, &p)] for a Pagination. *)
Definition Pagination_Unmarshal (data : string) (p : Pagination)
  : Pagination * option error :=
  JSON.Unmarshal (JSON.decodeStruct Pagination_set) data p.

Definition zeroAPIError : APIError :=
  {| APIError_Message := ""; APIError_Context := ""; APIError_Type := "" |}.

Definition APIError_set (a : APIError) (key : string) (v : JSON.value)
  : APIError * option error :=
  match JSON.findField ["message"; "context"; "type"] key with
  | Some 0%nat =>
      let '(x, e) := JSON.decodeString v (APIError_Message a) in
      ({| APIError_Message := x; APIError_Context := APIError_Context a;
          APIError_Type := APIError_Type a |}, e)
  | Some 1%nat =>
      let '(x, e) := JSON.decodeString v (APIError_Context a) in
      ({| APIError_Message := APIError_Message a; APIError_Context := x;
          APIError_Type := APIError_Type a |}, e)
  | Some 2%nat =>
      let '(x, e) := JSON.decodeString v (APIError_Type a) in
      ({| APIError_Message := APIError_Message a;
          APIError_Context := APIError_Context a; APIError_Type := x |}, e)
  | _ => (a, None)
  end.

Definition ErrorResponse_set (r : ErrorResponse) (key : string) (v : JSON.value)
  : ErrorResponse * option error :=
  match JSON.findField ["errors"] key with
  | Some 0%nat =>
      let '(x, e) :=
        JSON.decodeSlice (JSON.decodeStruct APIError_set) zeroAPIError v (Errors r) in
      ({| Errors := x |}, e)
  | _ => (r, None)
  end.

(** [json.Unmarshal(data, &errResp)] for an ErrorResponse. *)
Definition ErrorResponse_Unmarshal (data : string) (r : ErrorResponse)
  : ErrorResponse * option error :=
  JSON.Unmarshal (JSON.decodeStruct ErrorResponse_set) data r.

(** ** client.go: the outside world *)

(** What [json.Marshal] and [json.Unmarshal] do for the type of a body or of
    a result.  Decoding is in place: it starts from the value the result
    already holds and returns it as the call leaves it, also on failure. *)
Class Marshaler (B : Type) : Type :=
  json_Marshal : B → result string.

Class Unmarshaler (R : Type) : Type :=
  json_Unmarshal : string → R → R * option error.

(** The type of an untyped nil passed for a body or a result. *)
Inductive untyped_nil : Type := .

#[export] Instance untyped_nil_Marshaler : Marshaler untyped_nil :=
  λ b, match b with end.
#[export] Instance untyped_nil_Unmarshaler : Unmarshaler untyped_nil :=
  λ _ r, match r with end.

Definition nobody : option untyped_nil := None.

(** An [io.Reader] read to its end: the bytes it yields and the error that
    ended the reading, if any. *)
Record Reader : Type := { data : string; readErr : option error }.

Definition io_ReadAll (r : Reader) : string * option error :=
  (data r, readErr r).

Record Request : Type := {
  Request_Method : string;
  Request_URL : string;
  Request_Header : gmap string string;
  Request_Body : option string;
}.

Record Response : Type := { StatusCode : Z; Body : Reader }.

Definition Header_Set (req : Request) (key val : string) : Request :=
  {| Request_Method := Request_Method req; Request_URL := Request_URL req;
     Request_Header := <[key := val]> (Request_Header req);
     Request_Body := Request_Body req |}.

(** The calls that are recorded, in their order: every entry into [do], every
    request handed to the HTTP client, every file that is opened.  The record
    is not part of the program; it is there to state which calls were made. *)
Inductive Event : Type :=
| EvDo (method path : string)
| EvHTTP (req : Request)
| EvOpen (path : string).

(** The operations of the world outside the process: the clock, the file
    system, and the source of multipart boundaries. *)
Class World (W : Type) : Type := {
  time_Now : W → Time * W;
  os_Open : string → W → result Reader * W;
  multipart_randomBoundary : W → string * W;
}.

Section Monad.
Context {W : Type}.

Record State : Type := { world : W; trace : list Event }.

(** Computations that read and change the world. *)
Definition M (A : Type) : Type := State → A * State.

Definition ret {A : Type} (a : A) : M A := λ s, (a, s).

Definition bind {A B : Type} (m : M A) (k : A → M B) : M B :=
  λ s, let '(a, s') := m s in k a s'.

Definition emit (e : Event) : M unit :=
  λ s, (tt, {| world := world s; trace := trace s ++ [e] |}).

Definition liftW {A : Type} (f : W → A * W) : M A :=
  λ s, let '(a, w) := f (world s) in (a, {| world := w; trace := trace s |}).

End Monad.

Arguments State W : clear implicits.
Arguments M W A : clear implicits.

Notation "'let*' x ':=' m 'in' k" := (bind m (λ x, k))
  (at level 10, x pattern, m at level 100, k at level 200).

Section Client.
Context {W : Type} {Wd : World W} {L : Lib}.

(** A client: the base URL, the credential, and the HTTP client, which is a
    way to exchange a request for a response with the world. *)
Record Client : Type := {
  baseURL : string;
  apiKey : string;
  httpClient : Request → W → result Response * W;
}.

(** auth.go, [GenerateToken]: as [GenerateTokenWithTime], at the time the
    clock shows. *)
Definition GenerateToken (apiKey : string) : M W (result string) :=
  match ParseAPIKey apiKey with
  | Err err => ret (Err err)
  | Ok (id, secret) =>
      let* now := liftW time_Now in
      let claims : gmap string any :=
        <["aud" := anyString "/admin/"]>
          (<["exp" := anyInt (Time_Unix (Time_Add now (5 * time_Minute)))]>
             (<["iat" := anyInt (Time_Unix now)]> ∅)) in
      let token := jwt_NewWithClaims SigningMethodHS256 claims in
      let token := {| Method := Method token;
                      Header := <["kid" := anyString id]> (Header token);
                      Claims := Claims token |} in
      let token := {| Method := Method token;
                      Header := <["typ" := anyString "JWT"]> (Header token);
                      Claims := Claims token |} in
      ret (SignedString token secret)
  end.

(** [http.NewRequest]: fails when the URL does not parse.  The methods the
    package passes are all valid. *)
Definition http_NewRequest (method url : string) (body : option string)
  : result Request :=
  match url_Parse url with
  | Some err => Err err
  | None => Ok {| Request_Method := method; Request_URL := url;
                  Request_Header := ∅; Request_Body := body |}
  end.

Definition request {B : Type} {Benc : Marshaler B} (c : Client) (method path : string)
    (body : option B) : M W (result Response) :=
  let* tok := GenerateToken (apiKey c) in
  match tok with
  | Err err => ret (Err (wrapError "generating token: " err))
  | Ok token =>
      let bodyReader : result (option string) :=
        match body with
        | None => Ok None
        | Some b =>
            match json_Marshal b with
            | Err err => Err err
            | Ok data => Ok (Some data)
            end
        end in
      match bodyReader with
      | Err err => ret (Err err)
      | Ok bodyReader =>
          let url := baseURL c ++ path in
          match http_NewRequest method url bodyReader with
          | Err err => ret (Err err)
          | Ok req =>
              let req := Header_Set req "Authorization" ("Ghost " ++ token) in
              let req := match body with
                         | Some _ => Header_Set req "Content-Type" "application/json"
                         | None => req
                         end in
              let* _ := emit (EvHTTP req) in
              liftW (httpClient c req)
          end
      end
  end.

(** [do] returns the result as the call leaves it together with the error. *)
Definition do {B R : Type} {Benc : Marshaler B} {Rdec : Unmarshaler R}
    {ErrorResponse_dec : Unmarshaler ErrorResponse} (c : Client) (method path : string)
    (body : option B) (result : option R) : M W (option R * option error) :=
  let* _ := emit (EvDo method path) in
  let* r := request c method path body in
  match r with
  | Err err => ret (result, Some err)
  | Ok resp =>
      let '(respBody, err) := io_ReadAll (Body resp) in
      match err with
      | Some err => ret (result, Some err)
      | None =>
          if 400 <=? StatusCode resp then
            let '(errResp, uerr) := json_Unmarshal respBody zeroErrorResponse in
            match uerr, Errors errResp with
            | None, e0 :: _ =>
                let msg := APIError_Message e0 in
                let msg := if String.eqb (APIError_Context e0) "" then msg
                           else msg ++ ": " ++ APIError_Context e0 in
                ret (result,
                     Some (errorString
                             ("API error (" ++ JSON.strconv_Itoa (StatusCode resp)
                              ++ "): " ++ msg)))
            | _, _ =>
                ret (result,
                     Some (errorString
                             ("API error (" ++ JSON.strconv_Itoa (StatusCode resp)
                              ++ "): " ++ respBody)))
            end
          else
            match result with
            | Some r =>
                let '(r', uerr) := json_Unmarshal respBody r in
                ret (Some r', uerr)
            | None => ret (None, None)
            end
      end
  end.

(** The encoders and decoders of the bodies and results the accessors use. *)
Context {ErrorResponse_dec : Unmarshaler ErrorResponse}.
Context {Posts_enc : Marshaler (gmap string (list Post))}
        {Posts_dec : Unmarshaler PostsResponse}.
Context {Pages_enc : Marshaler (gmap string (list Page))}
        {Pages_dec : Unmarshaler PagesResponse}.
Context {Tags_enc : Marshaler (gmap string (list Tag))}
        {Tags_dec : Unmarshaler TagsResponse}.
Context {Users_dec : Unmarshaler UsersResponse}.
Context {Newsletters_dec : Unmarshaler NewslettersResponse}.
Context {Webhooks_enc : Marshaler (gmap string (list Webhook))}
        {Webhooks_dec : Unmarshaler WebhooksResponse}.
Context {Images_dec : Unmarshaler ImagesResponse}.

(** In the accessors a call with a result hands the result back, and
    [default] only takes it out of its option. *)

(** *** Posts *)

Definition GetPost (c : Client) (idOrSlug : string) : M W (result Post) :=
  let resp := zeroPostsResponse in
  let* (r, err) :=
    do c "GET" ("/posts/" ++ idOrSlug ++ "/?formats=html") nobody (Some resp) in
  let resp := default resp r in
  let* (resp, err) :=
    match err with
    | Some _ =>
        let* (r, err) :=
          do c "GET" ("/posts/slug/" ++ idOrSlug ++ "/?formats=html") nobody (Some resp) in
        ret (default resp r, err)
    | None => ret (resp, None)
    end in
  match err with
  | Some err => ret (Err err)
  | None =>
      match Posts resp with
      | [] => ret (Err (errorString ("post not found: " ++ idOrSlug)))
      | x :: _ => ret (Ok x)
      end
  end.

Definition CreatePost (c : Client) (post : Post) : M W (result Post) :=
  let body : gmap string (list Post) := {["posts" := [post]]} in
  let resp := zeroPostsResponse in
  let* (r, err) := do c "POST" ("/posts/?source=html&formats=html") (Some body) (Some resp) in
  let resp := default resp r in
  match err with
  | Some err => ret (Err err)
  | None =>
      match Posts resp with
      | [] => ret (Err (errorString "no post returned"))
      | x :: _ => ret (Ok x)
      end
  end.

Definition UpdatePost (c : Client) (id : string) (post : Post) : M W (result Post) :=
  let body : gmap string (list Post) := {["posts" := [post]]} in
  let resp := zeroPostsResponse in
  let* (r, err) := do c "PUT" ("/posts/" ++ id ++ "/?source=html&formats=html") (Some body) (Some resp) in
  let resp := default resp r in
  match err with
  | Some err => ret (Err err)
  | None =>
      match Posts resp with
      | [] => ret (Err (errorString "no post returned"))
      | x :: _ => ret (Ok x)
      end
  end.

Definition DeletePost (c : Client) (id : string) : M W (option error) :=
  let* (_, err) := do c "DELETE" ("/posts/" ++ id ++ "/") nobody nobody in
  ret err.

(** *** Pages *)

Definition GetPage (c : Client) (idOrSlug : string) : M W (result Page) :=
  let resp := zeroPagesResponse in
  let* (r, err) :=
    do c "GET" ("/pages/" ++ idOrSlug ++ "/?formats=html") nobody (Some resp) in
  let resp := default resp r in
  let* (resp, err) :=
    match err with
    | Some _ =>
        let* (r, err) :=
          do c "GET" ("/pages/slug/" ++ idOrSlug ++ "/?formats=html") nobody (Some resp) in
        ret (default resp r, err)
    | None => ret (resp, None)
    end in
  match err with
  | Some err => ret (Err err)
  | None =>
      match Pages resp with
      | [] => ret (Err (errorString ("page not found: " ++ idOrSlug)))
      | x :: _ => ret (Ok x)
      end
  end.

Definition CreatePage (c : Client) (page : Page) : M W (result Page) :=
  let body : gmap string (list Page) := {["pages" := [page]]} in
  let resp := zeroPagesResponse in
  let* (r, err) := do c "POST" ("/pages/?formats=html") (Some body) (Some resp) in
  let resp := default resp r in
  match err with
  | Some err => ret (Err err)
  | None =>
      match Pages resp with
      | [] => ret (Err (errorString "no page returned"))
      | x :: _ => ret (Ok x)
      end
  end.

Definition UpdatePage (c : Client) (id : string) (page : Page) : M W (result Page) :=
  let body : gmap string (list Page) := {["pages" := [page]]} in
  let resp := zeroPagesResponse in
  let* (r, err) := do c "PUT" ("/pages/" ++ id ++ "/?formats=html") (Some body) (Some resp) in
  let resp := default resp r in
  match err with
  | Some err => ret (Err err)
  | None =>
      match Pages resp with
      | [] => ret (Err (errorString "no page returned"))
      | x :: _ => ret (Ok x)
      end
  end.

Definition DeletePage (c : Client) (id : string) : M W (option error) :=
  let* (_, err) := do c "DELETE" ("/pages/" ++ id ++ "/") nobody nobody in
  ret err.

(** *** Tags *)

Definition GetTag (c : Client) (idOrSlug : string) : M W (result Tag) :=
  let resp := zeroTagsResponse in
  let* (r, err) :=
    do c "GET" ("/tags/" ++ idOrSlug ++ "/") nobody (Some resp) in
  let resp := default resp r in
  let* (resp, err) :=
    match err with
    | Some _ =>
        let* (r, err) :=
          do c "GET" ("/tags/slug/" ++ idOrSlug ++ "/") nobody (Some resp) in
        ret (default resp r, err)
    | None => ret (resp, None)
    end in
  match err with
  | Some err => ret (Err err)
  | None =>
      match Tags resp with
      | [] => ret (Err (errorString ("tag not found: " ++ idOrSlug)))
      | x :: _ => ret (Ok x)
      end
  end.

Definition CreateTag (c : Client) (tag : Tag) : M W (result Tag) :=
  let body : gmap string (list Tag) := {["tags" := [tag]]} in
  let resp := zeroTagsResponse in
  let* (r, err) := do c "POST" ("/tags/") (Some body) (Some resp) in
  let resp := default resp r in
  match err with
  | Some err => ret (Err err)
  | None =>
      match Tags resp with
      | [] => ret (Err (errorString "no tag returned"))
      | x :: _ => ret (Ok x)
      end
  end.

Definition UpdateTag (c : Client) (id : string) (tag : Tag) : M W (result Tag) :=
  let body : gmap string (list Tag) := {["tags" := [tag]]} in
  let resp := zeroTagsResponse in
  let* (r, err) := do c "PUT" ("/tags/" ++ id ++ "/") (Some body) (Some resp) in
  let resp := default resp r in
  match err with
  | Some err => ret (Err err)
  | None =>
      match Tags resp with
      | [] => ret (Err (errorString "no tag returned"))
      | x :: _ => ret (Ok x)
      end
  end.

Definition DeleteTag (c : Client) (id : string) : M W (option error) :=
  let* (_, err) := do c "DELETE" ("/tags/" ++ id ++ "/") nobody nobody in
  ret err.

(** *** Users *)

Definition GetUser (c : Client) (idOrSlug : string) : M W (result Author) :=
  let resp := zeroUsersResponse in
  let* (r, err) :=
    do c "GET" ("/users/" ++ idOrSlug ++ "/") nobody (Some resp) in
  let resp := default resp r in
  let* (resp, err) :=
    match err with
    | Some _ =>
        let* (r, err) :=
          do c "GET" ("/users/slug/" ++ idOrSlug ++ "/") nobody (Some resp) in
        ret (default resp r, err)
    | None => ret (resp, None)
    end in
  match err with
  | Some err => ret (Err err)
  | None =>
      match Users resp with
      | [] => ret (Err (errorString ("user not found: " ++ idOrSlug)))
      | x :: _ => ret (Ok x)
      end
  end.

(** *** Newsletters *)

Definition GetNewsletter (c : Client) (id : string) : M W (result Newsletter) :=
  let resp := zeroNewslettersResponse in
  let* (r, err) := do c "GET" ("/newsletters/" ++ id ++ "/") nobody (Some resp) in
  let resp := default resp r in
  match err with
  | Some err => ret (Err err)
  | None =>
      match Newsletters resp with
      | [] => ret (Err (errorString ("newsletter not found: " ++ id)))
      | x :: _ => ret (Ok x)
      end
  end.

(** *** Webhooks *)

Definition CreateWebhook (c : Client) (webhook : Webhook) : M W (result Webhook) :=
  let body : gmap string (list Webhook) := {["webhooks" := [webhook]]} in
  let resp := zeroWebhooksResponse in
  let* (r, err) := do c "POST" ("/webhooks/") (Some body) (Some resp) in
  let resp := default resp r in
  match err with
  | Some err => ret (Err err)
  | None =>
      match Webhooks resp with
      | [] => ret (Err (errorString "no webhook returned"))
      | x :: _ => ret (Ok x)
      end
  end.

Definition DeleteWebhook (c : Client) (id : string) : M W (option error) :=
  let* (_, err) := do c "DELETE" ("/webhooks/" ++ id ++ "/") nobody nobody in
  ret err.

(** *** Images *)

(** [multipart.NewWriter] draws a boundary; [CreateFormFile] writes the part
    header into the buffer, [io.Copy] the bytes of the file, [Close] the
    closing line.  Writing into the buffer does not fail. *)
Definition UploadImage (c : Client) (filePath : string)
  : M W (result ImagesResponse) :=
  let* tok := GenerateToken (apiKey c) in
  match tok with
  | Err err => ret (Err (wrapError "generating token: " err))
  | Ok token =>
      let* _ := emit (EvOpen filePath) in
      let* f := liftW (os_Open filePath) in
      match f with
      | Err err => ret (Err err)
      | Ok file =>
          let* boundary := liftW multipart_randomBoundary in
          let buf := multipart_partHeader boundary "file" (filepath_Base filePath) in
          let '(content, err) := io_ReadAll file in
          match err with
          | Some err => ret (Err err)
          | None =>
              let buf := buf ++ content ++ multipart_closing boundary in
              match http_NewRequest "POST" (baseURL c ++ "/images/upload/") (Some buf) with
              | Err err => ret (Err err)
              | Ok req =>
                  let req := Header_Set req "Authorization" ("Ghost " ++ token) in
                  let req := Header_Set req "Content-Type"
                               (multipart_FormDataContentType boundary) in
                  let* _ := emit (EvHTTP req) in
                  let* r := liftW (httpClient c req) in
                  match r with
                  | Err err => ret (Err err)
                  | Ok resp =>
                      let '(respBody, err) := io_ReadAll (Body resp) in
                      match err with
                      | Some err => ret (Err err)
                      | None =>
                          if 400 <=? StatusCode resp then
                            ret (Err (errorString
                                        ("upload failed ("
                                         ++ JSON.strconv_Itoa (StatusCode resp)
                                         ++ "): " ++ respBody)))
                          else
                            let '(result, err) :=
                              json_Unmarshal respBody zeroImagesResponse in
                            match err with
                            | Some err => ret (Err err)
                            | None => ret (Ok result)
                            end
                      end
                  end
              end
          end
      end
  end.

End Client.

(** ** client.go: the rest of the package *)

(** [strings.HasSuffix] and [strings.TrimSuffix]. *)
Definition strings_HasSuffix (s suffix : string) : bool :=
  (String.length suffix <=? String.length s)%nat
  && String.eqb
       (String.substring (String.length s - String.length suffix)
          (String.length suffix) s)
       suffix.

Definition strings_TrimSuffix (s suffix : string) : string :=
  if strings_HasSuffix s suffix
  then String.substring 0 (String.length s - String.length suffix) s
  else s.

Record Site : Type := {
  Site_Title : string; Site_Description : string; Site_Logo : string;
  Site_Icon : string; Site_URL : string; Site_Version : string;
}.

Record SiteResponse : Type := { SiteResponse_Site : Site }.

(** The value of a setting is whatever the JSON text holds. *)
Record Setting : Type := { Setting_Key : string; Setting_Value : JSON.value }.

Record SettingsResponse : Type := { Settings : list Setting }.

Definition zeroSite : Site :=
  {| Site_Title := ""; Site_Description := ""; Site_Logo := "";
     Site_Icon := ""; Site_URL := ""; Site_Version := "" |}.
Definition zeroSiteResponse : SiteResponse := {| SiteResponse_Site := zeroSite |}.
Definition zeroSettingsResponse : SettingsResponse := {| Settings := [] |}.

(** The zero values of a post and of a page, what a composite literal leaves
    in the fields it does not name. *)
Definition zeroPost : Post :=
  {| Post_ID := ""; Post_UUID := ""; Post_Title := ""; Post_Slug := "";
     Post_HTML := ""; Post_Mobiledoc := ""; Post_Status := "";
     Post_Visibility := ""; Post_PublishedAt := ""; Post_CreatedAt := "";
     Post_UpdatedAt := ""; Post_Excerpt := ""; Post_CustomExcerpt := "";
     Post_FeatureImage := ""; Post_Featured := false; Post_Tags := [];
     Post_Authors := [] |}.

Definition zeroPage : Page :=
  {| Page_ID := ""; Page_UUID := ""; Page_Title := ""; Page_Slug := "";
     Page_HTML := ""; Page_Mobiledoc := ""; Page_Status := "";
     Page_Visibility := ""; Page_PublishedAt := ""; Page_CreatedAt := "";
     Page_UpdatedAt := ""; Page_FeatureImage := ""; Page_Tags := [];
     Page_Authors := [] |}.

(** [&Post{UpdatedAt: u, Status: st, PublishedAt: at}] and
    [&Page{UpdatedAt: u, Status: st}]. *)
Definition Post_literal (updatedAt status publishedAt : string) : Post :=
  {| Post_ID := ""; Post_UUID := ""; Post_Title := ""; Post_Slug := "";
     Post_HTML := ""; Post_Mobiledoc := ""; Post_Status := status;
     Post_Visibility := ""; Post_PublishedAt := publishedAt;
     Post_CreatedAt := ""; Post_UpdatedAt := updatedAt; Post_Excerpt := "";
     Post_CustomExcerpt := ""; Post_FeatureImage := ""; Post_Featured := false;
     Post_Tags := []; Post_Authors := [] |}.

Definition Page_literal (updatedAt status : string) : Page :=
  {| Page_ID := ""; Page_UUID := ""; Page_Title := ""; Page_Slug := "";
     Page_HTML := ""; Page_Mobiledoc := ""; Page_Status := status;
     Page_Visibility := ""; Page_PublishedAt := ""; Page_CreatedAt := "";
     Page_UpdatedAt := updatedAt; Page_FeatureImage := ""; Page_Tags := [];
     Page_Authors := [] |}.

Section ClientRest.
Context {W : Type} {Wd : World W} {L : Lib}.
Context {ErrorResponse_dec : Unmarshaler ErrorResponse}.
Context {Posts_enc : Marshaler (gmap string (list Post))}
        {Posts_dec : Unmarshaler PostsResponse}.
Context {Pages_enc : Marshaler (gmap string (list Page))}
        {Pages_dec : Unmarshaler PagesResponse}.
Context {Tags_dec : Unmarshaler TagsResponse}.
Context {Users_dec : Unmarshaler UsersResponse}.
Context {Site_dec : Unmarshaler SiteResponse}.
Context {Settings_dec : Unmarshaler SettingsResponse}.
Context {Newsletters_dec : Unmarshaler NewslettersResponse}.
Context {Webhooks_dec : Unmarshaler WebhooksResponse}.
Context {Images_dec : Unmarshaler ImagesResponse}.

(** A [ClientOption] changes the client it is applied to. *)
Definition ClientOption : Type := Client (W := W) → Client (W := W).

Definition WithHTTPClient (client : Request → W → result Response * W)
  : ClientOption :=
  λ c, {| baseURL := baseURL c; apiKey := apiKey c; httpClient := client |}.

(** [NewClient]; [defaultClient] is the [&http.Client{}] it starts with. *)
Definition NewClient (defaultClient : Request → W → result Response * W)
    (url apiKey : string) (opts : list ClientOption) : Client :=
  let url := strings_TrimSuffix url "/" in
  let c := {| baseURL := url ++ "/ghost/api/admin"; apiKey := apiKey;
              httpClient := defaultClient |} in
  fold_left (λ c opt, opt c) opts c.

Definition BaseURL (c : Client (W := W)) : string := baseURL c.

(** The path of a listing: the filter clause when the status is neither empty
    nor "all", the limit clause when the limit is positive. *)
Definition ListPosts (c : Client) (status : string) (limit : Z)
  : M W (result PostsResponse) :=
  let path := "/posts/?formats=html" in
  let path := if negb (String.eqb status "") && negb (String.eqb status "all")
              then path ++ "&filter=status:" ++ status else path in
  let path := if 0 <? limit
              then path ++ "&limit=" ++ JSON.strconv_Itoa limit else path in
  let resp := zeroPostsResponse in
  let* (r, err) := do c "GET" path nobody (Some resp) in
  let resp := default resp r in
  match err with
  | Some err => ret (Err err)
  | None => ret (Ok resp)
  end.

Definition ListPages (c : Client) (status : string) (limit : Z)
  : M W (result PagesResponse) :=
  let path := "/pages/?formats=html" in
  let path := if negb (String.eqb status "") && negb (String.eqb status "all")
              then path ++ "&filter=status:" ++ status else path in
  let path := if 0 <? limit
              then path ++ "&limit=" ++ JSON.strconv_Itoa limit else path in
  let resp := zeroPagesResponse in
  let* (r, err) := do c "GET" path nobody (Some resp) in
  let resp := default resp r in
  match err with
  | Some err => ret (Err err)
  | None => ret (Ok resp)
  end.

Definition ListTags (c : Client) (limit : Z) : M W (result TagsResponse) :=
  let path := "/tags/?include=count.posts" in
  let path := if 0 <? limit
              then path ++ "&limit=" ++ JSON.strconv_Itoa limit else path in
  let resp := zeroTagsResponse in
  let* (r, err) := do c "GET" path nobody (Some resp) in
  let resp := default resp r in
  match err with
  | Some err => ret (Err err)
  | None => ret (Ok resp)
  end.

Definition ListUsers (c : Client) : M W (result UsersResponse) :=
  let resp := zeroUsersResponse in
  let* (r, err) := do c "GET" "/users/" nobody (Some resp) in
  let resp := default resp r in
  match err with
  | Some err => ret (Err err)
  | None => ret (Ok resp)
  end.

Definition GetSite (c : Client) : M W (result Site) :=
  let resp := zeroSiteResponse in
  let* (r, err) := do c "GET" "/site/" nobody (Some resp) in
  let resp := default resp r in
  match err with
  | Some err => ret (Err err)
  | None => ret (Ok (SiteResponse_Site resp))
  end.

Definition GetSettings (c : Client) : M W (result SettingsResponse) :=
  let resp := zeroSettingsResponse in
  let* (r, err) := do c "GET" "/settings/" nobody (Some resp) in
  let resp := default resp r in
  match err with
  | Some err => ret (Err err)
  | None => ret (Ok resp)
  end.

Definition ListNewsletters (c : Client) : M W (result NewslettersResponse) :=
  let resp := zeroNewslettersResponse in
  let* (r, err) := do c "GET" "/newsletters/" nobody (Some resp) in
  let resp := default resp r in
  match err with
  | Some err => ret (Err err)
  | None => ret (Ok resp)
  end.

Definition ListWebhooks (c : Client) : M W (result WebhooksResponse) :=
  let resp := zeroWebhooksResponse in
  let* (r, err) := do c "GET" "/webhooks/" nobody (Some resp) in
  let resp := default resp r in
  match err with
  | Some err => ret (Err err)
  | None => ret (Ok resp)
  end.

(** The compound operations: the record is fetched, then updated under its
    own identifier with the fetched [UpdatedAt] and the new status. *)
Definition PublishPost (c : Client) (idOrSlug : string) : M W (result Post) :=
  let* existing := GetPost c idOrSlug in
  match existing with
  | Err err => ret (Err err)
  | Ok existing =>
      UpdatePost c (Post_ID existing)
        (Post_literal (Post_UpdatedAt existing) "published" "")
  end.

Definition UnpublishPost (c : Client) (idOrSlug : string) : M W (result Post) :=
  let* existing := GetPost c idOrSlug in
  match existing with
  | Err err => ret (Err err)
  | Ok existing =>
      UpdatePost c (Post_ID existing)
        (Post_literal (Post_UpdatedAt existing) "draft" "")
  end.

Definition SchedulePost (c : Client) (idOrSlug publishAt : string)
  : M W (result Post) :=
  let* existing := GetPost c idOrSlug in
  match existing with
  | Err err => ret (Err err)
  | Ok existing =>
      UpdatePost c (Post_ID existing)
        (Post_literal (Post_UpdatedAt existing) "scheduled" publishAt)
  end.

Definition PublishPage (c : Client) (idOrSlug : string) : M W (result Page) :=
  let* existing := GetPage c idOrSlug in
  match existing with
  | Err err => ret (Err err)
  | Ok existing =>
      UpdatePage c (Page_ID existing)
        (Page_literal (Page_UpdatedAt existing) "published")
  end.

(** [UploadImageReader]: as [UploadImage], from a reader and a file name. *)
Definition UploadImageReader (c : Client) (r : Reader) (filename : string)
  : M W (result ImagesResponse) :=
  let* tok := GenerateToken (apiKey c) in
  match tok with
  | Err err => ret (Err (wrapError "generating token: " err))
  | Ok token =>
      let* boundary := liftW multipart_randomBoundary in
      let buf := multipart_partHeader boundary "file" filename in
      let '(content, err) := io_ReadAll r in
      match err with
      | Some err => ret (Err err)
      | None =>
          let buf := buf ++ content ++ multipart_closing boundary in
          match http_NewRequest "POST" (baseURL c ++ "/images/upload/") (Some buf) with
          | Err err => ret (Err err)
          | Ok req =>
              let req := Header_Set req "Authorization" ("Ghost " ++ token) in
              let req := Header_Set req "Content-Type"
                           (multipart_FormDataContentType boundary) in
              let* _ := emit (EvHTTP req) in
              let* r := liftW (httpClient c req) in
              match r with
              | Err err => ret (Err err)
              | Ok resp =>
                  let '(respBody, err) := io_ReadAll (Body resp) in
                  match err with
                  | Some err => ret (Err err)
                  | None =>
                      if 400 <=? StatusCode resp then
                        ret (Err (errorString
                                    ("upload failed ("
                                     ++ JSON.strconv_Itoa (StatusCode resp)
                                     ++ "): " ++ respBody)))
                      else
                        let '(result, err) :=
                          json_Unmarshal respBody zeroImagesResponse in
                        match err with
                        | Some err => ret (Err err)
                        | None => ret (Ok result)
                        end
                  end
              end
          end
      end
  end.

End ClientRest.

(** ** types.go: the JSON tags of the records the client sends *)

(** Between Go 1.21, the version of go.mod, and Go 1.22 the encoder changed
    how it writes a backspace and a form feed: as \u0008 and \u000c before,
    as \b and \f since.  [go1_22] says which encoder is linked. *)
Class GoVersion : Type := { go1_22 : bool }.

Section Encoding.
Context {V : GoVersion}.

(** The bytes the encoder copies as they are: printable ASCII and DEL, but
    for the quote, the backslash and the three characters of HTML. *)
Definition json_htmlSafe (c : ascii) : bool :=
  let n := JSON.code c in
  (32 <=? n) && (n <? 128)
  && negb ((n =? 34) || (n =? 92) || (n =? 60) || (n =? 62) || (n =? 38)).

Definition json_escapeByte (c : ascii) : string :=
  let n := JSON.code c in
  if (n =? 92) || (n =? 34) then String JSON.backslash (String c EmptyString)
  else if go1_22 && (n =? 8) then "\b"
  else if go1_22 && (n =? 12) then "\f"
  else if n =? 10 then "\n"
  else if n =? 13 then "\r"
  else if n =? 9 then "\t"
  else "\u00" ++ String (hexDigit (Z.shiftr n 4))
                   (String (hexDigit (Z.land n 15)) EmptyString).

(** The contents of a string literal: safe bytes are copied, the other ASCII
    bytes escaped, a byte that starts no well-formed UTF-8 sequence becomes
    the escape of U+FFFD, the line and paragraph separators U+2028 and U+2029 are
    escaped, and every other sequence is copied. *)
Fixpoint json_stringBody (s : string) : string :=
  match s with
  | EmptyString => EmptyString
  | String c r =>
      if JSON.code c <? 128 then
        (if json_htmlSafe c then String c EmptyString else json_escapeByte c)
        ++ json_stringBody r
      else
        match JSON.utf8_seq c r, r with
        | 2%nat, String c1 r1 => String c (String c1 (json_stringBody r1))
        | 3%nat, String c1 (String c2 r2) =>
            if (JSON.code c =? 226) && (JSON.code c1 =? 128)
               && ((JSON.code c2 =? 168) || (JSON.code c2 =? 169))
            then "\u202" ++ String (hexDigit (Z.land (JSON.code c2) 15)) EmptyString
                 ++ json_stringBody r2
            else String c (String c1 (String c2 (json_stringBody r2)))
        | 4%nat, String c1 (String c2 (String c3 r3)) =>
            String c (String c1 (String c2 (String c3 (json_stringBody r3))))
        | _, _ => "\ufffd" ++ json_stringBody r
        end
  end.

(** [json.Marshal] of a string. *)
Definition json_appendString (s : string) : string :=
  String JSON.dquote (json_stringBody s ++ String JSON.dquote EmptyString).

(** [json.Marshal] of a slice; [[]] stands for the nil slice, the zero value,
    which is written as null. *)
Definition json_marshalSlice {T : Type} (elem : T → string) (l : list T) : string :=
  match l with
  | [] => "null"
  | _ => "[" ++ JSON.join "," (map elem l) ++ "]"
  end.

(** [json.Marshal] of a map from strings to slices: the keys in increasing
    order, byte by byte. *)
Definition json_marshalMap {T : Type} (elem : T → string)
    (m : gmap string (list T)) : string :=
  "{" ++ JSON.join ","
           (map (λ kv, json_appendString (fst kv) ++ ":"
                       ++ json_marshalSlice elem (snd kv))
              (merge_sort (λ a b, Is_true (String.leb (fst a) (fst b)))
                 (map_to_list m)))
      ++ "}".

(** The fields by the type of their value. *)
Definition stringField (name : string) (omitempty : bool) (v : string) : JSON.field :=
  {| JSON.name := name; JSON.omitempty := omitempty;
     JSON.isEmpty := String.eqb v ""; JSON.encoded := json_appendString v |}.

Definition boolField (name : string) (omitempty : bool) (v : bool) : JSON.field :=
  {| JSON.name := name; JSON.omitempty := omitempty;
     JSON.isEmpty := negb v; JSON.encoded := if v then "true" else "false" |}.

Definition intField (name : string) (omitempty : bool) (v : Z) : JSON.field :=
  {| JSON.name := name; JSON.omitempty := omitempty;
     JSON.isEmpty := v =? 0; JSON.encoded := JSON.strconv_Itoa v |}.

Definition sliceField {T : Type} (name : string) (omitempty : bool)
    (elem : T → string) (v : list T) : JSON.field :=
  {| JSON.name := name; JSON.omitempty := omitempty;
     JSON.isEmpty := match v with [] => true | _ => false end;
     JSON.encoded := json_marshalSlice elem v |}.

Definition Tag_fields (t : Tag) : list JSON.field :=
  [ stringField "id" true (Tag_ID t);
    stringField "name" true (Tag_Name t);
    stringField "slug" true (Tag_Slug t);
    stringField "description" true (Tag_Description t);
    stringField "feature_image" true (Tag_FeatureImage t);
    stringField "visibility" true (Tag_Visibility t);
    intField "count.posts" true (Tag_PostCount t) ].

Definition Tag_Marshal (t : Tag) : string := JSON.marshalStruct (Tag_fields t).

Definition Author_fields (a : Author) : list JSON.field :=
  [ stringField "id" true (Author_ID a);
    stringField "name" true (Author_Name a);
    stringField "slug" true (Author_Slug a);
    stringField "email" true (Author_Email a);
    stringField "bio" true (Author_Bio a);
    stringField "location" true (Author_Location a);
    stringField "website" true (Author_Website a);
    stringField "twitter" true (Author_Twitter a);
    stringField "facebook" true (Author_Facebook a);
    stringField "profile_image" true (Author_ProfileImage a) ].

Definition Author_Marshal (a : Author) : string :=
  JSON.marshalStruct (Author_fields a).

Definition Post_fields (p : Post) : list JSON.field :=
  [ stringField "id" true (Post_ID p);
    stringField "uuid" true (Post_UUID p);
    stringField "title" true (Post_Title p);
    stringField "slug" true (Post_Slug p);
    stringField "html" true (Post_HTML p);
    stringField "mobiledoc" true (Post_Mobiledoc p);
    stringField "status" true (Post_Status p);
    stringField "visibility" true (Post_Visibility p);
    stringField "published_at" true (Post_PublishedAt p);
    stringField "created_at" true (Post_CreatedAt p);
    stringField "updated_at" true (Post_UpdatedAt p);
    stringField "excerpt" true (Post_Excerpt p);
    stringField "custom_excerpt" true (Post_CustomExcerpt p);
    stringField "feature_image" true (Post_FeatureImage p);
    boolField "featured" true (Post_Featured p);
    sliceField "tags" true Tag_Marshal (Post_Tags p);
    sliceField "authors" true Author_Marshal (Post_Authors p) ].

Definition Post_Marshal (p : Post) : string := JSON.marshalStruct (Post_fields p).

Definition Page_fields (p : Page) : list JSON.field :=
  [ stringField "id" true (Page_ID p);
    stringField "uuid" true (Page_UUID p);
    stringField "title" true (Page_Title p);
    stringField "slug" true (Page_Slug p);
    stringField "html" true (Page_HTML p);
    stringField "mobiledoc" true (Page_Mobiledoc p);
    stringField "status" true (Page_Status p);
    stringField "visibility" true (Page_Visibility p);
    stringField "published_at" true (Page_PublishedAt p);
    stringField "created_at" true (Page_CreatedAt p);
    stringField "updated_at" true (Page_UpdatedAt p);
    stringField "feature_image" true (Page_FeatureImage p);
    sliceField "tags" true Tag_Marshal (Page_Tags p);
    sliceField "authors" true Author_Marshal (Page_Authors p) ].

Definition Page_Marshal (p : Page) : string := JSON.marshalStruct (Page_fields p).

Definition Webhook_fields (w : Webhook) : list JSON.field :=
  [ stringField "id" true (Webhook_ID w);
    stringField "event" true (Webhook_Event w);
    stringField "target_url" true (Webhook_TargetURL w);
    stringField "name" true (Webhook_Name w);
    stringField "secret" true (Webhook_Secret w);
    stringField "status" true (Webhook_Status w);
    stringField "last_triggered_at" true (Webhook_LastTriggeredAt w);
    stringField "integration_id" true (Webhook_IntegrationID w) ].

Definition Webhook_Marshal (w : Webhook) : string :=
  JSON.marshalStruct (Webhook_fields w).

(** [json.Marshal] of the bodies the client sends; it does not fail on
    them. *)
Definition Posts_Marshaler : Marshaler (gmap string (list Post)) :=
  λ m, Ok (json_marshalMap Post_Marshal m).
Definition Pages_Marshaler : Marshaler (gmap string (list Page)) :=
  λ m, Ok (json_marshalMap Page_Marshal m).
Definition Tags_Marshaler : Marshaler (gmap string (list Tag)) :=
  λ m, Ok (json_marshalMap Tag_Marshal m).
Definition Webhooks_Marshaler : Marshaler (gmap string (list Webhook)) :=
  λ m, Ok (json_marshalMap Webhook_Marshal m).

End Encoding.

(** * Specification-side definitions and fixtures *)

(** ** The credential *)

(** A hexadecimal digit, of either case. *)
Definition isHexDigit (c : ascii) : bool :=
  match String.index 0 (String c EmptyString) "0123456789abcdefABCDEF" with
  | Some _ => true
  | None => false
  end.

(** The value of a hexadecimal digit: its place among the sixteen digits. *)
Definition hexValue (c : ascii) : option Z :=
  match String.index 0 (String c EmptyString) "0123456789abcdef" with
  | Some i => Some (Z.of_nat i)
  | None =>
      match String.index 0 (String c EmptyString) "0123456789ABCDEF" with
      | Some i => Some (Z.of_nat i)
      | None => None
      end
  end.

Fixpoint allHexDigits (s : string) : bool :=
  match s with
  | EmptyString => true
  | String c r => isHexDigit c && allHexDigits r
  end.

(** Valid hexadecimal: the text encodes a byte sequence, two digits a byte. *)
Definition validHex (s : string) : bool :=
  allHexDigits s && Nat.even (String.length s).

(** The bytes a hexadecimal text stands for: each pair of digits is one
    byte, the first digit its upper half. *)
Inductive hexDecoded : string → bytes → Prop :=
| hexDecoded_nil : hexDecoded EmptyString []
| hexDecoded_pair a b x y s bs :
    hexValue a = Some x → hexValue b = Some y → hexDecoded s bs →
    hexDecoded (String a (String b s)) ((16 * x + y) :: bs).

(** ** A small world to run the client in *)

(** Library functions simple enough to compute with: a map is written as its
    entries in the order the map lists them, the encoding of segments is the
    identity and the keyed hash is the key's length followed by the text. *)
Definition showAny (v : any) : string :=
  match v with
  | anyInt n => JSON.strconv_Itoa n
  | anyString s => JSON.quote s
  end.

Definition showMap (m : gmap string any) : string :=
  "{" ++ JSON.join ","
           (map (λ kv, JSON.quote (fst kv) ++ ":" ++ showAny (snd kv))
              (map_to_list m))
      ++ "}".

Definition testLib : Lib := {|
  json_MarshalMap := λ m, Ok (showMap m);
  base64_RawURLEncoding := λ s, s;
  hmac_SHA256 := λ key s, JSON.strconv_Itoa (Z.of_nat (length key)) ++ "#" ++ s;
  url_Parse := λ _, None;
  filepath_Base := λ p, p;
  multipart_partHeader := λ boundary fieldname filename,
    "--" ++ boundary ++ ";" ++ fieldname ++ ";" ++ filename ++ ";";
  multipart_closing := λ boundary, "--" ++ boundary ++ "--";
  multipart_FormDataContentType := λ boundary,
    "multipart/form-data; boundary=" ++ boundary;
|}.

(** A world whose clock stands at [fixedTime], whose files are the entries of
    a map, and whose server answers the requests it receives with the
    responses of a list, in order. *)
Record TestWorld : Type := {
  responses : list (result Response);
  files : gmap string string;
}.

#[export] Instance TestWorld_World : World TestWorld := {|
  time_Now := λ w, (fixedTime, w);
  os_Open := λ path w,
    (match files w !! path with
     | Some content => Ok {| data := content; readErr := None |}
     | None => Err (fs_PathError "open" path)
     end, w);
  multipart_randomBoundary := λ w, ("boundary", w);
|}.

Definition testHTTP (req : Request) (w : TestWorld) : result Response * TestWorld :=
  match responses w with
  | r :: rs => (r, {| responses := rs; files := files w |})
  | [] => (Err (url_Error "connection refused"), w)
  end.

Definition testAPIKey : string := "test123:7365637265746b6579313233".

Definition testClient (key : string) : Client (W := TestWorld) :=
  {| baseURL := "http://localhost/ghost/api/admin"; apiKey := key;
     httpClient := testHTTP |}.

Definition respond (status : Z) (body : string) : result Response :=
  Ok {| StatusCode := status; Body := {| data := body; readErr := None |} |}.

Definition serving (rs : list (result Response)) : State TestWorld :=
  {| world := {| responses := rs; files := ∅ |}; trace := [] |}.

(** The entries into [do] among recorded calls. *)
Fixpoint doCalls (t : list Event) : list (string * string) :=
  match t with
  | [] => []
  | EvDo method path :: t' => (method, path) :: doCalls t'
  | _ :: t' => doCalls t'
  end.

(** The files opened among recorded calls. *)
Fixpoint opened (t : list Event) : list string :=
  match t with
  | [] => []
  | EvOpen path :: t' => path :: opened t'
  | _ :: t' => opened t'
  end.

(** The text of an API error: the status code and the message. *)
Definition apiErrorText (status : Z) (msg : string) : string :=
  "API error (" ++ JSON.strconv_Itoa status ++ "): " ++ msg.

(** The first element of a collection, or the error for an empty one. *)
Definition firstOr {T : Type} (l : list T) (e : error) : result T :=
  match l with
  | x :: _ => Ok x
  | [] => Err e
  end.

(** The message of an API error with a decoded envelope. *)
Definition envelopeMessage (e0 : APIError) : string :=
  if String.eqb (APIError_Context e0) "" then APIError_Message e0
  else APIError_Message e0 ++ ": " ++ APIError_Context e0.

Section Patterns.
Context {W : Type} {Wd : World W} {L : Lib}.
Context {ErrorResponse_dec : Unmarshaler ErrorResponse}.

(** The lookup by identifier, then by slug: what the specification asks of
    every [getByKey].  [op] is the accessor, [zero] the empty response it
    starts from, [proj] the collection of a response, [byID] and [bySlug] the
    two paths for an input, [kind] the name in the error text. *)
Definition getByKey_pattern {T Resp : Type} {dec : Unmarshaler Resp}
    (op : Client → string → M W (result T)) (zero : Resp) (proj : Resp → list T)
    (byID bySlug : string → string) (kind : string) : Prop :=
  ∀ (c : Client) (idOrSlug : string) (s : State W),
    let notFound := errorString (kind ++ " not found: " ++ idOrSlug) in
    ∃ resp1 e1 s1 calls,
      do c "GET" (byID idOrSlug) nobody (Some zero) s = ((Some resp1, e1), s1)
      ∧ doCalls (trace (snd (op c idOrSlug s))) = (doCalls (trace s) ++ calls)%list
      ∧ (length calls ≤ 2)%nat
      ∧ (calls = [("GET", byID idOrSlug); ("GET", bySlug idOrSlug)] ↔ e1 ≠ None)
      ∧ (e1 = None →
         calls = [("GET", byID idOrSlug)]
         ∧ op c idOrSlug s = (firstOr (proj resp1) notFound, s1))
      ∧ (e1 ≠ None →
         ∃ resp2 e2 s2,
           do c "GET" (bySlug idOrSlug) nobody (Some resp1) s1 = ((Some resp2, e2), s2)
           ∧ op c idOrSlug s
             = (match e2 with
                | Some err => Err err
                | None => firstOr (proj resp2) notFound
                end, s2)).

(** One call, then the first element: what every create and update does, and
    what [GetNewsletter] does.  [call] is the call of the transport, [missing]
    the error for an empty collection. *)
Definition single_call_pattern {T Resp : Type} (op : M W (result T))
    (call : M W (option Resp * option error)) (method path : string)
    (proj : Resp → list T) (missing : error) : Prop :=
  ∀ s : State W,
    ∃ resp e s1,
      call s = ((Some resp, e), s1)
      ∧ doCalls (trace (snd (op s))) = (doCalls (trace s) ++ [(method, path)])%list
      ∧ op s = (match e with
                | Some err => Err err
                | None => firstOr (proj resp) missing
                end, s1).

(** A delete succeeds on every response below 400 whose body was read,
    whatever the body is. *)
Definition delete_pattern (op : Client → string → M W (option error))
    (path : string → string) : Prop :=
  ∀ (c : Client) (id : string) (s s1 : State W) (resp : Response)
    (respBody : string),
    request c "DELETE" (path id) nobody (snd (emit (EvDo "DELETE" (path id)) s))
    = (Ok resp, s1) →
    io_ReadAll (Body resp) = (respBody, None) →
    StatusCode resp < 400 →
    op c id s = (None, s1).

End Patterns.

(** Whether [sub] occurs in [s]. *)
Fixpoint contains (sub s : string) : bool :=
  String.prefix sub s
  || match s with
     | EmptyString => false
     | String _ r => contains sub r
     end.

(** ** The JSON text of a Pagination *)

(** Texts made of decimal digits. *)
Fixpoint allDigits (s : string) : bool :=
  match s with
  | EmptyString => true
  | String c r => JSON.isDigit c && allDigits r
  end.

(** The text ends a number: it starts with a byte that no number contains. *)
Definition endsNumber (r : string) : bool :=
  match r with
  | String c _ => negb (JSON.isDigit c || Ascii.eqb c "." || Ascii.eqb c "e" || Ascii.eqb c "E")
  | EmptyString => true
  end.

(** A key the encoder writes as it is: ASCII, printable, no quote and no
    backslash. *)
Fixpoint plainKey (k : string) : bool :=
  match k with
  | EmptyString => true
  | String c k' =>
      negb (Ascii.eqb c JSON.dquote) && negb (Ascii.eqb c JSON.backslash)
      && negb (JSON.code c <? 32) && (JSON.code c <? 128) && plainKey k'
  end.

(** The member of an object as the encoder writes it, before [rest]. *)
Definition memberText (k v rest : string) : string :=
  String JSON.dquote (k ++ String JSON.dquote (String ":" (v ++ rest))).

(** The value a pointer to an int is written as, and read back from. *)
Definition intPtrValue (o : option Z) : JSON.value :=
  match o with
  | None => JSON.Null
  | Some n => JSON.Number (JSON.strconv_Itoa n)
  end.

(** The values of a Go int, 64 bits wide. *)
Definition int64 (z : Z) : Prop := - 2 ^ 63 <= z < 2 ^ 63.

(** A Pagination whose numbers are Go ints. *)
Definition Pagination_wf (p : Pagination) : Prop :=
  int64 (Pagination_Page p) ∧ int64 (Pagination_Limit p)
  ∧ int64 (Pagination_Pages p) ∧ int64 (Pagination_Total p)
  ∧ (∀ n, Pagination_Next p = Some n → int64 n)
  ∧ (∀ n, Pagination_Prev p = Some n → int64 n).


(** ** Encoders and decoders for the runs below *)

(** The server of the runs sends records with an id and a title, a name or
    an event; these decoders read those members and leave the other fields
    empty.  An encoder writes the titles, names or events it is given. *)
Definition strMember (k : string) (ms : list (string * JSON.value)) : string :=
  match List.find (λ kv, String.eqb (fst kv) k) ms with
  | Some (_, JSON.Str s) => s
  | _ => ""
  end.

Definition testPost (id title : string) : Post :=
  {| Post_ID := id; Post_UUID := ""; Post_Title := title; Post_Slug := "";
     Post_HTML := ""; Post_Mobiledoc := ""; Post_Status := "";
     Post_Visibility := ""; Post_PublishedAt := ""; Post_CreatedAt := "";
     Post_UpdatedAt := ""; Post_Excerpt := ""; Post_CustomExcerpt := "";
     Post_FeatureImage := ""; Post_Featured := false; Post_Tags := [];
     Post_Authors := [] |}.

Definition testPage (id title : string) : Page :=
  {| Page_ID := id; Page_UUID := ""; Page_Title := title; Page_Slug := "";
     Page_HTML := ""; Page_Mobiledoc := ""; Page_Status := "";
     Page_Visibility := ""; Page_PublishedAt := ""; Page_CreatedAt := "";
     Page_UpdatedAt := ""; Page_FeatureImage := ""; Page_Tags := [];
     Page_Authors := [] |}.

Definition testNewsletter (id name : string) : Newsletter :=
  {| Newsletter_ID := id; Newsletter_Name := name; Newsletter_Description := "";
     Newsletter_Status := ""; Newsletter_Slug := ""; Newsletter_SenderName := "";
     Newsletter_SenderEmail := ""; Newsletter_SenderReplyTo := "";
     Newsletter_SubscribeOnSignup := false |}.

Definition testTag (id name : string) : Tag :=
  {| Tag_ID := id; Tag_Name := name; Tag_Slug := ""; Tag_Description := "";
     Tag_FeatureImage := ""; Tag_Visibility := ""; Tag_PostCount := 0 |}.

Definition testWebhook (id event : string) : Webhook :=
  {| Webhook_ID := id; Webhook_Event := event; Webhook_TargetURL := "";
     Webhook_Name := ""; Webhook_Secret := ""; Webhook_Status := "";
     Webhook_LastTriggeredAt := ""; Webhook_IntegrationID := "" |}.

Definition test_decode {T : Type} (mk : string → string → T) (second : string)
    (v : JSON.value) (old : T) : T * option error :=
  match v with
  | JSON.Null => (old, None)
  | JSON.Object ms => (mk (strMember "id" ms) (strMember second ms), None)
  | _ => (old, Some json_UnmarshalTypeError)
  end.

Definition test_collection {T Resp : Type} (plural : string)
    (dec : JSON.value → T → T * option error) (zero : T)
    (proj : Resp → list T) (upd : Resp → list T → Resp)
    (r : Resp) (key : string) (v : JSON.value) : Resp * option error :=
  match JSON.findField [plural] key with
  | Some 0%nat =>
      let '(x, e) := JSON.decodeSlice dec zero v (proj r) in (upd r x, e)
  | _ => (r, None)
  end.

#[export] Instance test_ErrorResponse_dec : Unmarshaler ErrorResponse :=
  ErrorResponse_Unmarshal.

#[export] Instance test_Pagination_dec : Unmarshaler Pagination :=
  Pagination_Unmarshal.

#[export] Instance test_Posts_dec : Unmarshaler PostsResponse :=
  JSON.Unmarshal
    (JSON.decodeStruct
       (test_collection "posts" (test_decode testPost "title") (testPost "" "")
          Posts (λ r x, {| Posts := x; Posts_Meta := Posts_Meta r |}))).

#[export] Instance test_Pages_dec : Unmarshaler PagesResponse :=
  JSON.Unmarshal
    (JSON.decodeStruct
       (test_collection "pages" (test_decode testPage "title") (testPage "" "")
          Pages (λ r x, {| Pages := x; Pages_Meta := Pages_Meta r |}))).

#[export] Instance test_Newsletters_dec : Unmarshaler NewslettersResponse :=
  JSON.Unmarshal
    (JSON.decodeStruct
       (test_collection "newsletters" (test_decode testNewsletter "name")
          (testNewsletter "" "") Newsletters (λ _ x, {| Newsletters := x |}))).

#[export] Instance test_Tags_dec : Unmarshaler TagsResponse :=
  JSON.Unmarshal
    (JSON.decodeStruct
       (test_collection "tags" (test_decode testTag "name") (testTag "" "")
          Tags (λ r x, {| Tags := x; Tags_Meta := Tags_Meta r |}))).

#[export] Instance test_Webhooks_dec : Unmarshaler WebhooksResponse :=
  JSON.Unmarshal
    (JSON.decodeStruct
       (test_collection "webhooks" (test_decode testWebhook "event")
          (testWebhook "" "") Webhooks (λ _ x, {| Webhooks := x |}))).

#[export] Instance test_Images_dec : Unmarshaler ImagesResponse :=
  λ _ r, (r, None).

Definition test_encode {T : Type} (plural : string) (title : T → string)
    (m : gmap string (list T)) : result string :=
  Ok ("{" ++ JSON.quote plural ++ ":["
      ++ JSON.join "," (map (λ x, "{" ++ JSON.quote "title" ++ ":"
                                   ++ JSON.quote (title x) ++ "}")
                          (default [] (m !! plural)))
      ++ "]}").

#[export] Instance test_Posts_enc : Marshaler (gmap string (list Post)) :=
  test_encode "posts" Post_Title.

#[export] Instance test_Pages_enc : Marshaler (gmap string (list Page)) :=
  test_encode "pages" Page_Title.

#[export] Instance test_Tags_enc : Marshaler (gmap string (list Tag)) :=
  test_encode "tags" Tag_Name.

#[export] Instance test_Webhooks_enc : Marshaler (gmap string (list Webhook)) :=
  test_encode "webhooks" Webhook_Event.

#[export] Existing Instance testLib.

(** The bodies the server of the runs sends. *)
Definition newline : string := String "010" EmptyString.

Definition validationBody : string :=
  JSON.dq "{'errors':[{'message':'Validation failed','context':'Title is required','type':''}]}"
  ++ newline.

Definition badRequestBody : string :=
  JSON.dq "{'errors':[{'message':'Bad request','context':'','type':''}]}" ++ newline.

Definition notFoundBody : string :=
  JSON.dq "{'errors':[{'message':'Not found','context':'','type':''}]}" ++ newline.

Definition onePostBody : string :=
  JSON.dq "{'posts':[{'id':'123','title':'Test'}]}" ++ newline.

Definition noPostsBody : string := JSON.dq "{'posts':[]}" ++ newline.

(** A body whose collection decodes in part: a post, then a number where a
    post is expected. *)
Definition partlyDecodedBody : string :=
  JSON.dq "{'posts':[{'id':'1','title':'First'},5]}".

Definition oneNewsletterBody : string :=
  JSON.dq "{'newsletters':[{'id':'123','name':'Weekly'}]}" ++ newline.

(** The record of the specification's example: no next page, page 4 before. *)
Definition lastPage : Pagination :=
  {| Pagination_Page := 5; Pagination_Limit := 15; Pagination_Pages := 5;
     Pagination_Total := 75; Pagination_Next := None; Pagination_Prev := Some 4 |}.

(** ** More of the recorded calls *)

(** The requests handed to the HTTP client among recorded calls. *)
Fixpoint sent (t : list Event) : list Request :=
  match t with
  | [] => []
  | EvHTTP req :: t' => req :: sent t'
  | _ :: t' => sent t'
  end.

(** The query of a listing: the filter on the status, then the limit. *)
Definition statusFilter (status : string) : string :=
  "&filter=status:" ++ status.

Definition limitClause (limit : Z) : string :=
  "&limit=" ++ JSON.strconv_Itoa limit.

Section MorePatterns.
Context {W : Type} {Wd : World W} {L : Lib}.
Context {ErrorResponse_dec : Unmarshaler ErrorResponse}.

(** A listing: one GET, and the outcome of that call is the outcome of the
    operation, [proj] of the decoded response when there is no error.  An
    empty collection is no error. *)
Definition listing_pattern {T Resp : Type} {dec : Unmarshaler Resp}
    (op : M W (result T)) (c : Client) (path : string) (zero : Resp)
    (proj : Resp → T) : Prop :=
  ∀ s : State W,
    ∃ resp e s1,
      do c "GET" path nobody (Some zero) s = ((Some resp, e), s1)
      ∧ doCalls (trace (snd (op s))) = (doCalls (trace s) ++ [("GET", path)])%list
      ∧ op s = (match e with
                | Some err => Err err
                | None => Ok (proj resp)
                end, s1).

End MorePatterns.

(** The body of a request as [request] prepares it: none without a body,
    the encoded body otherwise. *)
Definition encodedBody {B : Type} {Benc : Marshaler B} (body : option B)
  : result (option string) :=
  match body with
  | None => Ok None
  | Some b =>
      match json_Marshal b with
      | Err err => Err err
      | Ok data => Ok (Some data)
      end
  end.

(** The request of an API call: the method, the URL, the token in the
    Authorization header and, with a body, the JSON content type. *)
Definition apiRequest (method url token : string) (payload : option string)
  : Request :=
  {| Request_Method := method; Request_URL := url;
     Request_Header :=
       match payload with
       | Some _ => <["Content-Type" := "application/json"]>
                     {["Authorization" := "Ghost " ++ token]}
       | None => {["Authorization" := "Ghost " ++ token]}
       end;
     Request_Body := payload |}.

(** The body of a write: the record alone in an array under the name of its
    collection. *)
Definition wrapped (kind text : string) : string :=
  "{" ++ JSON.quote kind ++ ":[" ++ text ++ "]}".

Section BodyTexts.
Context {V : GoVersion}.

(** A member that is written only when its value is not empty. *)
Definition optMember (name v : string) : string :=
  if String.eqb v "" then ""
  else "," ++ JSON.quote name ++ ":" ++ json_appendString v.

(** The record of a change of status: the status, the time of publication
    and the time of the last update, the times only when they are not
    empty. *)
Definition statusRecord (status publishedAt updatedAt : string) : string :=
  "{" ++ JSON.quote "status" ++ ":" ++ JSON.quote status
      ++ optMember "published_at" publishedAt
      ++ optMember "updated_at" updatedAt ++ "}".

End BodyTexts.

(** The multipart request of an upload. *)
Definition uploadRequest {L : Lib} (url token boundary filename content : string)
  : Request :=
  {| Request_Method := "POST"; Request_URL := url;
     Request_Header :=
       <["Content-Type" := multipart_FormDataContentType boundary]>
         {["Authorization" := "Ghost " ++ token]};
     Request_Body :=
       Some (multipart_partHeader boundary "file" filename ++ content
             ++ multipart_closing boundary) |}.

(** The first byte of a text that is no hexadecimal digit. *)
Fixpoint firstNonHex (s : string) : option ascii :=
  match s with
  | EmptyString => None
  | String c r => if isHexDigit c then firstNonHex r else Some c
  end.

(** ** Instants *)

(** A time as the package [time] makes them: the nanoseconds are within
    the second, [ext] is an int64, and the packed seconds are 33 bits wide
    under the flag and zero without it. *)
Definition Time_wf (t : Time) : Prop :=
  0 <= Time_nsec t < 1000000000
  ∧ int64 (Time_ext t)
  ∧ if Time_hasMonotonic t then 0 <= Time_wallSeconds t < 2 ^ 33
    else Time_wallSeconds t = 0.

(** The Unix seconds of the last instant a time can hold: the largest int64,
    counted from the year 1. *)
Definition lastUnix : Z := 2 ^ 63 - 1 - unixToInternal.

(** [time.Unix(9223371974719178907, 0)], 100 seconds before that instant. *)
Definition nearLastTime : Time := time_Unix (lastUnix - 100) 0.

(** The token of a credential: the three header entries, and the three
    claims with the times of issue and of expiry. *)
Definition adminToken (id : string) (iat exp : Z) : Token :=
  {| Method := SigningMethodHS256;
     Header := {["alg" := anyString "HS256"; "kid" := anyString id;
                 "typ" := anyString "JWT"]};
     Claims := {["aud" := anyString "/admin/"; "exp" := anyInt exp;
                 "iat" := anyInt iat]} |}.

(** ** Strings as sequences of runes *)

(** [utf8.ValidString]: the text is a sequence of well-formed encodings. *)
Fixpoint utf8_ValidString (s : string) : bool :=
  match s with
  | EmptyString => true
  | String c r =>
      if JSON.code c <? 128 then utf8_ValidString r
      else
        match JSON.utf8_seq c r, r with
        | 2%nat, String c1 r1 => utf8_ValidString r1
        | 3%nat, String c1 (String c2 r2) => utf8_ValidString r2
        | 4%nat, String c1 (String c2 (String c3 r3)) => utf8_ValidString r3
        | _, _ => false
        end
  end.

(** The text read rune by rune and written again, [string([]rune(s))]: every
    byte that starts no well-formed encoding becomes U+FFFD. *)
Fixpoint toValidRunes (s : string) : string :=
  match s with
  | EmptyString => EmptyString
  | String c r =>
      if JSON.code c <? 128 then String c (toValidRunes r)
      else
        match JSON.utf8_seq c r, r with
        | 2%nat, String c1 r1 => String c (String c1 (toValidRunes r1))
        | 3%nat, String c1 (String c2 r2) =>
            String c (String c1 (String c2 (toValidRunes r2)))
        | 4%nat, String c1 (String c2 (String c3 r3)) =>
            String c (String c1 (String c2 (String c3 (toValidRunes r3))))
        | _, _ => JSON.encodeRune JSON.replacementChar ++ toValidRunes r
        end
  end.

(** ** Decoders of structures *)

(** [json.Unmarshal] into a structure: the members of the object, each into
    the field its key selects; [set] says what a member does to the
    structure, as the tags of its type have it. *)
Definition structDecoder {T : Type}
    (set : T → string → JSON.value → T * option error) : Unmarshaler T :=
  JSON.Unmarshal (JSON.decodeStruct set).

(** * Properties *)

(** ** The credential *)

Lemma fromHexChar_hexValue c : fromHexChar c = hexValue c.
Proof. destruct c as [[] [] [] [] [] [] [] []]; reflexivity. Qed.

Lemma isHexDigit_bool c :
  isHexDigit c = match fromHexChar c with Some _ => true | None => false end.
Proof. destruct c as [[] [] [] [] [] [] [] []]; reflexivity. Qed.

Lemma isHexDigit_fromHexChar c :
  isHexDigit c = true ↔ is_Some (fromHexChar c).
Proof.
  rewrite isHexDigit_bool. destruct (fromHexChar c) as [x|]; split.
  - by eauto.
  - done.
  - done.
  - by intros [? ?].
Qed.

Lemma fromHexChar_range c x : fromHexChar c = Some x → 0 <= x < 16.
Proof.
  unfold fromHexChar. set (n := Z.of_N (N_of_ascii c)).
  repeat case_match; intros [= <-]; lia.
Qed.

Lemma nibbles x y : 0 <= x < 16 → 0 <= y < 16 → Z.lor (Z.shiftl x 4) y = 16 * x + y.
Proof.
  intros Hx Hy.
  assert (Hc : ∀ a b, (0 <=? a) && (a <? 16) && (0 <=? b) && (b <? 16) = true →
                      Z.lor (Z.shiftl a 4) b = 16 * a + b).
  { intros a b Hab.
    destruct a as [|a|a]; try discriminate;
      destruct b as [|b|b]; try discriminate;
      repeat (try reflexivity; try discriminate;
              try (destruct a as [a|a|]); try (destruct b as [b|b|])). }
  apply Hc. repeat (apply andb_true_intro; split); lia.
Qed.

(** Induction on strings two bytes at a time. *)
Lemma string_pair_ind (P : string → Prop) :
  P EmptyString →
  (∀ a, P (String a EmptyString)) →
  (∀ a b s, P s → P (String a (String b s))) →
  ∀ s, P s.
Proof.
  intros H0 H1 H2.
  assert (Hboth : ∀ s, P s ∧ ∀ a, P (String a s)).
  { induction s as [|c s [IH1 IH2]]; split; auto. }
  intros s. apply Hboth.
Qed.

Lemma hex_Decode_valid s :
  validHex s = true → ∃ bs, hex_Decode s = (bs, None) ∧ hexDecoded s bs.
Proof.
  unfold validHex. induction s as [|a|a b s IH] using string_pair_ind.
  - intros _. exists []. split; [reflexivity | constructor].
  - simpl. rewrite andb_true_r. intros Hv. apply andb_prop in Hv as [_ Hv]. discriminate.
  - intros Hv. cbn [allHexDigits String.length Nat.even] in Hv.
    apply andb_prop in Hv as [Hd He].
    apply andb_prop in Hd as [Ha Hd]. apply andb_prop in Hd as [Hb Hd].
    destruct IH as (bs & Hbs & Hdec); [by rewrite Hd, He|].
    apply isHexDigit_fromHexChar in Ha as [x Hx].
    apply isHexDigit_fromHexChar in Hb as [y Hy].
    exists ((16 * x + y) :: bs). split.
    + cbn [hex_Decode]. rewrite Hx, Hy, Hbs.
      rewrite nibbles by eauto using fromHexChar_range. reflexivity.
    + constructor; [by rewrite <- fromHexChar_hexValue .. | done].
Qed.

Lemma hex_Decode_invalid s :
  validHex s = false → ∃ bs e, hex_Decode s = (bs, Some e).
Proof.
  unfold validHex. induction s as [|a|a b s IH] using string_pair_ind.
  - discriminate.
  - intros _. cbn [hex_Decode]. destruct (fromHexChar a); eauto.
  - intros Hv. cbn [allHexDigits String.length Nat.even] in Hv.
    cbn [hex_Decode].
    destruct (fromHexChar a) as [x|] eqn:Hx; [|eauto].
    destruct (fromHexChar b) as [y|] eqn:Hy; [|eauto].
    assert (Ha : isHexDigit a = true) by (apply isHexDigit_fromHexChar; eauto).
    assert (Hb : isHexDigit b = true) by (apply isHexDigit_fromHexChar; eauto).
    rewrite Ha, Hb in Hv. simpl in Hv.
    destruct (IH Hv) as (bs & e & ->). eauto.
Qed.

(** Decoding undoes encoding. *)
Lemma hex_roundtrip bs :
  Forall (λ v, 0 <= v < 256) bs →
  hex_DecodeString (hex_EncodeToString bs) = (bs, None).
Proof.
  unfold hex_DecodeString. induction 1 as [|v bs Hv _ IH]; [reflexivity|].
  cbn [hex_EncodeToString hex_Decode].
  assert (Hc : ∀ n, (0 <=? n) && (n <? 256) = true →
    ∃ x y, fromHexChar (hexDigit (Z.shiftr n 4)) = Some x ∧
           fromHexChar (hexDigit (Z.land n 15)) = Some y ∧
           Z.lor (Z.shiftl x 4) y = n).
  { intros n Hn. destruct n as [|n|n]; try discriminate.
    - exists 0, 0. by vm_compute.
    - repeat (try (destruct n as [n|n|]); try discriminate Hn);
        eexists _, _; split_and!; vm_compute; reflexivity. }
  destruct (Hc v) as (x & y & -> & -> & ->).
  { apply andb_true_intro; split; lia. }
  by rewrite IH.
Qed.

(** Appending to a string, one byte at a time. *)
Lemma append_nil_l (s : string) : "" ++ s = s.
Proof. reflexivity. Qed.

Lemma append_cons (c : ascii) (a s : string) : String c a ++ s = String c (a ++ s).
Proof. reflexivity. Qed.

(** Splitting at the separator. *)
Lemma strings_Split_length s sep :
  length (strings_Split s sep) = S (strings_Count s sep).
Proof.
  induction s as [|c s IH]; [reflexivity|].
  cbn [strings_Split strings_Count].
  destruct (Ascii.eqb c sep); simpl; [by rewrite IH|].
  destruct (strings_Split s sep); simpl in *; lia.
Qed.

Lemma strings_Split_none s sep :
  strings_Count s sep = O → strings_Split s sep = [s].
Proof.
  induction s as [|c s IH]; [reflexivity|].
  cbn [strings_Split strings_Count].
  destruct (Ascii.eqb c sep); [discriminate|].
  intros Hs. by rewrite IH.
Qed.

Lemma strings_Split_app a b sep :
  strings_Count a sep = O →
  strings_Split (a ++ String sep b) sep = a :: strings_Split b sep.
Proof.
  induction a as [|c a IH];
    rewrite ?append_nil_l, ?append_cons; cbn [strings_Split strings_Count].
  - by rewrite Ascii.eqb_refl.
  - destruct (Ascii.eqb c sep); [discriminate|].
    intros Ha. by rewrite IH.
Qed.

Lemma strings_Count_app a b sep :
  strings_Count (a ++ b) sep = (strings_Count a sep + strings_Count b sep)%nat.
Proof.
  induction a as [|c a IH]; [reflexivity|].
  rewrite append_cons. cbn [strings_Count]. rewrite IH. lia.
Qed.

Lemma ParseAPIKey_segments id sec :
  strings_Count id ":" = O → strings_Count sec ":" = O →
  ParseAPIKey (id ++ ":" ++ sec) =
    if String.eqb id "" then
      Err (errorString "invalid API key format: id cannot be empty")
    else if String.eqb sec "" then
      Err (errorString "invalid API key format: secret cannot be empty")
    else match hex_DecodeString sec with
         | (_, Some err) => Err (wrapError "invalid API key secret: " err)
         | (secret, None) => Ok (id, secret)
         end.
Proof.
  intros Hid Hsec. unfold ParseAPIKey.
  change (":" ++ sec) with (String ":" sec).
  by rewrite strings_Split_app, (strings_Split_none sec).
Qed.

(** C3.  A credential made of a non-empty id, one separator and a non-empty
    valid hexadecimal secret parses to the id and the bytes the secret
    stands for; a string with no separator or more than one, an empty id, an
    empty secret or a secret that is not valid hexadecimal is refused. *)
Theorem ParseAPIKey_spec (apiKey : string) :
  (∀ id sec,
     apiKey = id ++ ":" ++ sec →
     strings_Count id ":" = O → strings_Count sec ":" = O →
     id ≠ "" → sec ≠ "" → validHex sec = true →
     ∃ secret, hexDecoded sec secret ∧ ParseAPIKey apiKey = Ok (id, secret))
  ∧ (strings_Count apiKey ":" ≠ 1%nat → is_Ok (ParseAPIKey apiKey) = false)
  ∧ (∀ id sec,
       apiKey = id ++ ":" ++ sec →
       id = "" ∨ sec = "" ∨ validHex sec = false →
       is_Ok (ParseAPIKey apiKey) = false).
Proof.
  assert (Hcount : strings_Count apiKey ":" ≠ 1%nat →
                   is_Ok (ParseAPIKey apiKey) = false).
  { intros Hn. unfold ParseAPIKey.
    pose proof (strings_Split_length apiKey ":") as Hl.
    destruct (strings_Split apiKey ":") as [|p [|q [|r l]]]; simpl in *;
      try reflexivity.
    congruence. }
  split_and!; [|done|].
  - intros id sec -> Hid Hsec Hne1 Hne2 Hv.
    rewrite ParseAPIKey_segments by done.
    apply String.eqb_neq in Hne1 as ->. apply String.eqb_neq in Hne2 as ->.
    destruct (hex_Decode_valid sec Hv) as (bs & Hbs & Hdec).
    exists bs. unfold hex_DecodeString. by rewrite Hbs.
  - intros id sec -> Hbad.
    destruct (decide (strings_Count (id ++ ":" ++ sec) ":" = 1%nat)) as [H1|H1];
      [|by apply Hcount].
    rewrite !strings_Count_app in H1. cbn [strings_Count Ascii.eqb] in H1.
    simpl in H1.
    rewrite ParseAPIKey_segments by lia.
    destruct Hbad as [-> | [-> | Hv]]; [reflexivity| |].
    + by destruct (String.eqb id "").
    + destruct (String.eqb id ""); [done|]. destruct (String.eqb sec ""); [done|].
      destruct (hex_Decode_invalid sec Hv) as (bs & e & Hbs).
      unfold hex_DecodeString. by rewrite Hbs.
Qed.

Lemma ParseAPIKey_spec_witness :
  (∃ secret, hexDecoded "7365" secret ∧ ParseAPIKey "test123:7365" = Ok ("test123", secret))
  ∧ is_Ok (ParseAPIKey "test:123:456") = false
  ∧ is_Ok (ParseAPIKey "test123:notvalidhex!!") = false.
Proof.
  split_and!.
  - apply (proj1 (ParseAPIKey_spec "test123:7365") "test123" "7365");
      solve [reflexivity | discriminate].
  - apply (proj1 (proj2 (ParseAPIKey_spec "test:123:456"))). vm_compute. lia.
  - apply (proj2 (proj2 (ParseAPIKey_spec "test123:notvalidhex!!"))
             "test123" "notvalidhex!!"); [reflexivity|].
    right; right; reflexivity.
Defined.
Example ParseAPIKey_valid :
  ParseAPIKey "test123:7365637265746b6579313233"
  = Ok ("test123", [115; 101; 99; 114; 101; 116; 107; 101; 121; 49; 50; 51]).
Proof. reflexivity. Qed.

Example ParseAPIKey_multi : is_Ok (ParseAPIKey "test:123:456") = false.
Proof. reflexivity. Qed.

(** A secret of hexadecimal digits in odd number encodes no byte sequence. *)
Example ParseAPIKey_odd : is_Ok (ParseAPIKey "abc:def") = false.
Proof. reflexivity. Qed.
(** ** The token *)

Lemma wrap64_spec (z : Z) :
  ∃ k, wrap64 z = z + 2 ^ 64 * k ∧ - 2 ^ 63 <= wrap64 z < 2 ^ 63.
Proof.
  unfold wrap64. exists (- ((z + 2 ^ 63) / 2 ^ 64)).
  pose proof (Z.div_mod (z + 2 ^ 63) (2 ^ 64) ltac:(lia)) as Hdm.
  pose proof (Z.mod_pos_bound (z + 2 ^ 63) (2 ^ 64) ltac:(lia)) as Hb.
  lia.
Qed.

(** Names the value of every wrapped sum and what is known of it. *)
Ltac wrap64_vars :=
  repeat match goal with
         | |- context [wrap64 ?z] =>
             let k := fresh "k" in
             let Hk := fresh "Hk" in
             let Hr := fresh "Hr" in
             let w := fresh "w" in
             destruct (wrap64_spec z) as (k & Hk & Hr);
             set (w := wrap64 z) in *; clearbody w
         | H : context [wrap64 ?z] |- _ =>
             let k := fresh "k" in
             let Hk := fresh "Hk" in
             let Hr := fresh "Hr" in
             let w := fresh "w" in
             destruct (wrap64_spec z) as (k & Hk & Hr);
             set (w := wrap64 z) in *; clearbody w
         end.

(** Five minutes after a time, in Unix seconds: 300 seconds later, unless
    the seconds of the time cannot hold the sum. *)
Lemma five_minutes (now : Time) :
  Time_wf now →
  Time_Unix (Time_Add now (5 * time_Minute)) - Time_Unix now = 300
  ↔ Time_Unix now <= lastUnix - 300
    ∨ lastUnix < Time_Unix now <= 2 ^ 63 - 1 - 300.
Proof.
  destruct now as [mono ws ns e]. unfold Time_wf, int64. cbn.
  intros (Hns & He & Hws).
  unfold Time_Add.
  change (Z.quot (5 * time_Minute) 1000000000) with 300.
  change (Z.rem (5 * time_Minute) 1000000000) with 0.
  cbn [Time_nsec Time_hasMonotonic Time_wallSeconds Time_ext].
  rewrite Z.add_0_r.
  assert ((1000000000 <=? ns) = false) as -> by lia.
  assert ((ns <? 0) = false) as -> by lia.
  unfold Time_Unix, Time_unixSec, Time_addSec, Time_stripMono, Time_sec, lastUnix.
  change internalToUnix with (-62135596800).
  change unixToInternal with 62135596800.
  change wallToInternal with 59453308800.
  change (5 * time_Minute) with 300000000000.
  change (0 <? 300) with true. change (300000000000 <? 0) with false.
  change (0 <? 300000000000) with true.
  cbn [Time_nsec Time_hasMonotonic Time_wallSeconds Time_ext andb orb].
  destruct mono.
  - cbn [Time_nsec Time_hasMonotonic Time_wallSeconds Time_ext andb orb].
    repeat (case_match; simplify_eq;
            cbn [Time_nsec Time_hasMonotonic Time_wallSeconds Time_ext andb orb] in *);
      wrap64_vars; lia.
  - cbn [Time_nsec Time_hasMonotonic Time_wallSeconds Time_ext andb orb].
    repeat (case_match; simplify_eq;
            cbn [Time_nsec Time_hasMonotonic Time_wallSeconds Time_ext andb orb] in *);
      wrap64_vars; lia.
Qed.

(** Minting at the time the clock shows is minting with that time: nothing
    else of the world is read, and only the clock can change. *)
Lemma GenerateToken_WithTime {W : Type} {Wd : World W} {L : Lib} (apiKey : string) (s : State W) :
  GenerateToken apiKey s =
    match ParseAPIKey apiKey with
    | Err err => (Err err, s)
    | Ok _ =>
        let '(now, w) := time_Now (world s) in
        (GenerateTokenWithTime apiKey now, {| world := w; trace := trace s |})
    end.
Proof.
  unfold GenerateToken, GenerateTokenWithTime.
  destruct (ParseAPIKey apiKey) as [[id secret]|err]; [|reflexivity].
  unfold bind, liftW, ret. by destruct (time_Now (world s)).
Qed.

(** The token of a credential that parses, in closed form. *)
Lemma GenerateTokenWithTime_form {L : Lib} (apiKey : string) (now : Time)
    (id : string) (secret : bytes) :
  ParseAPIKey apiKey = Ok (id, secret) →
  GenerateTokenWithTime apiKey now
  = SignedString
      (adminToken id (Time_Unix now) (Time_Unix (Time_Add now (5 * time_Minute))))
      secret.
Proof.
  intros Hkey. unfold GenerateTokenWithTime. rewrite Hkey. reflexivity.
Qed.




(** ** The transport *)

Lemma doCalls_app (t1 t2 : list Event) : doCalls (t1 ++ t2) = (doCalls t1 ++ doCalls t2)%list.
Proof.
  induction t1 as [|e t1 IH]; [reflexivity|].
  destruct e; simpl; by rewrite IH.
Qed.

Lemma opened_app (t1 t2 : list Event) : opened (t1 ++ t2) = (opened t1 ++ opened t2)%list.
Proof.
  induction t1 as [|e t1 IH]; [reflexivity|].
  destruct e; simpl; by rewrite IH.
Qed.

Section Transport.
Context {W : Type} {Wd : World W} {L : Lib}.
Context {B R : Type} {Benc : Marshaler B} {Rdec : Unmarshaler R}.
Context {ErrorResponse_dec : Unmarshaler ErrorResponse}.

(** What a token costs the world: nothing is recorded. *)
Lemma GenerateToken_trace (key : string) (s : State W) :
  trace (snd (GenerateToken key s)) = trace s.
Proof.
  rewrite GenerateToken_WithTime.
  destruct (ParseAPIKey key); [|reflexivity].
  by destruct (time_Now (world s)).
Qed.

(** [request] records at most the request it sends, never a call of [do] or
    an opened file. *)
Lemma request_trace (c : Client) (method path : string) (body : option B)
    (s : State W) :
  ∃ evs, trace (snd (request c method path body s)) = (trace s ++ evs)%list
         ∧ doCalls evs = [] ∧ opened evs = [].
Proof.
  unfold request, bind.
  pose proof (GenerateToken_trace (apiKey c) s) as Ht.
  destruct (GenerateToken (apiKey c) s) as [[token|err] s1]; simpl in Ht.
  2:{ exists []. simpl. by rewrite Ht, app_nil_r. }
  destruct (match body with
            | Some b => match json_Marshal b with
                        | Ok d => Ok (Some d)
                        | Err e => Err e
                        end
            | None => Ok None
            end) as [bodyReader|err].
  2:{ exists []. simpl. by rewrite Ht, app_nil_r. }
  destruct (http_NewRequest method (baseURL c ++ path) bodyReader) as [req|err].
  2:{ exists []. simpl. by rewrite Ht, app_nil_r. }
  unfold emit, liftW. cbn [world trace].
  match goal with |- context [httpClient c ?r ?w] => destruct (httpClient c r w) end.
  eexists [_]. cbn [snd trace]. rewrite Ht. split_and!; reflexivity.
Qed.

(** Every call of [do] is recorded once, whatever becomes of it. *)
Lemma do_calls (c : Client) (method path : string) (body : option B)
    (result : option R) (s : State W) :
  doCalls (trace (snd (do c method path body result s)))
  = (doCalls (trace s) ++ [(method, path)])%list
  ∧ opened (trace (snd (do c method path body result s))) = opened (trace s).
Proof.
  unfold do, bind, emit.
  match goal with |- context [request c method path body ?s0] =>
    destruct (request_trace c method path body s0) as (evs & Ht & Hd & Ho);
    destruct (request c method path body s0) as [r s1] end.
  cbn [snd trace] in Ht.
  assert (Hs1 : doCalls (trace s1) = (doCalls (trace s) ++ [(method, path)])%list
                ∧ opened (trace s1) = opened (trace s)).
  { rewrite Ht, !doCalls_app, !opened_app, Hd, Ho. simpl. by rewrite !app_nil_r. }
  destruct r as [resp|err]; [|exact Hs1].
  destruct (io_ReadAll (Body resp)) as [respBody [err|]]; [exact Hs1|].
  destruct (400 <=? StatusCode resp).
  - destruct (json_Unmarshal respBody zeroErrorResponse) as [errResp [e|]];
      [exact Hs1|].
    destruct (Errors errResp); exact Hs1.
  - destruct result as [r|]; [|exact Hs1].
    destruct (json_Unmarshal respBody r); exact Hs1.
Qed.

(** A call with a result hands a result back. *)
Lemma do_Some (c : Client) (method path : string) (body : option B) (r : R)
    (s : State W) :
  ∃ r' e s', do c method path body (Some r) s = ((Some r', e), s').
Proof.
  unfold do, bind, emit.
  match goal with |- context [request c method path body ?s0] =>
    destruct (request c method path body s0) as [[resp|err] s1] end; [|by eauto].
  destruct (io_ReadAll (Body resp)) as [respBody [err|]]; [by eauto|].
  destruct (400 <=? StatusCode resp).
  - destruct (json_Unmarshal respBody zeroErrorResponse) as [errResp [e|]];
      [by eauto|].
    destruct (Errors errResp); by eauto.
  - destruct (json_Unmarshal respBody r); by eauto.
Qed.

(** What [do] makes of a response whose body was read. *)
Lemma do_received (c : Client) (method path : string) (body : option B)
    (result : option R) (s s1 : State W) (resp : Response) (respBody : string) :
  request c method path body (snd (emit (EvDo method path) s)) = (Ok resp, s1) →
  io_ReadAll (Body resp) = (respBody, None) →
  do c method path body result s =
    (if 400 <=? StatusCode resp then
       match json_Unmarshal respBody zeroErrorResponse with
       | (errResp, None) =>
           match Errors errResp with
           | e0 :: _ =>
               (result,
                Some (errorString
                        (apiErrorText (StatusCode resp) (envelopeMessage e0))))
           | [] =>
               (result, Some (errorString (apiErrorText (StatusCode resp) respBody)))
           end
       | (_, Some _) =>
           (result, Some (errorString (apiErrorText (StatusCode resp) respBody)))
       end
     else
       match result with
       | Some r => (Some (fst (json_Unmarshal respBody r)),
                    snd (json_Unmarshal respBody r))
       | None => (None, None)
       end, s1).
Proof.
  intros Hreq Hread. unfold do, bind, emit.
  unfold emit in Hreq. cbn [snd] in Hreq.
  rewrite Hreq, Hread.
  destruct (400 <=? StatusCode resp).
  - destruct (json_Unmarshal respBody zeroErrorResponse) as [errResp [e|]];
      [reflexivity|].
    destruct (Errors errResp) as [|e0 rest]; [reflexivity|].
    unfold envelopeMessage, apiErrorText.
    by destruct (String.eqb (APIError_Context e0) "").
  - destruct result as [r|]; [|reflexivity].
    by destruct (json_Unmarshal respBody r).
Qed.

(** C2, as the code has it.  For a response whose body was read: below 400,
    without a result the call succeeds, and with a result the body is decoded
    into it and the call returns what the decoding returns, so it succeeds
    exactly when the decoding does; from 400 on the call fails with the text
    "API error (status): message", the message being that of the first entry
    of the decoded envelope, followed by ": " and its context when the
    context is not empty, or the raw body when the envelope does not decode
    or has no entry. *)
Theorem do_classification (c : Client) (method path : string) (body : option B)
    (result : option R) (s s1 : State W) (resp : Response) (respBody : string) :
  request c method path body (snd (emit (EvDo method path) s)) = (Ok resp, s1) →
  io_ReadAll (Body resp) = (respBody, None) →
  (StatusCode resp < 400 →
     do c method path body result s =
       (match result with
        | Some r => (Some (fst (json_Unmarshal respBody r)),
                     snd (json_Unmarshal respBody r))
        | None => (None, None)
        end, s1))
  ∧ (400 <= StatusCode resp →
     ∀ errResp uerr,
       json_Unmarshal respBody zeroErrorResponse = (errResp, uerr) →
       (∀ e0 rest, uerr = None → Errors errResp = e0 :: rest →
          do c method path body result s =
            ((result,
              Some (errorString (apiErrorText (StatusCode resp) (envelopeMessage e0)))),
             s1))
       ∧ (uerr ≠ None ∨ Errors errResp = [] →
          do c method path body result s =
            ((result, Some (errorString (apiErrorText (StatusCode resp) respBody))),
             s1))).
Proof.
  intros Hreq Hread. rewrite (do_received _ _ _ _ _ _ _ _ _ Hreq Hread). split.
  - intros Hlt. by assert ((400 <=? StatusCode resp) = false) as -> by lia.
  - intros Hge errResp uerr Hdec.
    assert ((400 <=? StatusCode resp) = true) as -> by lia.
    rewrite Hdec. split.
    + by intros e0 rest -> ->.
    + intros [Hu | Hnil].
      * by destruct uerr.
      * rewrite Hnil. by destruct uerr.
Qed.

End Transport.

(** ** The resource accessors *)

Section Accessors.
Context {W : Type} {Wd : World W} {L : Lib}.
Context {ErrorResponse_dec : Unmarshaler ErrorResponse}.
Context {Posts_enc : Marshaler (gmap string (list Post))}
        {Posts_dec : Unmarshaler PostsResponse}.
Context {Pages_enc : Marshaler (gmap string (list Page))}
        {Pages_dec : Unmarshaler PagesResponse}.
Context {Tags_enc : Marshaler (gmap string (list Tag))}
        {Tags_dec : Unmarshaler TagsResponse}.
Context {Users_dec : Unmarshaler UsersResponse}.
Context {Newsletters_dec : Unmarshaler NewslettersResponse}.
Context {Webhooks_enc : Marshaler (gmap string (list Webhook))}
        {Webhooks_dec : Unmarshaler WebhooksResponse}.
Context {Images_dec : Unmarshaler ImagesResponse}.

(** Runs the first call of an accessor and names what it leaves. *)
Ltac first_call c method path body zero s :=
  let resp := fresh "resp1" in
  let e := fresh "e1" in
  let s1 := fresh "s1" in
  let H := fresh "Hdo1" in
  let Hc := fresh "Hcalls1" in
  destruct (do_Some c method path body zero s) as (resp & e & s1 & H);
  pose proof (proj1 (do_calls c method path body (Some zero) s)) as Hc;
  rewrite H in Hc; cbn [snd] in Hc.

(** The same pattern, stated once for the four accessors that have it. *)
Ltac getByKey_tac :=
  intros c idOrSlug s; cbv zeta;
  match goal with
  | |- ∃ _ _ _ _, do c "GET" ?byID nobody (Some ?zero) s = _ ∧ _ =>
      first_call c "GET" byID nobody zero s
  end;
  match goal with
  | H : do _ _ _ _ _ _ = ((Some ?resp1, ?e1), ?s1) |- _ =>
      exists resp1, e1, s1; unfold bind, ret; rewrite H;
      cbn [default from_option Datatypes.id];
      destruct e1 as [err1|]
  end;
  [ match goal with
    | H : do _ _ _ _ _ _ = ((Some ?resp1, _), ?s1)
      |- ∃ _, _ ∧ _ ∧ _ ∧ (_ = [_; ("GET", ?bySlug)] ↔ _) ∧ _ =>
        first_call c "GET" bySlug nobody resp1 s1
    end;
    match goal with
    | H : do _ _ _ _ (Some ?r1) ?s1 = ((Some ?resp2, ?e2), ?s2),
      H1 : do _ _ _ _ _ s = ((Some ?r1, _), ?s1),
      Hc2 : doCalls (trace ?s2) = _, Hc1 : doCalls (trace ?s1) = _ |- _ =>
        rewrite H; cbn [default from_option Datatypes.id];
        eexists [_; _]; split_and!;
        [ done
        | destruct e2; [|destruct (_ resp2)]; cbn [snd];
          by rewrite Hc2, Hc1, <- app_assoc
        | simpl; lia
        | done
        | done
        | intros _; exists resp2, e2, s2; split; [done|];
          destruct e2; [|destruct (_ resp2)]; reflexivity ]
    end
  | match goal with
    | H1 : do _ _ _ _ _ s = ((Some ?r1, _), ?s1) |- _ =>
        eexists [_]; split_and!;
        [ done
        | by destruct (_ r1)
        | simpl; lia
        | split; [discriminate | done]
        | intros _; split; [done|]; by destruct (_ r1)
        | done ]
    end ].

Lemma GetPost_pattern :
  getByKey_pattern GetPost zeroPostsResponse Posts
    (λ k, "/posts/" ++ k ++ "/?formats=html")
    (λ k, "/posts/slug/" ++ k ++ "/?formats=html") "post".
Proof. unfold getByKey_pattern, GetPost. getByKey_tac. Qed.

Lemma GetPage_pattern :
  getByKey_pattern GetPage zeroPagesResponse Pages
    (λ k, "/pages/" ++ k ++ "/?formats=html")
    (λ k, "/pages/slug/" ++ k ++ "/?formats=html") "page".
Proof. unfold getByKey_pattern, GetPage. getByKey_tac. Qed.

Lemma GetTag_pattern :
  getByKey_pattern GetTag zeroTagsResponse Tags
    (λ k, "/tags/" ++ k ++ "/") (λ k, "/tags/slug/" ++ k ++ "/") "tag".
Proof. unfold getByKey_pattern, GetTag. getByKey_tac. Qed.

Lemma GetUser_pattern :
  getByKey_pattern GetUser zeroUsersResponse Users
    (λ k, "/users/" ++ k ++ "/") (λ k, "/users/slug/" ++ k ++ "/") "user".
Proof. unfold getByKey_pattern, GetUser. getByKey_tac. Qed.

(** A response below 400 whose body decodes is a call without error. *)
Lemma do_decoded {B R : Type} {Benc : Marshaler B} {Rdec : Unmarshaler R}
    (c : Client) (method path : string) (body : option B) (zero decoded : R)
    (s sr : State W) (resp : Response) (respBody : string) :
  request c method path body (snd (emit (EvDo method path) s)) = (Ok resp, sr) →
  io_ReadAll (Body resp) = (respBody, None) →
  StatusCode resp < 400 →
  json_Unmarshal respBody zero = (decoded, None) →
  do c method path body (Some zero) s = ((Some decoded, None), sr).
Proof.
  intros Hreq Hread Hlt Hdec.
  rewrite (do_received c method path body (Some zero) s sr resp respBody Hreq Hread).
  assert ((400 <=? StatusCode resp) = false) as -> by lia.
  by rewrite Hdec.
Qed.

(** What [GetPost] does, in terms of the record its calls share.  [GetPost]
    first calls the transport with the path addressed by identifier.  When that call succeeds it is the only one; when it fails,
    whatever the failure, a second call with the slug path follows, and its
    error, if any, is the error of the operation.  The call that succeeded
    decides the outcome: the first post of the collection it left in the
    record, or the error "post not found: " followed by the input when that
    collection is empty.  The second part says so of a first response with a status below
    400 whose body decodes: one call, and the error for an empty collection
    although the status was a success. *)
Theorem GetPost_spec (c : Client) (idOrSlug : string) (s : State W) :
  let byID := "/posts/" ++ idOrSlug ++ "/?formats=html" in
  let bySlug := "/posts/slug/" ++ idOrSlug ++ "/?formats=html" in
  let notFound := errorString ("post not found: " ++ idOrSlug) in
  (∃ resp1 e1 s1 calls,
     do c "GET" byID nobody (Some zeroPostsResponse) s = ((Some resp1, e1), s1)
     ∧ doCalls (trace (snd (GetPost c idOrSlug s)))
       = (doCalls (trace s) ++ calls)%list
     ∧ (length calls ≤ 2)%nat
     ∧ (calls = [("GET", byID); ("GET", bySlug)] ↔ e1 ≠ None)
     ∧ (e1 = None →
        calls = [("GET", byID)]
        ∧ GetPost c idOrSlug s = (firstOr (Posts resp1) notFound, s1))
     ∧ (e1 ≠ None →
        ∃ resp2 e2 s2,
          do c "GET" bySlug nobody (Some resp1) s1 = ((Some resp2, e2), s2)
          ∧ GetPost c idOrSlug s
            = (match e2 with
               | Some err => Err err
               | None => firstOr (Posts resp2) notFound
               end, s2)))
  ∧ (∀ resp sr respBody decoded,
       request c "GET" byID nobody (snd (emit (EvDo "GET" byID) s)) = (Ok resp, sr) →
       io_ReadAll (Body resp) = (respBody, None) →
       StatusCode resp < 400 →
       json_Unmarshal respBody zeroPostsResponse = (decoded, None) →
       doCalls (trace (snd (GetPost c idOrSlug s)))
       = (doCalls (trace s) ++ [("GET", byID)])%list
       ∧ GetPost c idOrSlug s = (firstOr (Posts decoded) notFound, sr)).
Proof.
  intros byID bySlug notFound. split; [exact (GetPost_pattern c idOrSlug s)|].
  intros resp sr respBody decoded Hreq Hread Hlt Hdec.
  pose proof (do_decoded c "GET" byID nobody zeroPostsResponse decoded s sr
                resp respBody Hreq Hread Hlt Hdec) as Hdo.
  destruct (GetPost_pattern c idOrSlug s)
    as (resp1 & e1 & s1 & calls & Hdo' & Htr & _ & _ & Hnone & _).
  cbv beta in Hdo'. fold byID in Hdo'. rewrite Hdo in Hdo'.
  injection Hdo' as <- <- <-.
  destruct (Hnone eq_refl) as [-> Hres]. split; [exact Htr | exact Hres].
Qed.

(** One call of the transport, then the first element. *)
Ltac single_call_tac :=
  let s' := fresh "s" in
  intros s'; unfold bind, ret;
  match goal with
  | |- ∃ _ _ _, do ?c ?m ?p ?b (Some ?zero) s' = _ ∧ _ =>
      first_call c m p b zero s'
  end;
  match goal with
  | H : do _ _ _ _ _ s' = ((Some ?resp, ?e), ?s1) |- _ =>
      exists resp, e, s1; rewrite H; cbn [default from_option Datatypes.id];
      split_and!;
      [ done
      | destruct e; [|destruct (_ resp)]; done
      | destruct e; [|destruct (_ resp)]; reflexivity ]
  end.

Lemma no_kind_returned_distinct (kind : string) :
  (∀ status msg,
     errorString ("no " ++ kind ++ " returned") ≠ errorString (apiErrorText status msg))
  ∧ (∀ pre e, errorString ("no " ++ kind ++ " returned") ≠ wrapError pre e).
Proof.
  split; [|discriminate].
  intros status msg. unfold apiErrorText. rewrite !append_cons. discriminate.
Qed.

(** C5.  [CreatePost] and [UpdatePost] make one call of the transport.  When
    it returns no error (a status below 400 and a body that decoded) and the
    collection is empty, the operation fails with "no post returned"; when
    the collection is not empty the operation returns its first element; an
    error of the call is returned as it is.  So a response with a status
    below 400 whose body decodes to an empty collection gives "no post
    returned", and one that decodes to a collection gives its first element.
    The same holds of the other creates and updates, each with its own kind;
    and "no kind returned" is neither an API error of the transport nor a
    wrapped error. *)
Theorem create_update_spec (c : Client) (id : string) (post : Post)
    (s : State W) :
  let body : gmap string (list Post) := {["posts" := [post]]} in
  (∃ resp e s1,
     do c "POST" "/posts/?source=html&formats=html" (Some body)
       (Some zeroPostsResponse) s = ((Some resp, e), s1)
     ∧ (e = None → Posts resp = [] →
        CreatePost c post s = (Err (errorString "no post returned"), s1))
     ∧ (∀ x rest, e = None → Posts resp = x :: rest →
        CreatePost c post s = (Ok x, s1))
     ∧ (∀ err, e = Some err → CreatePost c post s = (Err err, s1)))
  ∧ (∃ resp e s1,
       do c "PUT" ("/posts/" ++ id ++ "/?source=html&formats=html") (Some body)
         (Some zeroPostsResponse) s = ((Some resp, e), s1)
       ∧ (e = None → Posts resp = [] →
          UpdatePost c id post s = (Err (errorString "no post returned"), s1))
       ∧ (∀ x rest, e = None → Posts resp = x :: rest →
          UpdatePost c id post s = (Ok x, s1))
       ∧ (∀ err, e = Some err → UpdatePost c id post s = (Err err, s1)))
  ∧ (∀ resp sr respBody decoded,
       request c "POST" "/posts/?source=html&formats=html" (Some body)
         (snd (emit (EvDo "POST" "/posts/?source=html&formats=html") s))
       = (Ok resp, sr) →
       io_ReadAll (Body resp) = (respBody, None) →
       StatusCode resp < 400 →
       json_Unmarshal respBody zeroPostsResponse = (decoded, None) →
       CreatePost c post s
       = (firstOr (Posts decoded) (errorString "no post returned"), sr))
  ∧ (∀ resp sr respBody decoded,
       request c "PUT" ("/posts/" ++ id ++ "/?source=html&formats=html") (Some body)
         (snd (emit (EvDo "PUT" ("/posts/" ++ id ++ "/?source=html&formats=html")) s))
       = (Ok resp, sr) →
       io_ReadAll (Body resp) = (respBody, None) →
       StatusCode resp < 400 →
       json_Unmarshal respBody zeroPostsResponse = (decoded, None) →
       UpdatePost c id post s
       = (firstOr (Posts decoded) (errorString "no post returned"), sr))
  ∧ (∀ page : Page,
       single_call_pattern (CreatePage c page)
         (do c "POST" "/pages/?formats=html"
            (Some ({["pages" := [page]]} : gmap string (list Page)))
            (Some zeroPagesResponse))
         "POST" "/pages/?formats=html" Pages (errorString "no page returned")
       ∧ single_call_pattern (UpdatePage c id page)
           (do c "PUT" ("/pages/" ++ id ++ "/?formats=html")
              (Some ({["pages" := [page]]} : gmap string (list Page)))
              (Some zeroPagesResponse))
           "PUT" ("/pages/" ++ id ++ "/?formats=html") Pages
           (errorString "no page returned"))
  ∧ (∀ tag : Tag,
       single_call_pattern (CreateTag c tag)
         (do c "POST" "/tags/"
            (Some ({["tags" := [tag]]} : gmap string (list Tag)))
            (Some zeroTagsResponse))
         "POST" "/tags/" Tags (errorString "no tag returned")
       ∧ single_call_pattern (UpdateTag c id tag)
           (do c "PUT" ("/tags/" ++ id ++ "/")
              (Some ({["tags" := [tag]]} : gmap string (list Tag)))
              (Some zeroTagsResponse))
           "PUT" ("/tags/" ++ id ++ "/") Tags (errorString "no tag returned"))
  ∧ (∀ webhook : Webhook,
       single_call_pattern (CreateWebhook c webhook)
         (do c "POST" "/webhooks/"
            (Some ({["webhooks" := [webhook]]} : gmap string (list Webhook)))
            (Some zeroWebhooksResponse))
         "POST" "/webhooks/" Webhooks (errorString "no webhook returned"))
  ∧ (∀ kind status msg pre e,
       errorString ("no " ++ kind ++ " returned") ≠ errorString (apiErrorText status msg)
       ∧ errorString ("no " ++ kind ++ " returned") ≠ wrapError pre e).
Proof.
  intros body. split_and!.
  - unfold CreatePost, bind, ret. fold body.
    first_call c "POST" "/posts/?source=html&formats=html" (Some body)
      zeroPostsResponse s.
    exists resp1, e1, s1. rewrite Hdo1. cbn [default from_option Datatypes.id].
    split_and!; [done | by intros -> -> | by intros x rest -> -> | by intros err ->].
  - unfold UpdatePost, bind, ret. fold body.
    first_call c "PUT" ("/posts/" ++ id ++ "/?source=html&formats=html")
      (Some body) zeroPostsResponse s.
    exists resp1, e1, s1. rewrite Hdo1. cbn [default from_option Datatypes.id].
    split_and!; [done | by intros -> -> | by intros x rest -> -> | by intros err ->].
  - intros resp sr respBody decoded Hreq Hread Hlt Hdec.
    unfold CreatePost, bind, ret. fold body.
    rewrite (do_decoded c "POST" _ (Some body) zeroPostsResponse decoded s sr
               resp respBody Hreq Hread Hlt Hdec).
    cbn [default from_option Datatypes.id]. by destruct (Posts decoded).
  - intros resp sr respBody decoded Hreq Hread Hlt Hdec.
    unfold UpdatePost, bind, ret. fold body.
    rewrite (do_decoded c "PUT" _ (Some body) zeroPostsResponse decoded s sr
               resp respBody Hreq Hread Hlt Hdec).
    cbn [default from_option Datatypes.id]. by destruct (Posts decoded).
  - intros page. split; unfold single_call_pattern, CreatePage, UpdatePage;
      single_call_tac.
  - intros tag. split; unfold single_call_pattern, CreateTag, UpdateTag;
      single_call_tac.
  - intros webhook. unfold single_call_pattern, CreateWebhook. single_call_tac.
  - intros kind status msg pre e.
    split; by apply no_kind_returned_distinct.
Qed.

(** C6, what the code does: the path of a page write carries formats=html
    alone, where the path of a post write carries source=html as well. *)
Theorem page_write_paths (c : Client) (id : string) (page : Page) (post : Post)
    (s : State W) :
  doCalls (trace (snd (CreatePage c page s)))
  = (doCalls (trace s) ++ [("POST", "/pages/?formats=html")])%list
  ∧ doCalls (trace (snd (UpdatePage c id page s)))
    = (doCalls (trace s)
       ++ [("PUT", ("/pages/" ++ id ++ "/?formats=html")%string)])%list
  ∧ doCalls (trace (snd (CreatePost c post s)))
    = (doCalls (trace s) ++ [("POST", "/posts/?source=html&formats=html")])%list
  ∧ doCalls (trace (snd (UpdatePost c id post s)))
    = (doCalls (trace s)
       ++ [("PUT", ("/posts/" ++ id ++ "/?source=html&formats=html")%string)])%list
  ∧ contains "source=html" "/pages/?formats=html" = false
  ∧ contains "source=html" ("/pages/" ++ "123" ++ "/?formats=html") = false
  ∧ contains "source=html&formats=html" "/posts/?source=html&formats=html" = true.
Proof.
  assert (Hcalls : ∀ {T Resp : Type} {enc : Marshaler (gmap string (list T))}
            {dec : Unmarshaler Resp} (proj : Resp → list T) (missing : error)
            (method path : string) (body : gmap string (list T)) (zero : Resp),
            doCalls (trace (snd
              ((let* (r, err) := do c method path (Some body) (Some zero) in
                match err with
                | Some err => ret (Err err)
                | None =>
                    match proj (default zero r) with
                    | [] => ret (Err missing)
                    | x :: _ => ret (Ok x)
                    end
                end) s)))
            = (doCalls (trace s) ++ [(method, path)])%list).
  { intros T Resp enc dec proj missing method path body zero. unfold bind, ret.
    first_call c method path (Some body) zero s.
    rewrite Hdo1. cbn [default from_option Datatypes.id].
    destruct e1; [|destruct (proj resp1)]; done. }
  split_and!; [apply Hcalls .. | reflexivity | reflexivity | reflexivity].
Qed.

(** C7, as the code has it.  [GetNewsletter] makes one call of the
    transport, addressed by identifier, and no other: an error of that call
    is the error of the operation, and when the call succeeds the outcome is
    the first newsletter of the collection, or "newsletter not found: "
    followed by the identifier when the collection is empty. *)
Theorem GetNewsletter_spec (c : Client) (id : string) (s : State W) :
  let byID := "/newsletters/" ++ id ++ "/" in
  ∃ resp e s1,
    do c "GET" byID nobody (Some zeroNewslettersResponse) s = ((Some resp, e), s1)
    ∧ doCalls (trace (snd (GetNewsletter c id s)))
      = (doCalls (trace s) ++ [("GET", byID)])%list
    ∧ GetNewsletter c id s
      = (match e with
         | Some err => Err err
         | None => firstOr (Newsletters resp)
                     (errorString ("newsletter not found: " ++ id))
         end, s1).
Proof. cbv zeta. revert s. unfold GetNewsletter. single_call_tac. Qed.

(** C9.  A delete of a post, a page, a tag or a webhook whose response has a
    status below 400 succeeds whatever the body holds: the body is read and
    nothing decodes it. *)
Theorem Delete_spec :
  delete_pattern DeletePost (λ id, "/posts/" ++ id ++ "/")
  ∧ delete_pattern DeletePage (λ id, "/pages/" ++ id ++ "/")
  ∧ delete_pattern DeleteTag (λ id, "/tags/" ++ id ++ "/")
  ∧ delete_pattern DeleteWebhook (λ id, "/webhooks/" ++ id ++ "/").
Proof.
  split_and!; intros c id s s1 resp respBody Hreq Hread Hlt;
    unfold DeletePost, DeletePage, DeleteTag, DeleteWebhook, bind, ret;
    rewrite (do_received (R := untyped_nil) c "DELETE" _ nobody nobody
               s s1 resp respBody Hreq Hread);
    by assert ((400 <=? StatusCode resp) = false) as -> by lia.
Qed.

(** C10.  With a credential that does not parse, [UploadImage] fails with
    the wrapped error of the token and leaves the world as it was: no file is
    opened.  A file is opened only after a token was minted, so only under a
    credential that parses; the error of opening it is then the error of the
    operation. *)
Theorem UploadImage_token_first (c : Client) (filePath : string) (s : State W) :
  (∀ err, ParseAPIKey (apiKey c) = Err err →
     UploadImage c filePath s = (Err (wrapError "generating token: " err), s))
  ∧ (opened (trace (snd (UploadImage c filePath s))) = opened (trace s)
     ∨ (is_Ok (ParseAPIKey (apiKey c)) = true
        ∧ ∃ evs, opened (trace (snd (UploadImage c filePath s)))
                 = (opened (trace s) ++ filePath :: evs)%list))
  ∧ (∀ token s1 err s2,
       GenerateToken (apiKey c) s = (Ok token, s1) →
       os_Open filePath (world s1) = (Err err, s2) →
       is_Ok (ParseAPIKey (apiKey c)) = true
       ∧ fst (UploadImage c filePath s) = Err err).
Proof.
  split_and!.
  - intros err Hp. unfold UploadImage, bind.
    rewrite GenerateToken_WithTime, Hp. reflexivity.
  - unfold UploadImage, bind.
    pose proof (GenerateToken_trace (apiKey c) s) as Ht.
    pose proof (GenerateToken_WithTime (apiKey c) s) as Hg.
    destruct (GenerateToken (apiKey c) s) as [[token|err] s1]; cbn [snd] in Ht.
    2:{ left. cbn [ret snd]. by rewrite Ht. }
    right. split.
    { destruct (ParseAPIKey (apiKey c)); [done | discriminate]. }
    unfold emit, liftW. cbn [world trace].
    destruct (os_Open filePath (world s1)) as [[file|err] w1].
    2:{ exists []. cbn [ret snd trace]. by rewrite opened_app, Ht. }
    cbn [world trace].
    destruct (multipart_randomBoundary w1) as [boundary w2].
    destruct (io_ReadAll file) as [content [err|]].
    { exists []. cbn [ret snd trace]. by rewrite opened_app, Ht. }
    destruct (http_NewRequest _ _ _) as [req|err].
    2:{ exists []. cbn [ret snd trace]. by rewrite opened_app, Ht. }
    cbn [world trace].
    match goal with |- context [httpClient c ?r ?w] =>
      destruct (httpClient c r w) as [[resp|err] w3] end.
    2:{ exists []. cbn [ret snd trace]. rewrite !opened_app, Ht; cbn [opened]; by rewrite ?app_nil_r. }
    destruct (io_ReadAll (Body resp)) as [respBody [err|]].
    { exists []. cbn [ret snd trace]. rewrite !opened_app, Ht; cbn [opened]; by rewrite ?app_nil_r. }
    destruct (400 <=? StatusCode resp).
    { exists []. cbn [ret snd trace]. rewrite !opened_app, Ht; cbn [opened]; by rewrite ?app_nil_r. }
    destruct (json_Unmarshal respBody zeroImagesResponse) as [result [err|]];
      exists []; cbn [ret snd trace]; rewrite !opened_app, Ht; cbn [opened]; by rewrite ?app_nil_r.
  - intros token s1 err s2 Hg Ho. split.
    + rewrite GenerateToken_WithTime in Hg.
      destruct (ParseAPIKey (apiKey c)); [done | discriminate].
    + unfold UploadImage, bind. rewrite Hg. unfold emit, liftW. cbn [world trace].
      by rewrite Ho.
Qed.

End Accessors.

(** ** The result the two calls of a lookup share *)

Section SharedResult.
Context {W : Type} {Wd : World W} {L : Lib}.
Context {ErrorResponse_dec : Unmarshaler ErrorResponse}.
Context {T : Type} (set : T → string → JSON.value → T * option error).

(** An object without members leaves a structure as it is. *)
Lemma structDecoder_empty_object (r : T) :
  json_Unmarshal (Unmarshaler := structDecoder set) "{}" r = (r, None).
Proof. reflexivity. Qed.

End SharedResult.

Section StaleResult.
Context {W : Type} {Wd : World W} {L : Lib}.
Context {ErrorResponse_dec : Unmarshaler ErrorResponse}.
Context (set : PostsResponse → string → JSON.value → PostsResponse * option error).

(** C1, where the code departs from it.  [GetPost] hands one response record
    to both calls.  A first call that fails after its body has put posts
    into the record (a body that decodes in part) leaves them there; when
    the second response has a status below 400 and the body "{}", which read
    on its own is a response without posts, the second call succeeds and
    changes nothing, and [GetPost] returns the first post of the failed
    first attempt instead of "post not found".  The decoder is any decoder
    of a structure. *)
Theorem GetPost_stale_result (c : Client) (idOrSlug : string) (s s1 s2 : State W)
    (resp1 : PostsResponse) (e1 : error) (x : Post) (rest : list Post)
    (resp : Response) :
  let byID := "/posts/" ++ idOrSlug ++ "/?formats=html" in
  let bySlug := "/posts/slug/" ++ idOrSlug ++ "/?formats=html" in
  do (Rdec := structDecoder set) c "GET" byID nobody (Some zeroPostsResponse) s
  = ((Some resp1, Some e1), s1) →
  Posts resp1 = x :: rest →
  request c "GET" bySlug nobody (snd (emit (EvDo "GET" bySlug) s1)) = (Ok resp, s2) →
  io_ReadAll (Body resp) = ("{}", None) →
  StatusCode resp < 400 →
  json_Unmarshal (Unmarshaler := structDecoder set) "{}" zeroPostsResponse
  = (zeroPostsResponse, None)
  ∧ Posts zeroPostsResponse = []
  ∧ do (Rdec := structDecoder set) c "GET" bySlug nobody (Some resp1) s1
    = ((Some resp1, None), s2)
  ∧ GetPost (Posts_dec := structDecoder set) c idOrSlug s = (Ok x, s2).
Proof.
  intros byID bySlug Hdo1 Hposts Hreq Hread Hlt.
  assert (Hdo2 : do (Rdec := structDecoder set) c "GET" bySlug nobody (Some resp1) s1
                 = ((Some resp1, None), s2)).
  { rewrite (do_received c "GET" bySlug nobody (Some resp1) s1 s2 resp "{}"
               Hreq Hread).
    assert ((400 <=? StatusCode resp) = false) as -> by lia.
    by rewrite structDecoder_empty_object. }
  split_and!; [reflexivity | reflexivity | exact Hdo2 |].
  unfold GetPost, bind, ret. fold byID bySlug. rewrite Hdo1.
  cbn [default from_option Datatypes.id]. rewrite Hdo2.
  cbn [default from_option Datatypes.id]. by rewrite Hposts.
Qed.

End StaleResult.

(** ** encoding/json on a Pagination *)

Section JSONFacts.
Import JSON.

Lemma append_nil_r (s : string) : s ++ "" = s.
Proof. induction s as [|c s IH]; [reflexivity|]. by rewrite append_cons, IH. Qed.

Lemma append_assoc (a b c : string) : (a ++ b) ++ c = a ++ b ++ c.
Proof. induction a as [|x a IH]; [reflexivity|]. by rewrite !append_cons, IH. Qed.

Lemma take_digits_app d r :
  allDigits d = true → endsNumber r = true →
  take_digits (d ++ r) = (d, r).
Proof.
  intros Hd Hr. induction d as [|c d IH].
  - rewrite append_nil_l. destruct r as [|c r]; [reflexivity|].
    cbn [take_digits]. cbn [endsNumber] in Hr.
    destruct (isDigit c); [discriminate | reflexivity].
  - cbn [allDigits] in Hd. apply andb_prop in Hd as [Hc Hd].
    rewrite append_cons. cbn [take_digits]. by rewrite Hc, IH.
Qed.

Lemma string_of_uint_digits d : allDigits (NilEmpty.string_of_uint d) = true.
Proof. induction d; cbn [NilEmpty.string_of_uint allDigits]; try rewrite IHd; reflexivity. Qed.

(** The decimal text of a positive number: digits, the first of them not 0. *)
Lemma to_uint_head p :
  ∃ c d, NilEmpty.string_of_uint (Pos.to_uint p) = String c d
         ∧ isDigit c = true ∧ Ascii.eqb c "0" = false ∧ allDigits d = true.
Proof.
  pose proof (string_of_uint_digits (Pos.to_uint p)) as Hall.
  assert (Hn : Decimal.unorm (Pos.to_uint p) = Pos.to_uint p).
  { rewrite <- (DecimalPos.Unsigned.to_of (Pos.to_uint p)).
    by rewrite DecimalPos.Unsigned.of_to. }
  destruct (Pos.to_uint p) as [|u|u|u|u|u|u|u|u|u|u] eqn:Hu;
    try (cbn [NilEmpty.string_of_uint allDigits] in *;
         eexists _, _; split; [reflexivity|]; split_and!; try reflexivity;
         by apply andb_prop in Hall as [_ ?]).
  - by destruct (DecimalPos.Unsigned.to_uint_nonnil p).
  - exfalso. rewrite unorm_D0 in Hn.
    destruct (Decimal.nzhead u) eqn:Hz;
      [| rewrite unorm_nzhead in Hn by (by rewrite Hz);
         by apply (nzhead_nonzero u u) ..].
    assert (Decimal.unorm u = Decimal.zero) as Hz' by (by apply unorm_0).
    rewrite Hz' in Hn. injection Hn as <-.
    by apply (DecimalPos.Unsigned.to_uint_nonzero p).
Qed.

Lemma Itoa_zero : strconv_Itoa 0 = "0".
Proof. reflexivity. Qed.

(** The text of an integer: an optional minus sign, then 0 alone or digits
    that do not start with 0. *)
Lemma Itoa_shape z :
  ∃ sg d, strconv_Itoa z = sg ++ d
          ∧ (sg = "" ∨ sg = "-")
          ∧ (d = "0" ∨ ∃ c d', d = String c d' ∧ isDigit c = true
                               ∧ Ascii.eqb c "0" = false ∧ allDigits d' = true).
Proof.
  unfold strconv_Itoa. destruct z as [|p|p]; cbn [Z.to_int NilZero.string_of_int].
  - exists "", "0". split_and!; [reflexivity | by left | by left].
  - destruct (to_uint_head p) as (c & d & Hs & Hc & H0 & Hd).
    exists "", (String c d). split_and!; [|by left|right; by exists c, d].
    unfold NilZero.string_of_uint. rewrite append_nil_l.
    destruct (Pos.to_uint p) eqn:Hu; try exact Hs; discriminate Hs.
  - destruct (to_uint_head p) as (c & d & Hs & Hc & H0 & Hd).
    exists "-", (String c d). split_and!; [|by right|right; by exists c, d].
    unfold NilZero.string_of_uint. rewrite append_cons, append_nil_l. f_equal.
    destruct (Pos.to_uint p) eqn:Hu; try exact Hs; discriminate Hs.
Qed.

Lemma ParseInt_Itoa z :
  - 2 ^ 63 <= z < 2 ^ 63 → strconv_ParseInt (strconv_Itoa z) = Some z.
Proof.
  intros Hz. unfold strconv_ParseInt, strconv_Itoa.
  rewrite NilZero.isi.
  - rewrite DecimalZ.of_to.
    assert ((- 2 ^ 63 <=? z) && (z <? 2 ^ 63) = true) as ->; [|done].
    apply andb_true_intro; split; lia.
  - destruct z; cbn [Z.to_int]; try discriminate.
    intros [= Hp]. by apply (DecimalPos.Unsigned.to_uint_nonnil p).
  - destruct z; cbn [Z.to_int]; try discriminate.
    intros [= Hp]. by apply (DecimalPos.Unsigned.to_uint_nonnil p).
Qed.

(** A number text is scanned whole when the text after it ends a number. *)
Lemma scan_number_Itoa z r :
  endsNumber r = true → scan_number (strconv_Itoa z ++ r) = Some (strconv_Itoa z, r).
Proof.
  intros Hr. destruct (Itoa_shape z) as (sg & d & -> & Hsg & Hd).
  assert (Hrest : scan_frac r = Some ("", r) ∧ scan_exp r = Some ("", r)).
  { destruct r as [|c r]; [done|]. cbn [endsNumber] in Hr.
    unfold scan_frac, scan_exp.
    destruct (isDigit c), (Ascii.eqb c "."), (Ascii.eqb c "e"), (Ascii.eqb c "E");
      try discriminate; done. }
  destruct Hrest as [Hf He].
  assert (Hint : scan_int (d ++ r) = Some (d, r)).
  { destruct Hd as [-> | (c & d' & -> & Hc & H0 & Hd')].
    - reflexivity.
    - rewrite append_cons. unfold scan_int. rewrite H0, Hc.
      by rewrite take_digits_app. }
  assert (Hhead : ∀ c x, d ++ r = String c x → Ascii.eqb c "-" = false).
  { destruct Hd as [-> | (c & d' & -> & Hc & H0 & Hd')].
    - by intros c x [= <- _].
    - rewrite append_cons. intros c' x [= <- _].
      destruct c as [[] [] [] [] [] [] [] []]; try discriminate Hc; reflexivity. }
  unfold scan_number.
  destruct Hsg as [-> | ->].
  - rewrite append_nil_l in *.
    destruct (d ++ r) as [|c x] eqn:Hdr.
    + destruct Hd as [-> | (c & d' & -> & _)]; discriminate.
    + rewrite (Hhead c x eq_refl), Hint, Hf, He.
      by rewrite !append_nil_l, !append_nil_r.
  - rewrite append_assoc, append_cons, append_nil_l.
    rewrite Ascii.eqb_refl, Hint, Hf, He.
    by rewrite !append_nil_r.
Qed.

Lemma scan_string_plain k r :
  plainKey k = true → scan_string (k ++ String dquote r) = Some (k, r).
Proof.
  induction k as [|c k IH]; intros Hk.
  - rewrite append_nil_l. cbn [scan_string]. by rewrite Ascii.eqb_refl.
  - cbn [plainKey] in Hk.
    repeat (apply andb_prop in Hk as [Hk ?]).
    rewrite append_cons. cbn [scan_string].
    destruct (Ascii.eqb c dquote); [discriminate|].
    destruct (Ascii.eqb c backslash); [discriminate|].
    destruct (code c <? 32); [discriminate|].
    destruct (code c <? 128); [|discriminate].
    rewrite IH by done. reflexivity.
Qed.

Lemma number_head c :
  c = "-"%char ∨ isDigit c = true →
  isSpace c = false ∧ Ascii.eqb c "{" = false ∧ Ascii.eqb c "[" = false
  ∧ Ascii.eqb c dquote = false ∧ Ascii.eqb c "n" = false
  ∧ Ascii.eqb c "t" = false ∧ Ascii.eqb c "f" = false
  ∧ (Ascii.eqb c "-" || isDigit c) = true.
Proof.
  intros [-> | Hc]; [by vm_compute|].
  destruct c as [[] [] [] [] [] [] [] []]; try discriminate Hc; by vm_compute.
Qed.

Lemma Itoa_head z r :
  ∃ c x, strconv_Itoa z ++ r = String c x ∧ (c = "-"%char ∨ isDigit c = true).
Proof.
  destruct (Itoa_shape z) as (sg & d & -> & [-> | ->] & Hd).
  - rewrite append_nil_l.
    destruct Hd as [-> | (c & d' & -> & Hc & _)].
    + exists "0"%char, r. split; [reflexivity | by right].
    + exists c, (d' ++ r). split; [by rewrite append_cons | by right].
  - exists "-"%char, (d ++ r). split; [|by left].
    by rewrite append_assoc, append_cons, append_nil_l.
Qed.

Lemma parse_value_Itoa f d z r :
  endsNumber r = true →
  parse_value (S f) d (strconv_Itoa z ++ r) = Some (Number (strconv_Itoa z), r).
Proof.
  intros Hr. pose proof (scan_number_Itoa z r Hr) as Hs.
  destruct (Itoa_head z r) as (c & x & Hcx & Hc).
  rewrite Hcx in *.
  destruct (number_head c Hc) as (H1 & H2 & H3 & H4 & H5 & H6 & H7 & H8).
  cbn [parse_value skip_ws]. rewrite H1.
  rewrite H2, H3, H4, H5, H6, H7, H8, Hs. reflexivity.
Qed.

Lemma parse_value_null f d r :
  parse_value (S f) d ("null" ++ r) = Some (Null, r).
Proof. reflexivity. Qed.

Lemma parse_members_more f d k vt v rest :
  plainKey k = true →
  parse_value f d (vt ++ String "," rest) = Some (v, String "," rest) →
  parse_members (S f) d (memberText k vt (String "," rest))
  = match parse_members f d rest with
    | Some (ms, r) => Some ((k, v) :: ms, r)
    | None => None
    end.
Proof.
  intros Hk Hv. unfold memberText. cbn [parse_members skip_ws].
  change (isSpace dquote) with false. cbn iota.
  rewrite Ascii.eqb_refl, scan_string_plain by done.
  cbn [skip_ws]. change (isSpace ":") with false. cbn iota.
  rewrite Ascii.eqb_refl, Hv.
  reflexivity.
Qed.

Lemma parse_members_last f d k vt v rest :
  plainKey k = true →
  parse_value f d (vt ++ String "}" rest) = Some (v, String "}" rest) →
  parse_members (S f) d (memberText k vt (String "}" rest)) = Some ([(k, v)], rest).
Proof.
  intros Hk Hv. unfold memberText. cbn [parse_members skip_ws].
  change (isSpace dquote) with false. cbn iota.
  rewrite Ascii.eqb_refl, scan_string_plain by done.
  cbn [skip_ws]. change (isSpace ":") with false. cbn iota.
  rewrite Ascii.eqb_refl, Hv.
  reflexivity.
Qed.

Lemma parse_object f ms rest k vt r0 :
  parse_members f 1 (memberText k vt r0) = Some (ms, rest) →
  parse_value (S f) 0 (String "{" (memberText k vt r0)) = Some (Object ms, rest).
Proof.
  intros Hm. unfold memberText in *. cbn [parse_value skip_ws].
  change (isSpace "{") with false. cbn iota.
  change (isSpace dquote) with false. cbn iota.
  change (Ascii.eqb "{" "{") with true. cbn iota.
  change (maxNestingDepth <? 0 + 1) with false. cbn iota.
  change (Ascii.eqb dquote "}") with false. cbn iota.
  change (0 + 1) with 1.
  by rewrite Hm.
Qed.

Lemma parse_value_intPtr f d o r :
  endsNumber r = true →
  parse_value (S f) d (marshalIntPtr o ++ r) = Some (intPtrValue o, r).
Proof.
  intros Hr. destruct o as [n|]; [by apply parse_value_Itoa|].
  apply parse_value_null.
Qed.

Lemma Pagination_Marshal_text p :
  Pagination_Marshal p =
    String "{"
      (memberText "page" (strconv_Itoa (Pagination_Page p)) (String ","
      (memberText "limit" (strconv_Itoa (Pagination_Limit p)) (String ","
      (memberText "pages" (strconv_Itoa (Pagination_Pages p)) (String ","
      (memberText "total" (strconv_Itoa (Pagination_Total p)) (String ","
      (memberText "next" (marshalIntPtr (Pagination_Next p)) (String ","
      (memberText "prev" (marshalIntPtr (Pagination_Prev p)) (String "}" "")))))))))))).
Proof.
  unfold Pagination_Marshal, marshalStruct, Pagination_fields, memberText, quote.
  cbn [List.filter map join name omitempty isEmpty encoded andb negb].
  repeat rewrite ?append_assoc, ?append_cons, ?append_nil_l.
  reflexivity.
Qed.

Lemma Pagination_parse p :
  parse (Pagination_Marshal p) =
    Some (Object [("page", Number (strconv_Itoa (Pagination_Page p)));
                  ("limit", Number (strconv_Itoa (Pagination_Limit p)));
                  ("pages", Number (strconv_Itoa (Pagination_Pages p)));
                  ("total", Number (strconv_Itoa (Pagination_Total p)));
                  ("next", intPtrValue (Pagination_Next p));
                  ("prev", intPtrValue (Pagination_Prev p))]).
Proof.
  rewrite Pagination_Marshal_text. unfold parse.
  match goal with |- context [parse_value ?n 0 ?s] =>
    assert (Hfuel : ∃ f, n = S (S (S (S (S (S (S (S f)))))))) end.
  { unfold memberText. cbn [String.length]. rewrite !append_cons.
    cbn [String.length Nat.mul Nat.add]. eexists. reflexivity. }
  destruct Hfuel as [f Hf]. rewrite Hf. clear Hf.
  erewrite parse_object; cycle 1.
  {
  do 4 (erewrite parse_members_more; [| reflexivity | by apply parse_value_Itoa]).
  erewrite parse_members_more; [| reflexivity | by apply parse_value_intPtr].
  erewrite parse_members_last; [| reflexivity | by apply parse_value_intPtr].
  reflexivity. }
  reflexivity.
Qed.

Lemma decodeInt_Itoa z old :
  int64 z → decodeInt (Number (strconv_Itoa z)) old = (z, None).
Proof. intros Hz. unfold decodeInt. by rewrite ParseInt_Itoa. Qed.

Lemma decodeIntPtr_value o old :
  (∀ n, o = Some n → int64 n) → decodeIntPtr (intPtrValue o) old = (o, None).
Proof.
  intros Ho. destruct o as [n|]; [|reflexivity].
  unfold decodeIntPtr, intPtrValue. by rewrite decodeInt_Itoa by auto.
Qed.

Lemma Pagination_Unmarshal_Marshal (p q : Pagination) :
  Pagination_wf p →
  Pagination_Unmarshal (Pagination_Marshal p) q = (p, None).
Proof.
  intros (H1 & H2 & H3 & H4 & H5 & H6).
  unfold Pagination_Unmarshal, Unmarshal. rewrite Pagination_parse.
  cbn [decodeStruct decodeMembers].
  unfold Pagination_set.
  change (findField _ "page") with (Some 0%nat).
  change (findField _ "limit") with (Some 1%nat).
  change (findField _ "pages") with (Some 2%nat).
  change (findField _ "total") with (Some 3%nat).
  change (findField _ "next") with (Some 4%nat).
  change (findField _ "prev") with (Some 5%nat).
  cbn iota.
  rewrite (decodeInt_Itoa (Pagination_Page p)) by done. cbn iota beta zeta.
  rewrite (decodeInt_Itoa (Pagination_Limit p)) by done. cbn iota beta zeta.
  rewrite (decodeInt_Itoa (Pagination_Pages p)) by done. cbn iota beta zeta.
  rewrite (decodeInt_Itoa (Pagination_Total p)) by done. cbn iota beta zeta.
  rewrite (decodeIntPtr_value (Pagination_Next p)) by done. cbn iota beta zeta.
  rewrite (decodeIntPtr_value (Pagination_Prev p)) by done. cbn iota beta zeta.
  cbn [firstErr Pagination_Page Pagination_Limit Pagination_Pages
         Pagination_Total Pagination_Next Pagination_Prev].
  by destruct p.
Qed.

End JSONFacts.

(** ** The round trip of a Pagination *)

Lemma contains_here (sub s : string) :
  String.prefix sub s = true → contains sub s = true.
Proof. intros Hp. destruct s; cbn [contains]; by rewrite Hp. Qed.

Lemma contains_cons (sub s : string) (c : ascii) :
  contains sub s = true → contains sub (String c s) = true.
Proof. intros Hs. cbn [contains]. rewrite Hs. apply orb_true_r. Qed.

Lemma contains_app_r (sub a s : string) :
  contains sub s = true → contains sub (a ++ s) = true.
Proof.
  intros Hs. induction a as [|c a IH]; [done|].
  rewrite append_cons. by apply contains_cons.
Qed.

Lemma prefix_cons (c : ascii) (a b : string) :
  String.prefix (String c a) (String c b) = String.prefix a b.
Proof. cbn [String.prefix]. by destruct (ascii_dec c c). Qed.

Lemma prefix_app (a b c : string) :
  String.prefix (a ++ b) (a ++ c) = String.prefix b c.
Proof.
  induction a as [|x a IH]; [reflexivity|].
  by rewrite !append_cons, prefix_cons.
Qed.

(** Walks a text made of literal bytes and of appended pieces up to the place
    where the wanted text starts. *)
Ltac find_text :=
  repeat first
    [ apply contains_here;
      solve [ reflexivity
            | unfold JSON.quote;
              repeat first [ rewrite append_cons | rewrite append_nil_l
                           | rewrite prefix_cons | rewrite prefix_app ];
              reflexivity ]
    | lazymatch goal with
      | |- contains _ (String _ _) = true => apply contains_cons
      | |- contains _ (String.append ?a ?s) = true => apply (contains_app_r _ a s)
      end ].

(** C8.  Marshaling a Pagination and unmarshaling the text, into any
    Pagination, gives the record back, field by field.  The text is an object
    with the six keys in the order of the fields; a nil [Next] or [Prev] is
    the member with the value null, present and not left out, and one that
    is not nil is the member with its number. *)
Theorem Pagination_roundtrip (p q : Pagination) :
  Pagination_wf p →
  Pagination_Unmarshal (Pagination_Marshal p) q = (p, None)
  ∧ JSON.parse (Pagination_Marshal p)
    = Some (JSON.Object
              [("page", JSON.Number (JSON.strconv_Itoa (Pagination_Page p)));
               ("limit", JSON.Number (JSON.strconv_Itoa (Pagination_Limit p)));
               ("pages", JSON.Number (JSON.strconv_Itoa (Pagination_Pages p)));
               ("total", JSON.Number (JSON.strconv_Itoa (Pagination_Total p)));
               ("next", match Pagination_Next p with
                        | None => JSON.Null
                        | Some n => JSON.Number (JSON.strconv_Itoa n)
                        end);
               ("prev", match Pagination_Prev p with
                        | None => JSON.Null
                        | Some n => JSON.Number (JSON.strconv_Itoa n)
                        end)])
  ∧ (Pagination_Next p = None →
     contains (JSON.quote "next" ++ ":null,") (Pagination_Marshal p) = true)
  ∧ (Pagination_Prev p = None →
     contains (JSON.quote "prev" ++ ":null}") (Pagination_Marshal p) = true)
  ∧ (∀ n, Pagination_Next p = Some n →
     contains (JSON.quote "next" ++ ":" ++ JSON.strconv_Itoa n ++ ",")
       (Pagination_Marshal p) = true)
  ∧ (∀ n, Pagination_Prev p = Some n →
     contains (JSON.quote "prev" ++ ":" ++ JSON.strconv_Itoa n ++ "}")
       (Pagination_Marshal p) = true).
Proof.
  intros Hwf. split_and!.
  - by apply Pagination_Unmarshal_Marshal.
  - apply Pagination_parse.
  - intros Hn. rewrite Pagination_Marshal_text, Hn. unfold memberText.
    find_text.
  - intros Hn. rewrite Pagination_Marshal_text, Hn. unfold memberText.
    find_text.
  - intros n Hn. rewrite Pagination_Marshal_text, Hn.
    unfold memberText. cbn [JSON.marshalIntPtr]. find_text.
  - intros n Hn. rewrite Pagination_Marshal_text, Hn.
    unfold memberText. cbn [JSON.marshalIntPtr]. find_text.
Qed.

Lemma Pagination_roundtrip_witness :
  Pagination_Unmarshal (Pagination_Marshal lastPage) zeroPagination = (lastPage, None)
  ∧ contains (JSON.quote "next" ++ ":null,") (Pagination_Marshal lastPage) = true.
Proof.
  assert (Hwf : Pagination_wf lastPage).
  { unfold Pagination_wf, int64. cbn.
    split_and!; try lia; intros n [= <-]; lia. }
  destruct (Pagination_roundtrip lastPage zeroPagination Hwf)
    as (H1 & _ & H3 & _).
  split; [exact H1 | exact (H3 eq_refl)].
Defined.

(** The example of the specification, byte for byte. *)
Example Pagination_Marshal_lastPage :
  Pagination_Marshal lastPage
  = JSON.dq "{'page':5,'limit':15,'pages':5,'total':75,'next':null,'prev':4}".
Proof. vm_compute. reflexivity. Qed.

(** The texts of the tests decode to the records the tests expect. *)
Example Pagination_Unmarshal_first :
  Pagination_Unmarshal
    (JSON.dq "{'page': 1, 'limit': 15, 'pages': 5, 'total': 75, 'next': 2, 'prev': null}")
    zeroPagination
  = ({| Pagination_Page := 1; Pagination_Limit := 15; Pagination_Pages := 5;
        Pagination_Total := 75; Pagination_Next := Some 2;
        Pagination_Prev := None |}, None).
Proof. vm_compute. reflexivity. Qed.

(** ** Runs against the server of the tests *)

(** *** The classification of responses *)

Lemma do_classification_witness :
  fst (do (testClient testAPIKey) "GET" "/posts/?formats=html" nobody
         (Some zeroPostsResponse) (serving [respond 422 validationBody]))
  = (Some zeroPostsResponse,
     Some (errorString "API error (422): Validation failed: Title is required")).
Proof.
  set (c := testClient testAPIKey).
  set (s := serving [respond 422 validationBody]).
  set (resp := {| StatusCode := 422;
                  Body := {| data := validationBody; readErr := None |} |}).
  set (s1 := snd (request c "GET" "/posts/?formats=html" nobody
                    (snd (emit (EvDo "GET" "/posts/?formats=html") s)))).
  assert (Hreq : request c "GET" "/posts/?formats=html" nobody
                   (snd (emit (EvDo "GET" "/posts/?formats=html") s))
                 = (Ok resp, s1)) by (vm_compute; reflexivity).
  assert (Hread : io_ReadAll (Body resp) = (validationBody, None)) by reflexivity.
  destruct (do_classification c "GET" "/posts/?formats=html" nobody
              (Some zeroPostsResponse) s s1 resp validationBody Hreq Hread)
    as [_ Hge].
  assert (Hst : 400 <= StatusCode resp) by (cbn; lia).
  assert (Hdec : json_Unmarshal validationBody zeroErrorResponse
                 = ({| Errors := [ {| APIError_Message := "Validation failed";
                                      APIError_Context := "Title is required";
                                      APIError_Type := "" |} ] |}, None))
    by (vm_compute; reflexivity).
  destruct (Hge Hst _ _ Hdec) as [Hfirst _].
  rewrite (Hfirst _ _ eq_refl eq_refl). reflexivity.
Defined.

(** A status below 400 with a body that is not JSON and a result to decode
    into: the call fails with the error of the decoder. *)
Lemma do_below_400_counterexample :
  let c := testClient testAPIKey in
  let s := serving [respond 200 "Internal Server Error"] in
  fst (request c "GET" "/posts/?formats=html" nobody
         (snd (emit (EvDo "GET" "/posts/?formats=html") s)))
  = respond 200 "Internal Server Error"
  ∧ (200 <? 400) = true
  ∧ fst (do c "GET" "/posts/?formats=html" nobody (Some zeroPostsResponse) s)
    = (Some zeroPostsResponse, Some json_SyntaxError).
Proof. vm_compute. split_and!; reflexivity. Qed.

Example do_error_without_context :
  fst (do (testClient testAPIKey) "GET" "/posts/?formats=html" nobody
         (Some zeroPostsResponse) (serving [respond 400 badRequestBody]))
  = (Some zeroPostsResponse, Some (errorString "API error (400): Bad request")).
Proof. vm_compute. reflexivity. Qed.

Example do_error_raw_body :
  fst (do (testClient testAPIKey) "GET" "/posts/?formats=html" nobody
         (Some zeroPostsResponse) (serving [respond 500 "Internal Server Error"]))
  = (Some zeroPostsResponse,
     Some (errorString "API error (500): Internal Server Error")).
Proof. vm_compute. reflexivity. Qed.

Example do_invalid_key :
  fst (do (testClient "invalid-key") "GET" "/posts/?formats=html" nobody
         (Some zeroPostsResponse) (serving [respond 200 onePostBody]))
  = (Some zeroPostsResponse,
     Some (wrapError "generating token: "
             (errorString "invalid API key format: expected 'id:secret'"))).
Proof. vm_compute. reflexivity. Qed.

(** *** Lookups *)

Example GetPost_by_id :
  let run := GetPost (testClient testAPIKey) "123" (serving [respond 200 onePostBody]) in
  fst run = Ok (testPost "123" "Test")
  ∧ doCalls (trace (snd run)) = [("GET", "/posts/123/?formats=html")].
Proof. vm_compute. split; reflexivity. Qed.

Example GetPost_fallback :
  let run := GetPost (testClient testAPIKey) "my-post"
               (serving [respond 404 notFoundBody; respond 200 onePostBody]) in
  fst run = Ok (testPost "123" "Test")
  ∧ doCalls (trace (snd run))
    = [("GET", "/posts/my-post/?formats=html");
       ("GET", "/posts/slug/my-post/?formats=html")].
Proof. vm_compute. split; reflexivity. Qed.

Lemma GetPost_spec_witness :
  fst (GetPost (testClient testAPIKey) "empty" (serving [respond 200 noPostsBody]))
  = Err (errorString "post not found: empty").
Proof.
  set (c := testClient testAPIKey).
  set (s := serving [respond 200 noPostsBody]).
  set (resp := {| StatusCode := 200;
                  Body := {| data := noPostsBody; readErr := None |} |}).
  set (sr := snd (request c "GET" "/posts/empty/?formats=html" nobody
                    (snd (emit (EvDo "GET" "/posts/empty/?formats=html") s)))).
  assert (Hreq : request c "GET" "/posts/empty/?formats=html" nobody
                   (snd (emit (EvDo "GET" "/posts/empty/?formats=html") s))
                 = (Ok resp, sr)) by (vm_compute; reflexivity).
  assert (Hdec : json_Unmarshal noPostsBody zeroPostsResponse
                 = (zeroPostsResponse, None)) by (vm_compute; reflexivity).
  assert (Hlt : StatusCode resp < 400) by (cbn; lia).
  destruct (proj2 (GetPost_spec c "empty" s) resp sr noPostsBody zeroPostsResponse
              Hreq eq_refl Hlt Hdec) as [_ Hres].
  rewrite Hres. reflexivity.
Defined.

(** The divergence at work: a first body that decodes in part and fails,
    then the body "{}" at status 200. *)
Lemma GetPost_stale_result_witness :
  fst (GetPost (testClient testAPIKey) "1"
         (serving [respond 200 partlyDecodedBody; respond 200 "{}"]))
  = Ok (testPost "1" "First")
  ∧ json_Unmarshal "{}" zeroPostsResponse = (zeroPostsResponse, None)
  ∧ doCalls (trace (snd (GetPost (testClient testAPIKey) "1"
                           (serving [respond 200 partlyDecodedBody;
                                     respond 200 "{}"]))))
    = [("GET", "/posts/1/?formats=html"); ("GET", "/posts/slug/1/?formats=html")].
Proof.
  set (c := testClient testAPIKey).
  set (s := serving [respond 200 partlyDecodedBody; respond 200 "{}"]).
  set (setp := test_collection "posts" (test_decode testPost "title")
                 (testPost "" "") Posts
                 (λ r x, {| Posts := x; Posts_Meta := Posts_Meta r |})).
  set (r1 := {| Posts := [testPost "1" "First"; testPost "" ""];
                Posts_Meta := None |}).
  set (s1 := snd (do (Rdec := structDecoder setp) c "GET" "/posts/1/?formats=html"
                    nobody (Some zeroPostsResponse) s)).
  assert (Hdo1 : do (Rdec := structDecoder setp) c "GET" "/posts/1/?formats=html"
                   nobody (Some zeroPostsResponse) s
                 = ((Some r1, Some json_UnmarshalTypeError), s1))
    by (vm_compute; reflexivity).
  set (resp := {| StatusCode := 200;
                  Body := {| data := "{}"; readErr := None |} |}).
  set (s2 := snd (request c "GET" "/posts/slug/1/?formats=html" nobody
                    (snd (emit (EvDo "GET" "/posts/slug/1/?formats=html") s1)))).
  assert (Hreq : request c "GET" "/posts/slug/1/?formats=html" nobody
                   (snd (emit (EvDo "GET" "/posts/slug/1/?formats=html") s1))
                 = (Ok resp, s2)) by (vm_compute; reflexivity).
  assert (Hlt : StatusCode resp < 400) by (cbn; lia).
  destruct (GetPost_stale_result setp c "1" s s1 s2 r1 json_UnmarshalTypeError
              (testPost "1" "First") [testPost "" ""] resp
              Hdo1 eq_refl Hreq eq_refl Hlt) as (Halone & _ & _ & Hres).
  split; [exact (f_equal fst Hres)|]. split; [exact Halone|].
  vm_compute. reflexivity.
Defined.

Example GetPost_both_fail :
  let run := GetPost (testClient testAPIKey) "nonexistent"
               (serving [respond 500 "down"; respond 404 notFoundBody]) in
  fst run = Err (errorString "API error (404): Not found")
  ∧ length (doCalls (trace (snd run))) = 2%nat.
Proof. vm_compute. split; reflexivity. Qed.

(** A first call that fails before any request is sent is followed by the
    second call all the same. *)
Example GetPost_invalid_key :
  let run := GetPost (testClient "invalid-key") "123" (serving [respond 200 onePostBody]) in
  doCalls (trace (snd run))
  = [("GET", "/posts/123/?formats=html"); ("GET", "/posts/slug/123/?formats=html")]
  ∧ responses (world (snd run)) = [respond 200 onePostBody].
Proof. vm_compute. split; reflexivity. Qed.

(** The two calls share one result.  A first body that fills the collection
    and then fails to decode leaves its posts there; a second body without a
    collection of its own changes nothing, and the post of the first body is
    the outcome. *)
Example GetPost_shared_result :
  fst (GetPost (testClient testAPIKey) "1"
         (serving [respond 200 (JSON.dq "{'posts':[{'id':'1','title':'First'},5]}");
                   respond 200 "{}"]))
  = Ok (testPost "1" "First").
Proof. vm_compute. reflexivity. Qed.

(** [GetNewsletter] on a server that refuses the first request and would
    answer a second one: the refusal is returned after one call, the second
    response is never asked for, and so the lookup does not have the pattern
    of the other four. *)
Lemma GetNewsletter_counterexample :
  let run := GetNewsletter (testClient testAPIKey) "weekly"
               (serving [respond 404 notFoundBody; respond 200 oneNewsletterBody]) in
  fst run = Err (errorString "API error (404): Not found")
  ∧ doCalls (trace (snd run)) = [("GET", "/newsletters/weekly/")]
  ∧ responses (world (snd run)) = [respond 200 oneNewsletterBody]
  ∧ ¬ getByKey_pattern (W := TestWorld) GetNewsletter zeroNewslettersResponse
        Newsletters (λ k, "/newsletters/" ++ k ++ "/")
        (λ k, "/newsletters/slug/" ++ k ++ "/") "newsletter".
Proof.
  cbv zeta. split_and!; [by vm_compute | by vm_compute | by vm_compute |].
  intros Hpat.
  destruct (Hpat (testClient testAPIKey) "weekly"
              (serving [respond 404 notFoundBody; respond 200 oneNewsletterBody]))
    as (resp1 & e1 & s1 & calls & Hdo & Htrace & _ & Hiff & _).
  assert (He1 : e1 ≠ None).
  { vm_compute in Hdo. injection Hdo as _ <- _. discriminate. }
  apply Hiff in He1. subst calls.
  vm_compute in Htrace. discriminate.
Qed.

(** *** Writes *)

Lemma create_update_spec_witness :
  fst (CreatePost (testClient testAPIKey) (testPost "" "Test")
         (serving [respond 201 noPostsBody]))
  = Err (errorString "no post returned").
Proof.
  set (c := testClient testAPIKey).
  set (s := serving [respond 201 noPostsBody]).
  set (post := testPost "" "Test").
  set (body := ({["posts" := [post]]} : gmap string (list Post))).
  set (resp := {| StatusCode := 201;
                  Body := {| data := noPostsBody; readErr := None |} |}).
  set (sr := snd (request c "POST" "/posts/?source=html&formats=html" (Some body)
                    (snd (emit (EvDo "POST" "/posts/?source=html&formats=html") s)))).
  assert (Hreq : request c "POST" "/posts/?source=html&formats=html" (Some body)
                   (snd (emit (EvDo "POST" "/posts/?source=html&formats=html") s))
                 = (Ok resp, sr)) by (vm_compute; reflexivity).
  assert (Hdec : json_Unmarshal noPostsBody zeroPostsResponse
                 = (zeroPostsResponse, None)) by (vm_compute; reflexivity).
  assert (Hlt : StatusCode resp < 400) by (cbn; lia).
  destruct (create_update_spec c "123" post s) as (_ & _ & Hcreate & _).
  rewrite (Hcreate resp sr noPostsBody zeroPostsResponse Hreq eq_refl Hlt Hdec).
  reflexivity.
Defined.

Example UpdatePost_first :
  fst (UpdatePost (testClient testAPIKey) "123" (testPost "" "Test")
         (serving [respond 200 onePostBody]))
  = Ok (testPost "123" "Test").
Proof. vm_compute. reflexivity. Qed.

(** The URL a page is created with, next to the URL a post is created
    with. *)
Example CreatePage_url :
  map (λ e, match e with EvHTTP req => Request_URL req | _ => "" end)
    (trace (snd (CreatePage (testClient testAPIKey) (testPage "" "About")
                   (serving [respond 201 "{}"]))))
  = [""; "http://localhost/ghost/api/admin/pages/?formats=html"]
  ∧ map (λ e, match e with EvHTTP req => Request_URL req | _ => "" end)
      (trace (snd (CreatePost (testClient testAPIKey) (testPost "" "Test")
                     (serving [respond 201 "{}"]))))
    = [""; "http://localhost/ghost/api/admin/posts/?source=html&formats=html"].
Proof. vm_compute. split; reflexivity. Qed.

(** *** Deletes *)

Lemma Delete_spec_witness :
  DeletePost (testClient testAPIKey) "123" (serving [respond 204 ""])
  = (None, snd (DeletePost (testClient testAPIKey) "123" (serving [respond 204 ""])))
  ∧ fst (DeleteWebhook (testClient testAPIKey) "123"
           (serving [respond 200 "<html>not JSON at all {"]))
    = None.
Proof.
  destruct (Delete_spec (W := TestWorld)) as (Hpost & _ & _ & Hhook).
  split.
  - eapply (Hpost (testClient testAPIKey) "123" (serving [respond 204 ""]) _
              {| StatusCode := 204; Body := {| data := ""; readErr := None |} |} "");
      [by vm_compute | reflexivity | cbn; lia].
  - erewrite (Hhook (testClient testAPIKey) "123"
                (serving [respond 200 "<html>not JSON at all {"]) _
                {| StatusCode := 200;
                   Body := {| data := "<html>not JSON at all {"; readErr := None |} |}
                "<html>not JSON at all {");
      [reflexivity | by vm_compute | reflexivity | cbn; lia].
Defined.

(** *** Uploads *)

Lemma UploadImage_token_first_witness :
  UploadImage (testClient "invalid-key") "/nonexistent/file.jpg" (serving [])
  = (Err (wrapError "generating token: "
            (errorString "invalid API key format: expected 'id:secret'")),
     serving []).
Proof.
  apply (proj1 (UploadImage_token_first (testClient "invalid-key")
                  "/nonexistent/file.jpg" (serving []))).
  reflexivity.
Defined.

Example UploadImage_missing_file :
  let run := UploadImage (testClient testAPIKey) "/nonexistent/file.jpg" (serving []) in
  fst run = Err (fs_PathError "open" "/nonexistent/file.jpg")
  ∧ opened (trace (snd run)) = ["/nonexistent/file.jpg"].
Proof. vm_compute. split; reflexivity. Qed.

(** * The rest of the client *)

(** ** Construction *)

Lemma length_append (a b : string) :
  String.length (a ++ b) = (String.length a + String.length b)%nat.
Proof. induction a as [|c a IH]; [reflexivity|]. rewrite append_cons. simpl. by rewrite IH. Qed.

Lemma substring_append_tail (u v : string) :
  String.substring (String.length u) (String.length v) (u ++ v) = v.
Proof.
  induction u as [|c u IH].
  - rewrite append_nil_l. simpl. induction v as [|d v IHv]; [reflexivity|].
    simpl. by rewrite IHv.
  - rewrite append_cons. simpl. exact IH.
Qed.

Lemma substring_append_head (u v : string) :
  String.substring 0 (String.length u) (u ++ v) = u.
Proof.
  induction u as [|c u IH].
  - rewrite append_nil_l. by destruct v.
  - rewrite append_cons. simpl. by rewrite IH.
Qed.

Lemma substring_full (s : string) :
  String.substring 0 (String.length s) s = s.
Proof. induction s as [|c s IH]; [reflexivity|]. simpl. by rewrite IH. Qed.

Lemma substring_split (n : nat) (s : string) :
  (n ≤ String.length s)%nat →
  s = String.substring 0 n s ++ String.substring n (String.length s - n) s.
Proof.
  revert s. induction n as [|n IH]; intros s Hn.
  - rewrite Nat.sub_0_r, substring_full. by destruct s.
  - destruct s as [|c s]; [simpl in Hn; lia|].
    simpl in Hn. cbn [String.substring String.length]. rewrite append_cons.
    f_equal. apply IH. lia.
Qed.

Lemma strings_HasSuffix_append (u suffix : string) :
  strings_HasSuffix (u ++ suffix) suffix = true.
Proof.
  unfold strings_HasSuffix. rewrite length_append.
  replace (String.length u + String.length suffix - String.length suffix)%nat
    with (String.length u) by lia.
  rewrite substring_append_tail, String.eqb_refl.
  rewrite andb_true_r. apply Nat.leb_le. lia.
Qed.

Lemma strings_TrimSuffix_append (u suffix : string) :
  strings_TrimSuffix (u ++ suffix) suffix = u.
Proof.
  unfold strings_TrimSuffix. rewrite strings_HasSuffix_append, length_append.
  replace (String.length u + String.length suffix - String.length suffix)%nat
    with (String.length u) by lia.
  apply substring_append_head.
Qed.

Lemma strings_HasSuffix_true (s suffix : string) :
  strings_HasSuffix s suffix = true → ∃ u, s = u ++ suffix.
Proof.
  unfold strings_HasSuffix. intros [Hlen Heq]%andb_true_iff.
  apply Nat.leb_le in Hlen. apply String.eqb_eq in Heq.
  exists (String.substring 0 (String.length s - String.length suffix) s).
  etransitivity;
    [apply (substring_split (String.length s - String.length suffix) s); lia|].
  f_equal.
  replace (String.length s - (String.length s - String.length suffix))%nat
    with (String.length suffix) by lia.
  exact Heq.
Qed.

Section Construction.
Context {W : Type} {Wd : World W} {L : Lib}.

Lemma options_fold (clients : list (Request → W → result Response * W))
    (c : Client (W := W)) :
  let c' := fold_left (λ c opt, opt c) (map WithHTTPClient clients) c in
  baseURL c' = baseURL c ∧ apiKey c' = apiKey c
  ∧ httpClient c' = List.last clients (httpClient c).
Proof.
  cbv zeta. revert c. induction clients as [|h clients IH]; intros c; [done|].
  cbn [map fold_left]. destruct (IH (WithHTTPClient h c)) as (Hb & Hk & Hh).
  rewrite Hb, Hk, Hh. split_and!; [done..|].
  destruct clients as [|h' clients]; [done|]. cbn [List.last].
  clear. revert h'. induction clients as [|h2 clients IH]; intros h'; [done|].
  cbn [List.last]. apply IH.
Qed.

(** X1.  The base URL of a new client is the site URL followed by
    "/ghost/api/admin", after one trailing slash, if there is one, has been
    taken off the site URL: a URL that ends in a slash loses exactly that
    slash, also when another slash comes before it, and a URL that does not
    end in a slash is kept whole.  Options that set the HTTP client do not
    change it. *)
Theorem NewClient_BaseURL (defaultClient : Request → W → result Response * W)
    (url key : string) (clients : list (Request → W → result Response * W)) :
  let c := NewClient defaultClient url key (map WithHTTPClient clients) in
  (∀ u, url = u ++ "/" → BaseURL c = u ++ "/ghost/api/admin")
  ∧ ((∀ u, url ≠ u ++ "/") → BaseURL c = url ++ "/ghost/api/admin").
Proof.
  cbv zeta. unfold NewClient, BaseURL.
  match goal with |- context [fold_left _ _ ?c0] =>
    destruct (options_fold clients c0) as (Hb & _ & _) end.
  cbv zeta in Hb. rewrite Hb. cbn [baseURL]. split.
  - intros u ->. by rewrite strings_TrimSuffix_append.
  - intros Hno. unfold strings_TrimSuffix.
    destruct (strings_HasSuffix url "/") eqn:Hs; [|done].
    destruct (strings_HasSuffix_true _ _ Hs) as [u Hu]. by destruct (Hno u).
Qed.

(** X2.  Options are applied in the order given: the client keeps the
    credential it was made with, and it uses the HTTP client of the last
    [WithHTTPClient] among them, the default one when there is none. *)
Theorem NewClient_options (defaultClient : Request → W → result Response * W)
    (url key : string) (clients : list (Request → W → result Response * W)) :
  let c := NewClient defaultClient url key (map WithHTTPClient clients) in
  apiKey c = key ∧ httpClient c = List.last clients defaultClient.
Proof.
  cbv zeta. unfold NewClient.
  match goal with |- context [fold_left _ _ ?c0] =>
    destruct (options_fold clients c0) as (_ & Hk & Hh) end.
  cbv zeta in Hk, Hh. by rewrite Hk, Hh.
Qed.

End Construction.

(** ** The transport, continued *)

Lemma sent_app (t1 t2 : list Event) : sent (t1 ++ t2) = (sent t1 ++ sent t2)%list.
Proof.
  induction t1 as [|e t1 IH]; [reflexivity|].
  destruct e; simpl; by rewrite IH.
Qed.

Section TransportRest.
Context {W : Type} {Wd : World W} {L : Lib}.
Context {B R : Type} {Benc : Marshaler B} {Rdec : Unmarshaler R}.
Context {ErrorResponse_dec : Unmarshaler ErrorResponse}.

(** [request] records nothing, or the one request it sends. *)
Lemma request_events (c : Client) (method path : string) (body : option B)
    (s : State W) :
  ∃ evs, trace (snd (request c method path body s)) = (trace s ++ evs)%list
         ∧ (evs = [] ∨ ∃ req, evs = [EvHTTP req]).
Proof.
  unfold request, bind.
  pose proof (GenerateToken_trace (apiKey c) s) as Ht.
  destruct (GenerateToken (apiKey c) s) as [[token|err] s1]; simpl in Ht.
  2:{ exists []. simpl. rewrite Ht, app_nil_r. by eauto. }
  destruct (match body with
            | Some b => match json_Marshal b with
                        | Ok d => Ok (Some d)
                        | Err e => Err e
                        end
            | None => Ok None
            end) as [bodyReader|err].
  2:{ exists []. simpl. rewrite Ht, app_nil_r. by eauto. }
  destruct (http_NewRequest method (baseURL c ++ path) bodyReader) as [req|err].
  2:{ exists []. simpl. rewrite Ht, app_nil_r. by eauto. }
  unfold emit, liftW. cbn [world trace].
  match goal with |- context [httpClient c ?r ?w] => destruct (httpClient c r w) end.
  eexists [_]. cbn [snd trace]. rewrite Ht. by eauto.
Qed.

(** What [request] does when nothing stands in its way. *)
Lemma request_ok (c : Client) (method path : string) (body : option B)
    (s : State W) (token : string) (payload : option string) :
  GenerateTokenWithTime (apiKey c) (fst (time_Now (world s))) = Ok token →
  encodedBody body = Ok payload →
  url_Parse (baseURL c ++ path) = None →
  request c method path body s
  = (let '(r, w) := httpClient c (apiRequest method (baseURL c ++ path) token payload)
                      (snd (time_Now (world s))) in
     (r, {| world := w;
            trace := trace s
                     ++ [EvHTTP (apiRequest method (baseURL c ++ path) token payload)] |})).
Proof.
  intros Htok Henc Hurl. unfold request, bind.
  rewrite GenerateToken_WithTime.
  destruct (ParseAPIKey (apiKey c)) as [[id secret]|err] eqn:Hkey.
  2:{ unfold GenerateTokenWithTime in Htok. by rewrite Hkey in Htok. }
  destruct (time_Now (world s)) as [now w1] eqn:Hnow. cbn [fst snd] in *.
  rewrite Htok. unfold encodedBody in Henc.
  unfold http_NewRequest. rewrite Hurl.
  destruct body as [b|].
  - destruct (json_Marshal b) as [d|e]; [|done]. injection Henc as <-.
    reflexivity.
  - injection Henc as <-. reflexivity.
Qed.

(** X3.  When the token can be minted, the body, if any, can be encoded and
    the URL parses, [request] hands exactly one request to the HTTP client and
    returns what the client returns.  That request has the method asked for,
    the base URL followed by the path as its URL and the encoded body as its
    body; its Authorization header is "Ghost " followed by the token minted at
    the time the clock showed; its Content-Type header is "application/json"
    when there is a body and absent when there is none; it has no other
    header. *)
Theorem request_sends (c : Client) (method path : string) (body : option B)
    (s : State W) (token : string) (payload : option string) :
  GenerateTokenWithTime (apiKey c) (fst (time_Now (world s))) = Ok token →
  encodedBody body = Ok payload →
  url_Parse (baseURL c ++ path) = None →
  ∃ req,
    trace (snd (request c method path body s)) = (trace s ++ [EvHTTP req])%list
    ∧ fst (request c method path body s)
      = fst (httpClient c req (snd (time_Now (world s))))
    ∧ Request_Method req = method
    ∧ Request_URL req = baseURL c ++ path
    ∧ Request_Body req = payload
    ∧ Request_Header req !! "Authorization" = Some ("Ghost " ++ token)
    ∧ Request_Header req !! "Content-Type"
      = match body with Some _ => Some "application/json" | None => None end
    ∧ ∀ k, k ≠ "Authorization" → k ≠ "Content-Type" → Request_Header req !! k = None.
Proof.
  intros Htok Henc Hurl.
  rewrite (request_ok c method path body s token payload Htok Henc Hurl).
  exists (apiRequest method (baseURL c ++ path) token payload).
  destruct (httpClient c _ _) as [r w]. cbn [fst snd trace].
  split; [reflexivity|]. split; [reflexivity|].
  cbn [apiRequest Request_Method Request_URL Request_Body Request_Header].
  split_and!; try reflexivity.
  - by destruct payload.
  - unfold encodedBody in Henc. destruct body as [b|].
    + destruct (json_Marshal b); [|done]. by injection Henc as <-.
    + by injection Henc as <-.
  - intros k Ha Hc. destruct payload.
    + by rewrite lookup_insert_ne, lookup_singleton_ne.
    + by rewrite lookup_singleton_ne.
Qed.

(** X4.  With a credential that does not parse nothing leaves the process: a
    call of [do] fails with the parse error wrapped as "generating token: ",
    hands the caller's result back as it was, and leaves the world as it
    found it, the clock unread and no request sent. *)
Theorem do_bad_key_offline (c : Client) (method path : string) (body : option B)
    (result : option R) (s : State W) (err : error) :
  ParseAPIKey (apiKey c) = Err err →
  do c method path body result s
  = ((result, Some (wrapError "generating token: " err)),
     {| world := world s; trace := trace s ++ [EvDo method path] |}).
Proof.
  intros Hkey. unfold do, request, bind, emit.
  rewrite GenerateToken_WithTime, Hkey. reflexivity.
Qed.

(** X5.  A call of [do] is one attempt: after the entry into [do] it hands at
    most one request to the HTTP client, whatever the response, and it opens
    no file and does not enter [do] again. *)
Theorem do_single_request (c : Client) (method path : string) (body : option B)
    (result : option R) (s : State W) :
  ∃ evs,
    trace (snd (do c method path body result s))
    = (trace s ++ EvDo method path :: evs)%list
    ∧ (length (sent evs) ≤ 1)%nat ∧ doCalls evs = [] ∧ opened evs = [].
Proof.
  unfold do, bind, emit.
  match goal with |- context [request c method path body ?s0] =>
    destruct (request_events c method path body s0) as (evs & Ht & Hevs);
    destruct (request c method path body s0) as [r s1] end.
  cbn [snd trace] in Ht. exists evs.
  assert (Hs1 : trace s1 = (trace s ++ EvDo method path :: evs)%list
                ∧ (length (sent evs) ≤ 1)%nat ∧ doCalls evs = [] ∧ opened evs = []).
  { rewrite Ht, <- app_assoc. split; [done|].
    destruct Hevs as [->|[req ->]]; simpl; split_and!; done || lia. }
  destruct r as [resp|err]; [|exact Hs1].
  destruct (io_ReadAll (Body resp)) as [respBody [err|]]; [exact Hs1|].
  destruct (400 <=? StatusCode resp).
  - destruct (json_Unmarshal respBody zeroErrorResponse) as [errResp [e|]];
      [exact Hs1|].
    destruct (Errors errResp); exact Hs1.
  - destruct result as [r|]; [|exact Hs1].
    destruct (json_Unmarshal respBody r); exact Hs1.
Qed.

(** X6.  The caller's result is changed only by decoding the body of a
    response with a status below 400.  In every other case (the request could
    not be made or sent, the body could not be read, the status is 400 or
    more) [do] hands the result back as it was given. *)
Theorem do_result_untouched (c : Client) (method path : string) (body : option B)
    (result : option R) (s : State W) :
  let out := do c method path body result s in
  fst (fst out) = result
  ∨ ∃ r resp respBody,
      result = Some r
      ∧ fst (request c method path body (snd (emit (EvDo method path) s))) = Ok resp
      ∧ StatusCode resp < 400
      ∧ io_ReadAll (Body resp) = (respBody, None)
      ∧ fst out = (Some (fst (json_Unmarshal respBody r)),
                   snd (json_Unmarshal respBody r)).
Proof.
  cbv zeta. unfold do, bind, emit. cbn [snd].
  match goal with |- context [request c method path body ?s0] =>
    destruct (request c method path body s0) as [[resp|err] s1] end;
    [|by left].
  destruct (io_ReadAll (Body resp)) as [respBody [err|]] eqn:Hread; [by left|].
  destruct (400 <=? StatusCode resp) eqn:Hst.
  - destruct (json_Unmarshal respBody zeroErrorResponse) as [errResp [e|]];
      [by left|].
    destruct (Errors errResp); by left.
  - destruct result as [r|]; [|by left].
    right. exists r, resp, respBody.
    destruct (json_Unmarshal respBody r) as [r' uerr]. cbn [fst snd].
    split_and!; try done. lia.
Qed.

End TransportRest.

(** ** Listings and lookups *)

Section Listings.
Context {W : Type} {Wd : World W} {L : Lib}.
Context {ErrorResponse_dec : Unmarshaler ErrorResponse}.
Context {Posts_enc : Marshaler (gmap string (list Post))}
        {Posts_dec : Unmarshaler PostsResponse}.
Context {Pages_enc : Marshaler (gmap string (list Page))}
        {Pages_dec : Unmarshaler PagesResponse}.
Context {Tags_enc : Marshaler (gmap string (list Tag))}
        {Tags_dec : Unmarshaler TagsResponse}.
Context {Users_dec : Unmarshaler UsersResponse}.
Context {Site_dec : Unmarshaler SiteResponse}.
Context {Settings_dec : Unmarshaler SettingsResponse}.
Context {Newsletters_dec : Unmarshaler NewslettersResponse}.
Context {Webhooks_enc : Marshaler (gmap string (list Webhook))}
        {Webhooks_dec : Unmarshaler WebhooksResponse}.
Context {Images_dec : Unmarshaler ImagesResponse}.

(** One GET whose outcome is the outcome of the operation. *)
Lemma listing_run {T Resp : Type} {dec : Unmarshaler Resp} (c : Client)
    (path : string) (zero : Resp) (proj : Resp → T) :
  listing_pattern
    (let* (r, err) := do c "GET" path nobody (Some zero) in
     match err with
     | Some err => ret (Err err)
     | None => ret (Ok (proj (default zero r)))
     end) c path zero proj.
Proof.
  intros s.
  destruct (do_Some c "GET" path nobody zero s) as (resp & e & s1 & Hdo).
  pose proof (proj1 (do_calls c "GET" path nobody (Some zero) s)) as Hc.
  rewrite Hdo in Hc. cbn [snd] in Hc.
  exists resp, e, s1. unfold bind, ret. rewrite Hdo.
  cbn [default from_option Datatypes.id].
  destruct e; by split_and!.
Qed.

(** X7.  [ListPosts] and [ListPages] make one GET to the collection with
    "formats=html"; the query gains "&filter=status:" and the status unless
    the status is empty or "all", and then "&limit=" and the limit in decimal
    when the limit is positive.  What the call returns is what the operation
    returns: its error, or the decoded response, an empty collection
    included. *)
Theorem ListPosts_ListPages_spec (c : Client) (status : string) (limit : Z) :
  let filter := if decide (status = "" ∨ status = "all") then ""
                else statusFilter status in
  let lim := if decide (0 < limit) then limitClause limit else "" in
  listing_pattern (ListPosts c status limit) c
    ("/posts/?formats=html" ++ filter ++ lim) zeroPostsResponse (λ r, r)
  ∧ listing_pattern (ListPages c status limit) c
      ("/pages/?formats=html" ++ filter ++ lim) zeroPagesResponse (λ r, r).
Proof.
  cbv zeta. unfold ListPosts, ListPages, statusFilter, limitClause.
  assert (Hf : negb (String.eqb status "") && negb (String.eqb status "all")
               = if decide (status = "" ∨ status = "all") then false else true).
  { destruct (decide (status = "" ∨ status = "all")) as [[-> | ->] | Hn];
      [reflexivity..|].
    apply andb_true_iff; split; apply negb_true_iff, String.eqb_neq;
      intros ->; apply Hn; auto. }
  assert (Hl : (0 <? limit) = if decide (0 < limit) then true else false).
  { destruct (decide (0 < limit)); [apply Z.ltb_lt | apply Z.ltb_ge]; lia. }
  rewrite Hf, Hl.
  split; do 2 case_decide;
    rewrite ?append_nil_l, ?append_nil_r, ?append_assoc;
    first [ exact (listing_run c _ zeroPostsResponse (λ r, r))
          | exact (listing_run c _ zeroPagesResponse (λ r, r)) ].
Qed.

(** X8.  [ListTags] makes one GET to "/tags/?include=count.posts", with
    "&limit=" and the limit in decimal when the limit is positive, and
    returns the outcome of that call. *)
Theorem ListTags_spec (c : Client) (limit : Z) :
  let lim := if decide (0 < limit) then limitClause limit else "" in
  listing_pattern (ListTags c limit) c ("/tags/?include=count.posts" ++ lim)
    zeroTagsResponse (λ r, r).
Proof.
  cbv zeta. unfold ListTags, limitClause.
  assert (Hl : (0 <? limit) = if decide (0 < limit) then true else false).
  { destruct (decide (0 < limit)); [apply Z.ltb_lt | apply Z.ltb_ge]; lia. }
  rewrite Hl.
  case_decide; rewrite ?append_nil_r;
    exact (listing_run c _ zeroTagsResponse (λ r, r)).
Qed.

(** X9.  The listings without parameters make one GET each, to "/users/",
    "/settings/", "/newsletters/", "/webhooks/" and "/site/", and return the
    outcome of that call; [GetSite] returns the site of the decoded
    response. *)
Theorem plain_listings_spec (c : Client) :
  listing_pattern (ListUsers c) c "/users/" zeroUsersResponse (λ r, r)
  ∧ listing_pattern (GetSettings c) c "/settings/" zeroSettingsResponse (λ r, r)
  ∧ listing_pattern (ListNewsletters c) c "/newsletters/"
      zeroNewslettersResponse (λ r, r)
  ∧ listing_pattern (ListWebhooks c) c "/webhooks/" zeroWebhooksResponse (λ r, r)
  ∧ listing_pattern (GetSite c) c "/site/" zeroSiteResponse SiteResponse_Site.
Proof.
  split_and!.
  - exact (listing_run c _ zeroUsersResponse (λ r, r)).
  - exact (listing_run c _ zeroSettingsResponse (λ r, r)).
  - exact (listing_run c _ zeroNewslettersResponse (λ r, r)).
  - exact (listing_run c _ zeroWebhooksResponse (λ r, r)).
  - exact (listing_run c _ zeroSiteResponse SiteResponse_Site).
Qed.

(** X10.  [GetPage], [GetTag] and [GetUser] look a record up as [GetPost]
    does: by identifier first and, when that call fails for whatever reason,
    by slug; the call that succeeded decides, with the first element of its
    collection or the error "page not found: ", "tag not found: ",
    "user not found: " followed by the input.  Pages are asked for with
    "formats=html", tags and users without. *)
Theorem getByKey_others_spec :
  getByKey_pattern GetPage zeroPagesResponse Pages
    (λ k, "/pages/" ++ k ++ "/?formats=html")
    (λ k, "/pages/slug/" ++ k ++ "/?formats=html") "page"
  ∧ getByKey_pattern GetTag zeroTagsResponse Tags
      (λ k, "/tags/" ++ k ++ "/") (λ k, "/tags/slug/" ++ k ++ "/") "tag"
  ∧ getByKey_pattern GetUser zeroUsersResponse Users
      (λ k, "/users/" ++ k ++ "/") (λ k, "/users/slug/" ++ k ++ "/") "user".
Proof.
  split_and!; [apply GetPage_pattern | apply GetTag_pattern | apply GetUser_pattern].
Qed.

End Listings.

(** ** What the writes send *)

Section Sending.
Context {W : Type} {Wd : World W} {L : Lib}.
Context {B R : Type} {Benc : Marshaler B} {Rdec : Unmarshaler R}.
Context {ErrorResponse_dec : Unmarshaler ErrorResponse}.

(** The calls a call of [do] records when the request can be made. *)
Lemma do_sent (c : Client) (method path : string) (body : option B)
    (result : option R) (s : State W) (token : string) (payload : option string) :
  GenerateTokenWithTime (apiKey c) (fst (time_Now (world s))) = Ok token →
  encodedBody body = Ok payload →
  url_Parse (baseURL c ++ path) = None →
  trace (snd (do c method path body result s))
  = (trace s ++ [EvDo method path;
                 EvHTTP (apiRequest method (baseURL c ++ path) token payload)])%list.
Proof.
  intros Htok Henc Hurl. unfold do, bind, emit.
  rewrite (request_ok c method path body
             {| world := world s; trace := trace s ++ [EvDo method path] |}
             token payload Htok Henc Hurl).
  cbn [world trace].
  destruct (httpClient c _ _) as [r w].
  assert (Ht : ∀ A (a : A),
             trace (snd (a, {| world := w;
                               trace := (trace s ++ [EvDo method path])
                                        ++ [EvHTTP (apiRequest method (baseURL c ++ path)
                                                      token payload)] |}))
             = (trace s ++ [EvDo method path;
                            EvHTTP (apiRequest method (baseURL c ++ path) token
                                      payload)])%list).
  { intros A a. cbn [snd trace]. by rewrite <- app_assoc. }
  destruct r as [resp|err]; [|apply Ht].
  destruct (io_ReadAll (Body resp)) as [respBody [err|]]; [apply Ht|].
  destruct (400 <=? StatusCode resp).
  - destruct (json_Unmarshal respBody zeroErrorResponse) as [errResp [e|]];
      [apply Ht|].
    destruct (Errors errResp); apply Ht.
  - destruct result as [r|]; [|apply Ht].
    destruct (json_Unmarshal respBody r); apply Ht.
Qed.

End Sending.

Section Writes.
Context {W : Type} {Wd : World W} {L : Lib} {V : GoVersion}.
Context {ErrorResponse_dec : Unmarshaler ErrorResponse}.
Context {Posts_dec : Unmarshaler PostsResponse}.
Context {Pages_dec : Unmarshaler PagesResponse}.
Context {Tags_dec : Unmarshaler TagsResponse}.
Context {Webhooks_dec : Unmarshaler WebhooksResponse}.

(** A map with one key is written as that key and its value. *)
Lemma json_marshalMap_singleton {T : Type} (elem : T → string) (kind : string)
    (x : T) :
  json_marshalMap elem {[kind := [x]]}
  = "{" ++ json_appendString kind ++ ":[" ++ elem x ++ "]}".
Proof.
  unfold json_marshalMap. rewrite map_to_list_singleton.
  cbn [merge_sort merge_sort_aux merge_stack_flatten merge_list_to_stack
       merge_stack list_merge map JSON.join fst snd json_marshalSlice].
  rewrite !append_assoc. by repeat (rewrite ?append_cons, ?append_nil_l).
Qed.

(** The requests a write records: the lookups before it aside, the one that
    carries its body. *)
Ltac writer_tac Htok Hurl :=
  unfold bind, ret;
  match goal with
  | |- context [do (Benc := ?enc) ?c ?method ?path (Some ?body) (Some ?zero) ?s] =>
      let Hs := fresh "Hs" in
      pose proof (do_sent (Benc := enc) c method path (Some body) (Some zero) s
                    _ _ Htok eq_refl (Hurl path)) as Hs;
      destruct (do (Benc := enc) c method path (Some body) (Some zero) s)
        as [[r e] s'];
      cbn [snd] in Hs;
      assert (Hall : ∀ A (a : A), sent (trace (snd (a, s'))) = _)
        by (intros A a; cbn [snd]; rewrite Hs, sent_app; cbn [sent];
            rewrite json_marshalMap_singleton; reflexivity);
      destruct e; [apply Hall|];
      match goal with |- context [match ?l with [] => _ | _ :: _ => _ end] =>
        destruct l end; apply Hall
  end.

(** X11.  When the token can be minted and the URLs parse, a create or an
    update sends one request: POST for a create and PUT for an update, to the
    path of the collection or of the record, with the JSON content type and
    the token, and with a body that holds the record alone in an array under
    the name of its collection, the record written by the tags of its type.
    Encoding the body does not fail. *)
Theorem write_requests (c : Client) (s : State W) (token : string) :
  GenerateTokenWithTime (apiKey c) (fst (time_Now (world s))) = Ok token →
  (∀ path, url_Parse (baseURL c ++ path) = None) →
  let one method path kind text :=
    (sent (trace s)
     ++ [apiRequest method (baseURL c ++ path) token (Some (wrapped kind text))])%list in
  (∀ post,
     sent (trace (snd (CreatePost (Posts_enc := Posts_Marshaler) c post s)))
     = one "POST" "/posts/?source=html&formats=html" "posts" (Post_Marshal post))
  ∧ (∀ id post,
       sent (trace (snd (UpdatePost (Posts_enc := Posts_Marshaler) c id post s)))
       = one "PUT" ("/posts/" ++ id ++ "/?source=html&formats=html") "posts"
           (Post_Marshal post))
  ∧ (∀ page,
       sent (trace (snd (CreatePage (Pages_enc := Pages_Marshaler) c page s)))
       = one "POST" "/pages/?formats=html" "pages" (Page_Marshal page))
  ∧ (∀ id page,
       sent (trace (snd (UpdatePage (Pages_enc := Pages_Marshaler) c id page s)))
       = one "PUT" ("/pages/" ++ id ++ "/?formats=html") "pages" (Page_Marshal page))
  ∧ (∀ tag,
       sent (trace (snd (CreateTag (Tags_enc := Tags_Marshaler) c tag s)))
       = one "POST" "/tags/" "tags" (Tag_Marshal tag))
  ∧ (∀ id tag,
       sent (trace (snd (UpdateTag (Tags_enc := Tags_Marshaler) c id tag s)))
       = one "PUT" ("/tags/" ++ id ++ "/") "tags" (Tag_Marshal tag))
  ∧ (∀ webhook,
       sent (trace (snd (CreateWebhook (Webhooks_enc := Webhooks_Marshaler) c
                           webhook s)))
       = one "POST" "/webhooks/" "webhooks" (Webhook_Marshal webhook)).
Proof.
  intros Htok Hurl one. subst one. cbv beta.
  split_and!; intros;
    unfold CreatePost, UpdatePost, CreatePage, UpdatePage, CreateTag, UpdateTag,
      CreateWebhook; cbv zeta; writer_tac Htok Hurl.
Qed.

(** The record of a change of status is the status and the two times; every
    other field of the literal is empty and left out. *)
Lemma Post_literal_Marshal (updatedAt status publishedAt : string) :
  String.eqb status "" = false → json_appendString status = JSON.quote status →
  Post_Marshal (Post_literal updatedAt status publishedAt)
  = statusRecord status publishedAt updatedAt.
Proof.
  intros Hne Hq.
  unfold Post_Marshal, Post_fields, JSON.marshalStruct, statusRecord, optMember,
    stringField, boolField, sliceField.
  cbn [Post_literal Post_ID Post_UUID Post_Title Post_Slug Post_HTML Post_Mobiledoc
       Post_Status Post_Visibility Post_PublishedAt Post_CreatedAt Post_UpdatedAt
       Post_Excerpt Post_CustomExcerpt Post_FeatureImage Post_Featured Post_Tags
       Post_Authors].
  cbn [List.filter JSON.omitempty JSON.isEmpty String.eqb negb andb].
  rewrite Hne.
  destruct (String.eqb publishedAt ""), (String.eqb updatedAt "");
    cbn [List.filter negb andb map JSON.join JSON.name JSON.encoded];
    rewrite Hq, ?append_assoc; by repeat (rewrite ?append_cons, ?append_nil_l).
Qed.

Lemma Page_literal_Marshal (updatedAt status : string) :
  String.eqb status "" = false → json_appendString status = JSON.quote status →
  Page_Marshal (Page_literal updatedAt status) = statusRecord status "" updatedAt.
Proof.
  intros Hne Hq.
  unfold Page_Marshal, Page_fields, JSON.marshalStruct, statusRecord, optMember,
    stringField, sliceField.
  cbn [Page_literal Page_ID Page_UUID Page_Title Page_Slug Page_HTML Page_Mobiledoc
       Page_Status Page_Visibility Page_PublishedAt Page_CreatedAt Page_UpdatedAt
       Page_FeatureImage Page_Tags Page_Authors].
  cbn [List.filter JSON.omitempty JSON.isEmpty String.eqb negb andb].
  rewrite Hne.
  destruct (String.eqb updatedAt "");
    cbn [List.filter negb andb map JSON.join JSON.name JSON.encoded];
    rewrite Hq, ?append_assoc; by repeat (rewrite ?append_cons, ?append_nil_l).
Qed.

(** An update of a post or a page sends one request with the record. *)
Lemma UpdatePost_sent (c : Client) (id : string) (post : Post) (s : State W)
    (token : string) :
  GenerateTokenWithTime (apiKey c) (fst (time_Now (world s))) = Ok token →
  (∀ path, url_Parse (baseURL c ++ path) = None) →
  sent (trace (snd (UpdatePost (Posts_enc := Posts_Marshaler) c id post s)))
  = (sent (trace s)
     ++ [apiRequest "PUT" (baseURL c ++ "/posts/" ++ id ++ "/?source=html&formats=html")
           token (Some (wrapped "posts" (Post_Marshal post)))])%list.
Proof. intros Htok Hurl. unfold UpdatePost. cbv zeta. writer_tac Htok Hurl. Qed.

Lemma UpdatePage_sent (c : Client) (id : string) (page : Page) (s : State W)
    (token : string) :
  GenerateTokenWithTime (apiKey c) (fst (time_Now (world s))) = Ok token →
  (∀ path, url_Parse (baseURL c ++ path) = None) →
  sent (trace (snd (UpdatePage (Pages_enc := Pages_Marshaler) c id page s)))
  = (sent (trace s)
     ++ [apiRequest "PUT" (baseURL c ++ "/pages/" ++ id ++ "/?formats=html")
           token (Some (wrapped "pages" (Page_Marshal page)))])%list.
Proof. intros Htok Hurl. unfold UpdatePage. cbv zeta. writer_tac Htok Hurl. Qed.

(** X12.  Publishing, unpublishing and scheduling a post that the lookup
    found send one request after the lookup: a PUT to the path of the
    identifier of the post that was found, whatever key it was looked up by.
    Its body holds one record under "posts" with the status "published",
    "draft" or "scheduled", the time of publication when scheduling with a
    time that is not empty, and the [updated_at] of the post that was found
    when that is not empty; no other field is sent. *)
Theorem status_change_requests (c : Client) (idOrSlug publishAt : string)
    (s s1 : State W) (existing : Post) (token : string) :
  GetPost c idOrSlug s = (Ok existing, s1) →
  GenerateTokenWithTime (apiKey c) (fst (time_Now (world s1))) = Ok token →
  (∀ path, url_Parse (baseURL c ++ path) = None) →
  let put status publishedAt :=
    (sent (trace s1)
     ++ [apiRequest "PUT"
           (baseURL c ++ "/posts/" ++ Post_ID existing ++ "/?source=html&formats=html")
           token
           (Some (wrapped "posts"
                    (statusRecord status publishedAt (Post_UpdatedAt existing))))])%list in
  sent (trace (snd (PublishPost (Posts_enc := Posts_Marshaler) c idOrSlug s)))
  = put "published" ""
  ∧ sent (trace (snd (UnpublishPost (Posts_enc := Posts_Marshaler) c idOrSlug s)))
    = put "draft" ""
  ∧ sent (trace (snd (SchedulePost (Posts_enc := Posts_Marshaler) c idOrSlug
                        publishAt s)))
    = put "scheduled" publishAt.
Proof.
  intros Hget Htok Hurl put. subst put. cbv beta.
  unfold PublishPost, UnpublishPost, SchedulePost, bind. rewrite Hget.
  rewrite !(UpdatePost_sent c _ _ s1 token Htok Hurl).
  by rewrite !Post_literal_Marshal.
Qed.

(** X13.  Publishing a page that the lookup found sends one request after the
    lookup: a PUT to the path of the identifier of the page that was found,
    with one record under "pages" that holds the status "published" and,
    when it is not empty, the [updated_at] of the page that was found. *)
Theorem PublishPage_request (c : Client) (idOrSlug : string) (s s1 : State W)
    (existing : Page) (token : string) :
  GetPage c idOrSlug s = (Ok existing, s1) →
  GenerateTokenWithTime (apiKey c) (fst (time_Now (world s1))) = Ok token →
  (∀ path, url_Parse (baseURL c ++ path) = None) →
  sent (trace (snd (PublishPage (Pages_enc := Pages_Marshaler) c idOrSlug s)))
  = (sent (trace s1)
     ++ [apiRequest "PUT"
           (baseURL c ++ "/pages/" ++ Page_ID existing ++ "/?formats=html") token
           (Some (wrapped "pages"
                    (statusRecord "published" "" (Page_UpdatedAt existing))))])%list.
Proof.
  intros Hget Htok Hurl. unfold PublishPage, bind. rewrite Hget.
  rewrite (UpdatePage_sent c _ _ s1 token Htok Hurl).
  by rewrite Page_literal_Marshal.
Qed.

(** The calls of a lookup are GETs. *)
Lemma getByKey_calls {T Resp : Type} {dec : Unmarshaler Resp}
    (op : Client → string → M W (result T)) (zero : Resp) (proj : Resp → list T)
    (byID bySlug : string → string) (kind : string) (c : Client)
    (idOrSlug : string) (s : State W) :
  getByKey_pattern op zero proj byID bySlug kind →
  ∃ calls, doCalls (trace (snd (op c idOrSlug s)))
           = (doCalls (trace s) ++ calls)%list
           ∧ Forall (λ mp, fst mp = "GET") calls.
Proof.
  intros Hp. destruct (Hp c idOrSlug s) as (resp1 & e1 & s1 & calls & _ & Hc & _ & Hiff & Hnone & _).
  exists calls. split; [exact Hc|].
  destruct e1 as [err|].
  - rewrite (proj2 Hiff) by done. by repeat constructor.
  - rewrite (proj1 (Hnone eq_refl)). by repeat constructor.
Qed.

(** X14.  When the lookup fails, publishing, unpublishing and scheduling a
    post fail with the error of the lookup and stop there: the world is as
    the lookup left it and every call made is a GET, so nothing is
    updated. *)
Theorem status_change_lookup_failure (c : Client) (idOrSlug publishAt : string)
    (s s1 : State W) (err : error) :
  GetPost c idOrSlug s = (Err err, s1) →
  PublishPost (Posts_enc := Posts_Marshaler) c idOrSlug s = (Err err, s1)
  ∧ UnpublishPost (Posts_enc := Posts_Marshaler) c idOrSlug s = (Err err, s1)
  ∧ SchedulePost (Posts_enc := Posts_Marshaler) c idOrSlug publishAt s
    = (Err err, s1)
  ∧ ∃ calls, doCalls (trace s1) = (doCalls (trace s) ++ calls)%list
             ∧ Forall (λ mp, fst mp = "GET") calls.
Proof.
  intros Hget.
  unfold PublishPost, UnpublishPost, SchedulePost, bind.
  rewrite Hget. split_and!; try reflexivity.
  destruct (getByKey_calls _ _ _ _ _ _ c idOrSlug s GetPost_pattern)
    as (calls & Hc & Hall).
  rewrite Hget in Hc. by exists calls.
Qed.

(** X15.  When the lookup fails, publishing a page fails with the error of
    the lookup, leaves the world as the lookup left it, and has made GET
    calls only. *)
Theorem PublishPage_lookup_failure (c : Client) (idOrSlug : string)
    (s s1 : State W) (err : error) :
  GetPage c idOrSlug s = (Err err, s1) →
  PublishPage (Pages_enc := Pages_Marshaler) c idOrSlug s = (Err err, s1)
  ∧ ∃ calls, doCalls (trace s1) = (doCalls (trace s) ++ calls)%list
             ∧ Forall (λ mp, fst mp = "GET") calls.
Proof.
  intros Hget. unfold PublishPage, bind. rewrite Hget. split; [reflexivity|].
  destruct (getByKey_calls _ _ _ _ _ _ c idOrSlug s GetPage_pattern)
    as (calls & Hc & Hall).
  rewrite Hget in Hc. by exists calls.
Qed.

End Writes.

(** ** Uploading from a reader *)

Section Upload.
Context {W : Type} {Wd : World W} {L : Lib}.
Context {Images_dec : Unmarshaler ImagesResponse}.

(** What [UploadImageReader] does once the token is minted and the reader
    has been read to its end. *)
Lemma UploadImageReader_run (c : Client) (r : Reader) (filename : string)
    (s : State W) (token : string) :
  GenerateTokenWithTime (apiKey c) (fst (time_Now (world s))) = Ok token →
  readErr r = None →
  url_Parse (baseURL c ++ "/images/upload/") = None →
  let w1 := snd (time_Now (world s)) in
  let boundary := fst (multipart_randomBoundary w1) in
  let w2 := snd (multipart_randomBoundary w1) in
  let req := uploadRequest (baseURL c ++ "/images/upload/") token boundary
               filename (data r) in
  UploadImageReader c r filename s
  = (match fst (httpClient c req w2) with
     | Err err => Err err
     | Ok resp =>
         match readErr (Body resp) with
         | Some err => Err err
         | None =>
             if 400 <=? StatusCode resp then
               Err (errorString ("upload failed ("
                                 ++ JSON.strconv_Itoa (StatusCode resp) ++ "): "
                                 ++ data (Body resp)))
             else
               match json_Unmarshal (data (Body resp)) zeroImagesResponse with
               | (_, Some err) => Err err
               | (result, None) => Ok result
               end
         end
     end,
     {| world := snd (httpClient c req w2);
        trace := trace s ++ [EvHTTP req] |}).
Proof.
  intros Htok Hread Hurl. cbv zeta. unfold UploadImageReader, bind.
  rewrite GenerateToken_WithTime.
  destruct (ParseAPIKey (apiKey c)) as [[id secret]|err] eqn:Hkey.
  2:{ unfold GenerateTokenWithTime in Htok. by rewrite Hkey in Htok. }
  destruct (time_Now (world s)) as [now w1]. cbn [fst snd] in *.
  rewrite Htok. unfold liftW at 1. cbn [world trace].
  destruct (multipart_randomBoundary w1) as [boundary w2]. cbn [fst snd].
  unfold io_ReadAll. rewrite Hread.
  unfold http_NewRequest. rewrite Hurl.
  unfold emit, liftW. cbn [world trace].
  change (Header_Set (Header_Set _ _ _) _ _)
    with (uploadRequest (baseURL c ++ "/images/upload/") token boundary filename
            (data r)).
  destruct (httpClient c _ w2) as [[resp|err] w3]; [|reflexivity].
  cbn [fst snd]. destruct (readErr (Body resp)); [reflexivity|].
  destruct (400 <=? StatusCode resp); [reflexivity|].
  by destruct (json_Unmarshal (data (Body resp)) zeroImagesResponse) as [res [e|]].
Qed.

(** X16.  When the token can be minted, the reader can be read to its end
    and the URL parses, [UploadImageReader] sends one request and goes
    through [do] and the file system not at all.  The request is a POST to
    the base URL followed by "/images/upload/"; it carries the token and the
    multipart content type of the boundary that was drawn; its body is the
    header of a part named "file" with the file name given, then the bytes
    read, then the closing line. *)
Theorem UploadImageReader_request (c : Client) (r : Reader) (filename : string)
    (s : State W) (token : string) :
  GenerateTokenWithTime (apiKey c) (fst (time_Now (world s))) = Ok token →
  readErr r = None →
  url_Parse (baseURL c ++ "/images/upload/") = None →
  let boundary := fst (multipart_randomBoundary (snd (time_Now (world s)))) in
  let s' := snd (UploadImageReader c r filename s) in
  sent (trace s')
  = (sent (trace s)
     ++ [uploadRequest (baseURL c ++ "/images/upload/") token boundary filename
           (data r)])%list
  ∧ doCalls (trace s') = doCalls (trace s)
  ∧ opened (trace s') = opened (trace s).
Proof.
  intros Htok Hread Hurl. cbv zeta.
  rewrite (UploadImageReader_run c r filename s token Htok Hread Hurl).
  cbn [snd trace]. rewrite sent_app, doCalls_app, opened_app.
  cbn [sent doCalls opened]. by rewrite !app_nil_r.
Qed.

(** X17.  What an upload makes of the response, once its body is read.  From
    400 on it fails with "upload failed (status): " followed by the body as
    it came: the body is not decoded as an error envelope, unlike in [do].
    Below 400 the body is decoded as the list of images, and the upload
    succeeds exactly when the decoding does. *)
Theorem UploadImageReader_outcome (c : Client) (r : Reader) (filename : string)
    (s : State W) (token : string) (resp : Response) :
  GenerateTokenWithTime (apiKey c) (fst (time_Now (world s))) = Ok token →
  readErr r = None →
  url_Parse (baseURL c ++ "/images/upload/") = None →
  let w1 := snd (time_Now (world s)) in
  fst (httpClient c
         (uploadRequest (baseURL c ++ "/images/upload/") token
            (fst (multipart_randomBoundary w1)) filename (data r))
         (snd (multipart_randomBoundary w1))) = Ok resp →
  readErr (Body resp) = None →
  (400 <= StatusCode resp →
   fst (UploadImageReader c r filename s)
   = Err (errorString ("upload failed (" ++ JSON.strconv_Itoa (StatusCode resp)
                       ++ "): " ++ data (Body resp))))
  ∧ (StatusCode resp < 400 →
     fst (UploadImageReader c r filename s)
     = match json_Unmarshal (data (Body resp)) zeroImagesResponse with
       | (_, Some err) => Err err
       | (result, None) => Ok result
       end).
Proof.
  intros Htok Hread Hurl w1 Hresp Hbody. subst w1.
  rewrite (UploadImageReader_run c r filename s token Htok Hread Hurl).
  cbv zeta. cbn [fst]. rewrite Hresp, Hbody. split; intros Hst.
  - by assert ((400 <=? StatusCode resp) = true) as -> by lia.
  - by assert ((400 <=? StatusCode resp) = false) as -> by lia.
Qed.

(** X18.  An upload that cannot start sends nothing: with a credential that
    does not parse, or a reader that fails, [UploadImageReader] fails and no
    request reaches the HTTP client. *)
Theorem UploadImageReader_nothing_sent (c : Client) (r : Reader)
    (filename : string) (s : State W) :
  is_Ok (ParseAPIKey (apiKey c)) = false ∨ readErr r ≠ None →
  is_Ok (fst (UploadImageReader c r filename s)) = false
  ∧ trace (snd (UploadImageReader c r filename s)) = trace s.
Proof.
  intros Hbad. unfold UploadImageReader, bind.
  rewrite GenerateToken_WithTime.
  destruct (ParseAPIKey (apiKey c)) as [[id secret]|err] eqn:Hkey; [|done].
  destruct Hbad as [Hbad|Hbad]; [done|].
  destruct (time_Now (world s)) as [now w1].
  destruct (GenerateTokenWithTime (apiKey c) now) as [token|err]; [|done].
  unfold liftW. cbn [world trace].
  destruct (multipart_randomBoundary w1) as [boundary w2].
  unfold io_ReadAll. by destruct (readErr r).
Qed.

End Upload.

(** ** The credential and the token, continued *)

Lemma hex_Decode_error (s : string) :
  snd (hex_Decode s)
  = match firstNonHex s with
    | Some ch => Some (hex_InvalidByteError ch)
    | None => if Nat.even (String.length s) then None else Some hex_ErrLength
    end.
Proof.
  induction s as [|a|a b s IH] using string_pair_ind.
  - reflexivity.
  - cbn [hex_Decode firstNonHex]. rewrite isHexDigit_bool.
    by destruct (fromHexChar a).
  - cbn [hex_Decode firstNonHex String.length Nat.even].
    rewrite !isHexDigit_bool.
    destruct (fromHexChar a); [|reflexivity].
    destruct (fromHexChar b); [|reflexivity].
    destruct (hex_Decode s) as [bs e]. exact IH.
Qed.

Lemma hexDigit_not_colon (v : Z) :
  0 <= v < 256 →
  Ascii.eqb (hexDigit (Z.shiftr v 4)) ":" = false
  ∧ Ascii.eqb (hexDigit (Z.land v 15)) ":" = false.
Proof.
  intros Hv.
  assert (Hc : (0 <=? v) && (v <? 256) = true →
               Ascii.eqb (hexDigit (Z.shiftr v 4)) ":"
               || Ascii.eqb (hexDigit (Z.land v 15)) ":" = false).
  { intros Hb. destruct v as [|n|n]; try discriminate; [reflexivity|].
    repeat (try (destruct n as [n|n|]); try discriminate Hb);
      vm_compute; reflexivity. }
  apply orb_false_elim, Hc, andb_true_intro. split; lia.
Qed.

Lemma hex_EncodeToString_count (bs : bytes) :
  Forall (λ v, 0 <= v < 256) bs →
  strings_Count (hex_EncodeToString bs) ":" = O.
Proof.
  induction 1 as [|v bs Hv _ IH]; [reflexivity|].
  cbn [hex_EncodeToString strings_Count].
  destruct (hexDigit_not_colon v Hv) as [-> ->]. by rewrite IH.
Qed.

(** X19.  What [ParseAPIKey] reports, in the order it checks.  A credential
    without exactly one separator: "expected 'id:secret'".  Otherwise an
    empty id is reported before anything about the secret, and an empty
    secret next.  A secret that is not hexadecimal is reported as the error
    of the decoder wrapped after "invalid API key secret: ": the first byte
    that is no hexadecimal digit, or, when every byte is one, the odd
    length. *)
Theorem ParseAPIKey_error_text (apiKey : string) :
  (strings_Count apiKey ":" ≠ 1%nat →
   ParseAPIKey apiKey
   = Err (errorString "invalid API key format: expected 'id:secret'"))
  ∧ (∀ id sec,
       apiKey = id ++ ":" ++ sec →
       strings_Count id ":" = O → strings_Count sec ":" = O →
       ParseAPIKey apiKey
       = if String.eqb id "" then
           Err (errorString "invalid API key format: id cannot be empty")
         else if String.eqb sec "" then
           Err (errorString "invalid API key format: secret cannot be empty")
         else
           match firstNonHex sec with
           | Some ch =>
               Err (wrapError "invalid API key secret: " (hex_InvalidByteError ch))
           | None =>
               if Nat.even (String.length sec)
               then Ok (id, fst (hex_DecodeString sec))
               else Err (wrapError "invalid API key secret: " hex_ErrLength)
           end).
Proof.
  split.
  - intros Hn. unfold ParseAPIKey.
    pose proof (strings_Split_length apiKey ":") as Hl.
    destruct (strings_Split apiKey ":") as [|p [|q [|r l]]]; simpl in *;
      try reflexivity.
    congruence.
  - intros id sec -> Hid Hsec. rewrite ParseAPIKey_segments by done.
    destruct (String.eqb id ""); [reflexivity|].
    destruct (String.eqb sec ""); [reflexivity|].
    unfold hex_DecodeString. pose proof (hex_Decode_error sec) as He.
    destruct (hex_Decode sec) as [bs e]. cbn [fst snd] in *. subst e.
    destruct (firstNonHex sec); [reflexivity|].
    by destruct (Nat.even (String.length sec)).
Qed.

(** X20.  A credential written from an id and a secret is read back as that
    id and that secret: for an id that is not empty and holds no separator
    and a secret of at least one byte, parsing the id, the separator and the
    secret in hexadecimal gives the id and the bytes of the secret. *)
Theorem ParseAPIKey_roundtrip (id : string) (secret : bytes) :
  id ≠ "" → strings_Count id ":" = O →
  secret ≠ [] → Forall (λ v, 0 <= v < 256) secret →
  ParseAPIKey (id ++ ":" ++ hex_EncodeToString secret) = Ok (id, secret).
Proof.
  intros Hid Hcount Hne Hbytes.
  rewrite ParseAPIKey_segments by auto using hex_EncodeToString_count.
  apply String.eqb_neq in Hid as ->.
  destruct secret as [|v secret]; [done|].
  rewrite hex_roundtrip by done. reflexivity.
Qed.

(** ** Strings through the encoder and the decoder *)

(** The length of a sequence depends on the bytes of the sequence alone. *)
Lemma utf8_seq_two c c1 r1 y :
  JSON.utf8_seq c (String c1 r1) = 2%nat → JSON.utf8_seq c (String c1 y) = 2%nat.
Proof.
  unfold JSON.utf8_seq.
  destruct ((194 <=? JSON.code c) && (JSON.code c <=? 223)); [done|].
  destruct (negb _); [done|].
  destruct r1 as [|c2 r2]; [done|].
  destruct (negb _); [done|].
  destruct ((224 <=? JSON.code c) && (JSON.code c <=? 239)); [done|].
  destruct ((240 <=? JSON.code c) && (JSON.code c <=? 244)); [|done].
  destruct r2 as [|c3 r3]; [done|]. by destruct (JSON.between 128 191 c3).
Qed.

Lemma utf8_seq_three c c1 c2 r2 y :
  JSON.utf8_seq c (String c1 (String c2 r2)) = 3%nat →
  JSON.utf8_seq c (String c1 (String c2 y)) = 3%nat.
Proof.
  unfold JSON.utf8_seq.
  destruct ((194 <=? JSON.code c) && (JSON.code c <=? 223)).
  { by destruct (JSON.between 128 191 c1). }
  destruct (negb _); [done|].
  destruct (negb _); [done|].
  destruct ((224 <=? JSON.code c) && (JSON.code c <=? 239)); [done|].
  destruct ((240 <=? JSON.code c) && (JSON.code c <=? 244)); [|done].
  destruct r2 as [|c3 r3]; [done|]. by destruct (JSON.between 128 191 c3).
Qed.

Lemma utf8_seq_four c c1 c2 c3 r3 y :
  JSON.utf8_seq c (String c1 (String c2 (String c3 r3))) = 4%nat →
  JSON.utf8_seq c (String c1 (String c2 (String c3 y))) = 4%nat.
Proof.
  unfold JSON.utf8_seq.
  destruct ((194 <=? JSON.code c) && (JSON.code c <=? 223)).
  { by destruct (JSON.between 128 191 c1). }
  destruct (negb _); [done|].
  destruct (negb _); [done|].
  destruct ((224 <=? JSON.code c) && (JSON.code c <=? 239)); [done|].
  done.
Qed.

Lemma code_chr c : JSON.chr (JSON.code c) = c.
Proof. unfold JSON.chr, JSON.code. by rewrite N2Z.id, ascii_N_embedding. Qed.

Section StringCodec.
Context {V : GoVersion}.

Lemma separators_scan c c1 c2 x :
  (JSON.code c =? 226) && (JSON.code c1 =? 128)
  && ((JSON.code c2 =? 168) || (JSON.code c2 =? 169)) = true →
  JSON.scan_string ("\u202" ++ String (hexDigit (Z.land (JSON.code c2) 15)) EmptyString ++ x)
  = JSON.prepend (String c (String c1 (String c2 EmptyString))) (JSON.scan_string x).
Proof.
  intros H. apply andb_prop in H as [H H2]. apply andb_prop in H as [H0 H1].
  apply Z.eqb_eq in H0, H1.
  rewrite <- (code_chr c), <- (code_chr c1), <- (code_chr c2), H0, H1.
  apply orb_prop in H2 as [H2|H2]; apply Z.eqb_eq in H2; rewrite H2; reflexivity.
Qed.

Lemma json_escapeByte_scan (c : ascii) (x : string) :
  (JSON.code c <? 128) && negb (json_htmlSafe c) = true →
  JSON.scan_string (json_escapeByte c ++ x)
  = JSON.prepend (String c EmptyString) (JSON.scan_string x).
Proof.
  unfold json_escapeByte. destruct go1_22.
  - destruct c as [[] [] [] [] [] [] [] []]; intros Hc; try discriminate Hc;
      reflexivity.
  - destruct c as [[] [] [] [] [] [] [] []]; intros Hc; try discriminate Hc;
      reflexivity.
Qed.

Lemma json_htmlSafe_scan (c : ascii) :
  json_htmlSafe c = true →
  Ascii.eqb c JSON.dquote = false ∧ Ascii.eqb c JSON.backslash = false
  ∧ (JSON.code c <? 32) = false ∧ (JSON.code c <? 128) = true.
Proof.
  destruct c as [[] [] [] [] [] [] [] []]; intros Hc; try discriminate Hc;
    by vm_compute.
Qed.

Lemma high_byte_scan (c : ascii) :
  (JSON.code c <? 128) = false →
  Ascii.eqb c JSON.dquote = false ∧ Ascii.eqb c JSON.backslash = false
  ∧ (JSON.code c <? 32) = false.
Proof.
  destruct c as [[] [] [] [] [] [] [] []]; intros Hc; try discriminate Hc;
    by vm_compute.
Qed.

Lemma json_string_scan (s : string) :
  ∀ rest, JSON.scan_string (json_stringBody s ++ String JSON.dquote rest)
          = Some (toValidRunes s, rest).
Proof.
  assert (Hn : ∀ n s, (String.length s < n)%nat →
               ∀ rest, JSON.scan_string (json_stringBody s ++ String JSON.dquote rest)
                       = Some (toValidRunes s, rest)).
  2:{ apply (Hn (S (String.length s))). lia. }
  induction n as [|n IH]; intros s0 Hlen rest; [lia|].
  destruct s0 as [|c r].
  { rewrite append_nil_l. cbn [JSON.scan_string]. by rewrite Ascii.eqb_refl. }
  cbn [String.length] in Hlen.
  cbn [json_stringBody toValidRunes].
  destruct (JSON.code c <? 128) eqn:Hc.
  - destruct (json_htmlSafe c) eqn:Hsafe.
    + destruct (json_htmlSafe_scan c Hsafe) as (H1 & H2 & H3 & H4).
      rewrite !append_cons, append_nil_l. cbn [JSON.scan_string].
      rewrite H1, H2, H3, H4, IH by lia. reflexivity.
    + rewrite append_assoc, json_escapeByte_scan by (by rewrite Hc, Hsafe).
      rewrite IH by lia. reflexivity.
  - destruct (high_byte_scan c Hc) as (H1 & H2 & H3).
    assert (Hbad : ∀ x,
               JSON.scan_string ("\ufffd" ++ x)
               = JSON.prepend (JSON.encodeRune JSON.replacementChar)
                   (JSON.scan_string x)) by reflexivity.
    destruct (JSON.utf8_seq c r) as [|[|[|[|[|k]]]]] eqn:Hseq;
      try (rewrite append_assoc, Hbad, IH by lia; reflexivity).
    + destruct r as [|c1 r1]; [done|].
      rewrite !append_cons. cbn [JSON.scan_string].
      rewrite H1, H2, H3, Hc, (utf8_seq_two _ _ _ _ Hseq).
      cbn [String.length] in Hlen. rewrite IH by lia. reflexivity.
    + destruct r as [|c1 [|c2 r2]];
        try (rewrite append_assoc, Hbad, IH by lia; reflexivity).
      cbn [String.length] in Hlen.
      destruct ((JSON.code c =? 226) && (JSON.code c1 =? 128)
                && ((JSON.code c2 =? 168) || (JSON.code c2 =? 169))) eqn:Hsep.
      * rewrite !append_assoc, (separators_scan c c1 c2) by done.
        rewrite IH by lia. reflexivity.
      * rewrite !append_cons. cbn [JSON.scan_string].
        rewrite H1, H2, H3, Hc, (utf8_seq_three _ _ _ _ _ Hseq).
        rewrite IH by lia. reflexivity.
    + destruct r as [|c1 [|c2 [|c3 r3]]];
        try (rewrite append_assoc, Hbad, IH by lia; reflexivity).
      cbn [String.length] in Hlen.
      rewrite !append_cons. cbn [JSON.scan_string].
      rewrite H1, H2, H3, Hc, (utf8_seq_four _ _ _ _ _ _ Hseq).
      rewrite IH by lia. reflexivity.
Qed.

Lemma toValidRunes_valid (s : string) :
  utf8_ValidString s = true → toValidRunes s = s.
Proof.
  assert (Hn : ∀ n s, (String.length s < n)%nat →
               utf8_ValidString s = true → toValidRunes s = s).
  2:{ apply (Hn (S (String.length s))). lia. }
  induction n as [|n IH]; intros s0 Hlen; [lia|].
  destruct s0 as [|c r]; [done|].
  cbn [String.length] in Hlen. cbn [utf8_ValidString toValidRunes].
  destruct (JSON.code c <? 128).
  - intros Hv. by rewrite IH by (done || lia).
  - destruct (JSON.utf8_seq c r) as [|[|[|[|[|k]]]]]; try done.
    + destruct r as [|c1 r1]; [done|]. cbn [String.length] in Hlen.
      intros Hv. by rewrite IH by (done || lia).
    + destruct r as [|c1 [|c2 r2]]; try done. cbn [String.length] in Hlen.
      intros Hv. by rewrite IH by (done || lia).
    + destruct r as [|c1 [|c2 [|c3 r3]]]; try done. cbn [String.length] in Hlen.
      intros Hv. by rewrite IH by (done || lia).
Qed.
End StringCodec.
